(** * Deshi Grocery Hub: storage schema, row-level policies and cart / order flows

    The development embeds

    - the migration [supabase/migrations/20250904073112_*.sql]: the six
      tables with their column defaults and constraints, the row-level
      security policies, the [handle_new_user] trigger and the
      [update_updated_at_column] triggers;
    - the client functions that read and write these tables:
      [ProductCard.addToCart], [ProductCard.updateQuantity],
      [Cart.fetchCartItems], [Cart.updateQuantity], [Cart.removeFromCart],
      [Cart.calculateTotal], [Orders.fetchOrders] and [AuthForm.handleSubmit].

    Amounts in the database are exact decimals; in the browser they are
    JavaScript numbers, IEEE 754 doubles, and are modelled as such.

    Tables are lists of rows, a request is a function from the database
    state to an outcome and a new state, and the policy engine is an
    interpreter that filters every statement through the policies of its
    table. *)

From Stdlib Require Import List ZArith NArith String Bool Lia.
From Stdlib Require Import Sorted Permutation.
From Stdlib Require Floats.SpecFloat.
Import ListNotations.

Local Open Scope Z_scope.

(** ** Values *)

(** [uuid] columns.  [gen_random_uuid()] is modelled as a supply of
    identifiers that are not yet used in the table. *)
Definition uuid := N.

(** [TIMESTAMP WITH TIME ZONE], as a number of ticks. *)
Definition timestamptz := Z.

(** [DECIMAL(10,2)]: an exact number of hundredths.  [40.00] is [4000]. *)
Definition decimal := Z.

Definition decimal_10_2_ok (d : decimal) : bool := Z.abs d <? 10 ^ 10.

(** [INTEGER]: 32 bits, signed. *)
Definition integer_ok (n : Z) : bool := (- 2 ^ 31 <=? n) && (n <? 2 ^ 31).

(** JavaScript numbers: IEEE 754 binary64, with the correctly rounded
    operations of the standard (round to nearest, ties to even). *)
Module Double.

Definition t : Set := SpecFloat.spec_float.

Definition prec : Z := 53.
Definition emax : Z := 1024.

(** An integer as a number; exact below [2^53]. *)
Definition of_Z (n : Z) : t := SpecFloat.binary_normalize prec emax n 0 false.

(** A [DECIMAL(10,2)] column arrives as a JSON number with two decimals,
    and [JSON.parse] gives the double nearest to it: the correctly rounded
    quotient of the hundredths by 100. *)
Definition of_decimal (d : decimal) : t :=
  SpecFloat.SFdiv prec emax (of_Z d) (of_Z 100).

(** [x + y] and [x * y]. *)
Definition add (x y : t) : t := SpecFloat.SFadd prec emax x y.
Definition mul (x y : t) : t := SpecFloat.SFmul prec emax x y.

(** The text of [x.toFixed(2)]: a sign and the integer [n] of hundredths
    "for which [n / 100 - x] is as close to zero as possible", the larger
    one when there are two; another text for NaN, the infinities and from
    [10^21] on. *)
Inductive fixed : Type :=
| Fixed (negative : bool) (hundredths : Z)
| NotFixed.

Definition toFixed2 (x : t) : fixed :=
  match x with
  | SpecFloat.S754_zero _ => Fixed false 0
  | SpecFloat.S754_finite s m e =>
      if 0 <=? e then
        if 10 ^ 21 <=? Z.pos m * 2 ^ e then NotFixed
        else Fixed s (100 * Z.pos m * 2 ^ e)
      else
        if 10 ^ 21 * 2 ^ (- e) <=? Z.pos m then NotFixed
        else Fixed s ((200 * Z.pos m + 2 ^ (- e)) / 2 ^ (1 - e))
  | _ => NotFixed
  end.

End Double.

Definition gen_random_uuid (used : list uuid) : uuid :=
  N.succ (fold_right N.max 0%N used).
Arguments gen_random_uuid : simpl never.

(** Errors a statement is rejected with (SQLSTATE in brackets). *)
Inductive pg_error : Type :=
| NumericValueOutOfRange   (* 22003 *)
| NotNullViolation         (* 23502 *)
| ForeignKeyViolation      (* 23503 *)
| UniqueViolation          (* 23505 *)
| CheckViolation           (* 23514 *)
| RlsViolation.            (* 42501: new row violates row-level security policy *)

Inductive result (A : Type) : Type :=
| Ok (a : A)
| Err (e : pg_error).
Arguments Ok {A} a.
Arguments Err {A} e.

Definition bind {A B : Type} (m : result A) (k : A -> result B) : result B :=
  match m with
  | Ok a => k a
  | Err e => Err e
  end.

Definition guard (b : bool) (e : pg_error) : result unit :=
  if b then Ok tt else Err e.

Declare Scope result_scope.
Delimit Scope result_scope with result.
Notation "x <- m ;; k" := (bind m (fun x => k))
  (at level 100, m at next level, right associativity) : result_scope.

(** JSON scalars of [raw_user_meta_data]; the signup form only sends strings
    and a boolean. *)
Inductive json : Type :=
| JNull
| JBool (b : bool)
| JString (s : string).

(** The [->>] operator: the member as text, SQL [NULL] when the key is
    absent or the member is JSON [null]. *)
Fixpoint json_get_text (o : list (string * json)) (key : string) : option string :=
  match o with
  | [] => None
  | (k, v) :: rest =>
      if String.eqb k key then
        match v with
        | JNull => None
        | JBool true => Some "true"%string
        | JBool false => Some "false"%string
        | JString s => Some s
        end
      else json_get_text rest key
  end.

(** ** Rows of the seven tables ([auth.users] and the six of the migration) *)

Module AuthUser.
Record row : Type := {
  id : uuid;
  raw_user_meta_data : list (string * json)
}.
End AuthUser.

Module Profile.
Record row : Type := {
  id : uuid;
  user_id : uuid;
  full_name : option string;
  phone : option string;
  language : option string;
  data_collection_consent : option bool;
  created_at : timestamptz;
  updated_at : timestamptz
}.
End Profile.

Module Category.
Record row : Type := {
  id : uuid;
  name : string;
  name_hi : option string;
  icon_url : option string;
  sort_order : option Z;
  is_active : option bool;
  created_at : timestamptz
}.
End Category.

Module Product.
Record row : Type := {
  id : uuid;
  name : string;
  name_hi : option string;
  description : option string;
  description_hi : option string;
  price : decimal;
  original_price : option decimal;
  discount_percentage : option Z;
  image_url : option string;
  category_id : option uuid;
  brand : option string;
  unit : option string;
  stock_quantity : option Z;
  is_active : option bool;
  created_at : timestamptz;
  updated_at : timestamptz
}.
End Product.

Module CartLine.
Record row : Type := {
  id : uuid;
  user_id : uuid;
  product_id : uuid;
  quantity : Z;
  created_at : timestamptz;
  updated_at : timestamptz
}.
End CartLine.

Module Order.
Record row : Type := {
  id : uuid;
  user_id : uuid;
  total_amount : decimal;
  delivery_fee : option decimal;
  discount_amount : option decimal;
  status : option string;
  payment_method : option string;
  delivery_address : string;
  phone : string;
  created_at : timestamptz;
  updated_at : timestamptz
}.
End Order.

Module OrderItem.
Record row : Type := {
  id : uuid;
  order_id : uuid;
  product_id : uuid;
  quantity : Z;
  unit_price : decimal;
  total_price : decimal;
  created_at : timestamptz
}.
End OrderItem.

(** The database state. *)
Record db : Type := {
  auth_users : list AuthUser.row;
  profiles : list Profile.row;
  categories : list Category.row;
  products : list Product.row;
  cart : list CartLine.row;
  orders : list Order.row;
  order_items : list OrderItem.row
}.

Definition with_auth_users (t : list AuthUser.row) (d : db) : db :=
  {| auth_users := t; profiles := profiles d; categories := categories d;
     products := products d; cart := cart d; orders := orders d;
     order_items := order_items d |}.
Definition with_profiles (t : list Profile.row) (d : db) : db :=
  {| auth_users := auth_users d; profiles := t; categories := categories d;
     products := products d; cart := cart d; orders := orders d;
     order_items := order_items d |}.
Definition with_categories (t : list Category.row) (d : db) : db :=
  {| auth_users := auth_users d; profiles := profiles d; categories := t;
     products := products d; cart := cart d; orders := orders d;
     order_items := order_items d |}.
Definition with_products (t : list Product.row) (d : db) : db :=
  {| auth_users := auth_users d; profiles := profiles d; categories := categories d;
     products := t; cart := cart d; orders := orders d;
     order_items := order_items d |}.
Definition with_cart (t : list CartLine.row) (d : db) : db :=
  {| auth_users := auth_users d; profiles := profiles d; categories := categories d;
     products := products d; cart := t; orders := orders d;
     order_items := order_items d |}.
Definition with_orders (t : list Order.row) (d : db) : db :=
  {| auth_users := auth_users d; profiles := profiles d; categories := categories d;
     products := products d; cart := cart d; orders := t;
     order_items := order_items d |}.
Definition with_order_items (t : list OrderItem.row) (d : db) : db :=
  {| auth_users := auth_users d; profiles := profiles d; categories := categories d;
     products := products d; cart := cart d; orders := orders d;
     order_items := t |}.

(** The request context: the identity of the session's token, which
    [auth.uid()] returns ([None] for an anonymous request), and the
    transaction time [now()]. *)
Record context : Type := {
  auth_uid : option uuid;
  now : timestamptz
}.

(** [auth.uid() = c] under SQL's three-valued logic: a [NULL] identity
    makes the comparison [NULL], which a policy treats as false. *)
Definition uid_is (uid : option uuid) (c : uuid) : bool :=
  match uid with
  | Some u => N.eqb u c
  | None => false
  end.

(** [col = true] on a nullable boolean column. *)
Definition is_true (b : option bool) : bool :=
  match b with
  | Some true => true
  | _ => false
  end.

Definition in_set (s : option string) (allowed : list string) : bool :=
  match s with
  | None => true   (* a CHECK that evaluates to NULL passes *)
  | Some v => existsb (String.eqb v) allowed
  end.

(** ** The policy engine

    Row-level security is enabled on every table of the migration, so a
    statement of a client sees a row only through a policy of its table
    for that command; a command without a policy touches nothing. *)

Record policies (row : Type) : Type := {
  for_select : option (row -> bool);   (* FOR SELECT USING *)
  for_insert : option (row -> bool);   (* FOR INSERT WITH CHECK *)
  for_update : option (row -> bool);   (* FOR UPDATE USING, also its WITH CHECK *)
  for_delete : option (row -> bool)    (* FOR DELETE USING *)
}.
Arguments for_select {row} _.
Arguments for_insert {row} _.
Arguments for_update {row} _.
Arguments for_delete {row} _.

(** What the engine needs to know of a table. *)
Record table (row : Type) : Type := {
  rows : db -> list row;
  with_rows : list row -> db -> db;
  policy : option uuid -> db -> policies row;
  types_ok : row -> bool;                 (* INTEGER and DECIMAL(10,2) ranges *)
  checks_ok : row -> bool;                (* CHECK constraints *)
  uniques : list (row -> row -> bool);    (* PRIMARY KEY and UNIQUE: same key *)
  references_ok : db -> row -> bool;      (* FOREIGN KEY constraints *)
  before_update : timestamptz -> row -> row   (* BEFORE UPDATE row trigger *)
}.
Arguments rows {row} _ _.
Arguments with_rows {row} _ _ _.
Arguments policy {row} _ _ _.
Arguments types_ok {row} _ _.
Arguments checks_ok {row} _ _.
Arguments uniques {row} _.
Arguments references_ok {row} _ _ _.
Arguments before_update {row} _ _ _.

Definition allows {row : Type} (p : option (row -> bool)) (r : row) : bool :=
  match p with
  | Some f => f r
  | None => false
  end.

Section Engine.
Context {row : Type} (T : table row).

(** The row passes the SELECT policy. *)
Definition visible (uid : option uuid) (d : db) (r : row) : bool :=
  allows (for_select (policy T uid d)) r.

(** No other row of [tbl] has the key of [r], for every unique constraint. *)
Definition unique_ok (tbl : list row) (r : row) : bool :=
  forallb (fun same => (List.length (filter (same r) tbl) <=? 1)%nat) (uniques T).

(** Constraints on a row [r] written into the state [d]. *)
Definition constrain (d : db) (r : row) : result unit :=
  (_ <- guard (checks_ok T r) CheckViolation ;;
   _ <- guard (unique_ok (rows T d) r) UniqueViolation ;;
   guard (references_ok T d r) ForeignKeyViolation)%result.

Fixpoint constrain_all (d : db) (rs : list row) : result unit :=
  match rs with
  | [] => Ok tt
  | r :: rest => (_ <- constrain d r ;; constrain_all d rest)%result
  end.

(** [select ... where wh]. *)
Definition sql_select (c : context) (wh : row -> bool) (d : db) : list row :=
  filter (fun r => visible (auth_uid c) d r && wh r) (rows T d).

(** [insert r]; the client does not ask for the row back, so only the
    INSERT policy applies. *)
Definition sql_insert (c : context) (r : row) (d : db) : result db :=
  (_ <- guard (types_ok T r) NumericValueOutOfRange ;;
   _ <- guard (allows (for_insert (policy T (auth_uid c) d)) r) RlsViolation ;;
   let d' := with_rows T (rows T d ++ [r]) d in
   _ <- constrain d' r ;;
   Ok d')%result.

(** [insert r] by the owner of the table (a [SECURITY DEFINER] function
    of the migration, or the service role), to whom the policies do not
    apply. *)
Definition sql_insert_owner (r : row) (d : db) : result db :=
  (_ <- guard (types_ok T r) NumericValueOutOfRange ;;
   let d' := with_rows T (rows T d ++ [r]) d in
   _ <- constrain d' r ;;
   Ok d')%result.

(** [update ... set assign where wh] by the owner of the table. *)
Definition sql_update_owner (t : timestamptz) (wh : row -> bool) (assign : row -> row)
    (d : db) : result (nat * db) :=
  let new := fun r => before_update T t (assign r) in
  let changed := map new (filter wh (rows T d)) in
  (_ <- guard (forallb (types_ok T) changed) NumericValueOutOfRange ;;
   let d' := with_rows T (map (fun r => if wh r then new r else r) (rows T d)) d in
   _ <- constrain_all d' changed ;;
   Ok (List.length changed, d'))%result.

(** The rows an [update ... where wh] acts on. *)
Definition update_hits (c : context) (wh : row -> bool) (d : db) (r : row) : bool :=
  visible (auth_uid c) d r && allows (for_update (policy T (auth_uid c) d)) r && wh r.

(** [update ... set assign where wh]: the number of rows affected and the
    new state.  The new row must pass the policies again. *)
Definition sql_update (c : context) (wh : row -> bool) (assign : row -> row)
    (d : db) : result (nat * db) :=
  let hit := update_hits c wh d in
  let new := fun r => before_update T (now c) (assign r) in
  let changed := map new (filter hit (rows T d)) in
  (_ <- guard (forallb (types_ok T) changed) NumericValueOutOfRange ;;
   _ <- guard (forallb (fun r => allows (for_update (policy T (auth_uid c) d)) r
                                 && visible (auth_uid c) d r) changed)
              RlsViolation ;;
   let d' := with_rows T (map (fun r => if hit r then new r else r) (rows T d)) d in
   _ <- constrain_all d' changed ;;
   Ok (List.length changed, d'))%result.

(** The rows a [delete ... where wh] removes. *)
Definition delete_hits (c : context) (wh : row -> bool) (d : db) (r : row) : bool :=
  visible (auth_uid c) d r && allows (for_delete (policy T (auth_uid c) d)) r && wh r.

(** [delete ... where wh]: the number of rows removed and the new state.
    No table a client can delete from is referenced by another one, so
    no cascade is involved. *)
Definition sql_delete (c : context) (wh : row -> bool) (d : db) : nat * db :=
  let hit := delete_hits c wh d in
  (List.length (filter hit (rows T d)),
   with_rows T (filter (fun r => negb (hit r)) (rows T d)) d).
End Engine.

(** ** The schema: constraints and policies of each table *)

Definition user_exists (d : db) (u : uuid) : bool :=
  existsb (fun a => N.eqb (AuthUser.id a) u) (auth_users d).
Definition product_exists (d : db) (p : uuid) : bool :=
  existsb (fun a => N.eqb (Product.id a) p) (products d).
Definition category_exists (d : db) (p : uuid) : bool :=
  existsb (fun a => N.eqb (Category.id a) p) (categories d).
Definition order_exists (d : db) (o : uuid) : bool :=
  existsb (fun a => N.eqb (Order.id a) o) (orders d).

Definition opt_ok {A : Type} (f : A -> bool) (o : option A) : bool :=
  match o with
  | Some a => f a
  | None => true
  end.

(** [public.profiles] *)
Definition profiles_policy (uid : option uuid) (_ : db) : policies Profile.row :=
  {| for_select := Some (fun r => uid_is uid (Profile.user_id r));
     for_insert := Some (fun r => uid_is uid (Profile.user_id r));
     for_update := Some (fun r => uid_is uid (Profile.user_id r));
     for_delete := None |}.

(** The trigger [update_profiles_updated_at]: [update_updated_at_column()]
    sets [NEW.updated_at = now()] before every update of a row. *)
Definition update_profiles_updated_at (t : timestamptz) (r : Profile.row) : Profile.row :=
  {| Profile.id := Profile.id r; Profile.user_id := Profile.user_id r;
     Profile.full_name := Profile.full_name r; Profile.phone := Profile.phone r;
     Profile.language := Profile.language r;
     Profile.data_collection_consent := Profile.data_collection_consent r;
     Profile.created_at := Profile.created_at r; Profile.updated_at := t |}.

Definition profiles_table : table Profile.row :=
  {| rows := profiles;
     with_rows := with_profiles;
     policy := profiles_policy;
     types_ok := fun _ => true;
     checks_ok := fun r => in_set (Profile.language r) ["en"; "hi"]%string;
     uniques := [ (fun a b => N.eqb (Profile.id a) (Profile.id b));
                  (fun a b => N.eqb (Profile.user_id a) (Profile.user_id b)) ];
     references_ok := fun d r => user_exists d (Profile.user_id r);
     before_update := update_profiles_updated_at |}.

(** [public.categories] *)
Definition categories_policy (_ : option uuid) (_ : db) : policies Category.row :=
  {| for_select := Some (fun r => is_true (Category.is_active r));
     for_insert := None;
     for_update := None;
     for_delete := None |}.

Definition categories_table : table Category.row :=
  {| rows := categories;
     with_rows := with_categories;
     policy := categories_policy;
     types_ok := fun r => opt_ok integer_ok (Category.sort_order r);
     checks_ok := fun _ => true;
     uniques := [ (fun a b => N.eqb (Category.id a) (Category.id b)) ];
     references_ok := fun _ _ => true;
     before_update := fun _ r => r |}.

(** [public.products] *)
Definition products_policy (_ : option uuid) (_ : db) : policies Product.row :=
  {| for_select := Some (fun r => is_true (Product.is_active r));
     for_insert := None;
     for_update := None;
     for_delete := None |}.

(** The trigger [update_products_updated_at]: [update_updated_at_column()]
    sets [NEW.updated_at = now()] before every update of a row. *)
Definition update_products_updated_at (t : timestamptz) (r : Product.row) : Product.row :=
  {| Product.id := Product.id r; Product.name := Product.name r;
     Product.name_hi := Product.name_hi r;
     Product.description := Product.description r;
     Product.description_hi := Product.description_hi r;
     Product.price := Product.price r;
     Product.original_price := Product.original_price r;
     Product.discount_percentage := Product.discount_percentage r;
     Product.image_url := Product.image_url r;
     Product.category_id := Product.category_id r;
     Product.brand := Product.brand r; Product.unit := Product.unit r;
     Product.stock_quantity := Product.stock_quantity r;
     Product.is_active := Product.is_active r;
     Product.created_at := Product.created_at r; Product.updated_at := t |}.

Definition products_table : table Product.row :=
  {| rows := products;
     with_rows := with_products;
     policy := products_policy;
     types_ok := fun r => decimal_10_2_ok (Product.price r)
                          && opt_ok decimal_10_2_ok (Product.original_price r)
                          && opt_ok integer_ok (Product.discount_percentage r)
                          && opt_ok integer_ok (Product.stock_quantity r);
     checks_ok := fun _ => true;
     uniques := [ (fun a b => N.eqb (Product.id a) (Product.id b)) ];
     references_ok := fun d r => opt_ok (category_exists d) (Product.category_id r);
     before_update := update_products_updated_at |}.

(** [public.cart] *)
Definition cart_policy (uid : option uuid) (_ : db) : policies CartLine.row :=
  {| for_select := Some (fun r => uid_is uid (CartLine.user_id r));
     for_insert := Some (fun r => uid_is uid (CartLine.user_id r));
     for_update := Some (fun r => uid_is uid (CartLine.user_id r));
     for_delete := Some (fun r => uid_is uid (CartLine.user_id r)) |}.

(** The trigger [update_cart_updated_at]: [update_updated_at_column()]
    sets [NEW.updated_at = now()] before every update of a row. *)
Definition update_cart_updated_at (t : timestamptz) (r : CartLine.row) : CartLine.row :=
  {| CartLine.id := CartLine.id r; CartLine.user_id := CartLine.user_id r;
     CartLine.product_id := CartLine.product_id r;
     CartLine.quantity := CartLine.quantity r;
     CartLine.created_at := CartLine.created_at r; CartLine.updated_at := t |}.

(** [UNIQUE(user_id, product_id)] *)
Definition same_user_product (a b : CartLine.row) : bool :=
  N.eqb (CartLine.user_id a) (CartLine.user_id b)
  && N.eqb (CartLine.product_id a) (CartLine.product_id b).

Definition cart_table : table CartLine.row :=
  {| rows := cart;
     with_rows := with_cart;
     policy := cart_policy;
     types_ok := fun r => integer_ok (CartLine.quantity r);
     checks_ok := fun r => 0 <? CartLine.quantity r;
     uniques := [ (fun a b => N.eqb (CartLine.id a) (CartLine.id b));
                  same_user_product ];
     references_ok := fun d r => user_exists d (CartLine.user_id r)
                                 && product_exists d (CartLine.product_id r);
     before_update := update_cart_updated_at |}.

(** [public.orders] *)
Definition orders_policy (uid : option uuid) (_ : db) : policies Order.row :=
  {| for_select := Some (fun r => uid_is uid (Order.user_id r));
     for_insert := Some (fun r => uid_is uid (Order.user_id r));
     for_update := None;
     for_delete := None |}.

(** The trigger [update_orders_updated_at]: [update_updated_at_column()]
    sets [NEW.updated_at = now()] before every update of a row. *)
Definition update_orders_updated_at (t : timestamptz) (r : Order.row) : Order.row :=
  {| Order.id := Order.id r; Order.user_id := Order.user_id r;
     Order.total_amount := Order.total_amount r;
     Order.delivery_fee := Order.delivery_fee r;
     Order.discount_amount := Order.discount_amount r;
     Order.status := Order.status r;
     Order.payment_method := Order.payment_method r;
     Order.delivery_address := Order.delivery_address r;
     Order.phone := Order.phone r;
     Order.created_at := Order.created_at r; Order.updated_at := t |}.

Definition orders_table : table Order.row :=
  {| rows := orders;
     with_rows := with_orders;
     policy := orders_policy;
     types_ok := fun r => decimal_10_2_ok (Order.total_amount r)
                          && opt_ok decimal_10_2_ok (Order.delivery_fee r)
                          && opt_ok decimal_10_2_ok (Order.discount_amount r);
     checks_ok := fun r =>
       in_set (Order.status r)
         ["pending"; "confirmed"; "shipped"; "delivered"; "cancelled"]%string
       && in_set (Order.payment_method r) ["cod"; "online"]%string;
     uniques := [ (fun a b => N.eqb (Order.id a) (Order.id b)) ];
     references_ok := fun d r => user_exists d (Order.user_id r);
     before_update := update_orders_updated_at |}.

(** [public.order_items]: the policies go through the parent order.  The
    subquery [SELECT id FROM public.orders WHERE user_id = auth.uid()] runs
    as the requester, under the policies of [orders]. *)
Definition own_order_ids (uid : option uuid) (d : db) : list uuid :=
  map Order.id
    (filter (fun o => visible orders_table uid d o && uid_is uid (Order.user_id o))
            (orders d)).

Definition in_own_orders (uid : option uuid) (d : db) (r : OrderItem.row) : bool :=
  existsb (N.eqb (OrderItem.order_id r)) (own_order_ids uid d).

Definition order_items_policy (uid : option uuid) (d : db) : policies OrderItem.row :=
  {| for_select := Some (in_own_orders uid d);
     for_insert := Some (in_own_orders uid d);
     for_update := None;
     for_delete := None |}.

Definition order_items_table : table OrderItem.row :=
  {| rows := order_items;
     with_rows := with_order_items;
     policy := order_items_policy;
     types_ok := fun r => integer_ok (OrderItem.quantity r)
                          && decimal_10_2_ok (OrderItem.unit_price r)
                          && decimal_10_2_ok (OrderItem.total_price r);
     checks_ok := fun r => 0 <? OrderItem.quantity r;
     uniques := [ (fun a b => N.eqb (OrderItem.id a) (OrderItem.id b)) ];
     references_ok := fun d r => order_exists d (OrderItem.order_id r)
                                 && product_exists d (OrderItem.product_id r);
     before_update := fun _ r => r |}.

(** ** Triggers of the migration *)

(** [public.handle_new_user()], [SECURITY DEFINER]:
    [INSERT INTO public.profiles (user_id, full_name)
     VALUES (new.id, new.raw_user_meta_data ->> 'full_name')].
    The other columns take their defaults. *)
Definition new_profile (t : timestamptz) (new : AuthUser.row) (d : db) : Profile.row :=
  {| Profile.id := gen_random_uuid (map Profile.id (profiles d));
     Profile.user_id := AuthUser.id new;
     Profile.full_name := json_get_text (AuthUser.raw_user_meta_data new) "full_name";
     Profile.phone := None;
     Profile.language := Some "en"%string;
     Profile.data_collection_consent := Some false;
     Profile.created_at := t;
     Profile.updated_at := t |}.

Definition handle_new_user (t : timestamptz) (new : AuthUser.row) (d : db) : result db :=
  sql_insert_owner profiles_table (new_profile t new d) d.

(** [on_auth_user_created]: [AFTER INSERT ON auth.users FOR EACH ROW].  The
    trigger runs inside the inserting statement, so its failure undoes the
    insertion of the identity. *)
Definition insert_auth_user (t : timestamptz) (new : AuthUser.row) (d : db) : result db :=
  handle_new_user t new (with_auth_users (auth_users d ++ [new]) d).

(** [supabase.auth.signUp]: the authentication service creates the identity
    with the metadata of the request. *)
Definition auth_signUp (t : timestamptz) (data : list (string * json)) (d : db)
    : result (uuid * db) :=
  let new := {| AuthUser.id := gen_random_uuid (map AuthUser.id (auth_users d));
                AuthUser.raw_user_meta_data := data |} in
  (d' <- insert_auth_user t new d ;; Ok (AuthUser.id new, d'))%result.

(** ** Upsert on [public.cart]

    [supabase.from('cart').upsert(values, { onConflict })] is
    [INSERT ... ON CONFLICT (target) DO UPDATE SET col = EXCLUDED.col] over
    the columns of [values].  Without [onConflict] the request names no
    conflict target and the primary key is taken; with
    [onConflict: 'user_id,product_id'] the target is the unique constraint
    of the table.  Only a conflict on the target turns the insert into an
    update: a violation of another unique constraint is an error. *)
Inductive conflict_target : Type :=
| OnPrimaryKey
| OnUserProduct.

Definition target_of (onConflict : option conflict_target) : conflict_target :=
  match onConflict with
  | Some t => t
  | None => OnPrimaryKey
  end.

Definition arbiter (t : conflict_target) (a b : CartLine.row) : bool :=
  match t with
  | OnPrimaryKey => N.eqb (CartLine.id a) (CartLine.id b)
  | OnUserProduct => same_user_product a b
  end.

(** The values both call sites send: no [id], so it takes its default. *)
Record cart_values : Type := {
  v_user_id : uuid;
  v_product_id : uuid;
  v_quantity : Z
}.

Definition proposed_line (c : context) (v : cart_values) (d : db) : CartLine.row :=
  {| CartLine.id := gen_random_uuid (map CartLine.id (cart d));
     CartLine.user_id := v_user_id v;
     CartLine.product_id := v_product_id v;
     CartLine.quantity := v_quantity v;
     CartLine.created_at := now c;
     CartLine.updated_at := now c |}.

(** [DO UPDATE SET user_id = EXCLUDED.user_id, product_id = EXCLUDED.product_id,
    quantity = EXCLUDED.quantity] on the conflicting row. *)
Definition excluded_onto (v : cart_values) (old : CartLine.row) : CartLine.row :=
  {| CartLine.id := CartLine.id old;
     CartLine.user_id := v_user_id v;
     CartLine.product_id := v_product_id v;
     CartLine.quantity := v_quantity v;
     CartLine.created_at := CartLine.created_at old;
     CartLine.updated_at := CartLine.updated_at old |}.

Definition cart_upsert (c : context) (onConflict : option conflict_target)
    (v : cart_values) (d : db) : result db :=
  let pol := cart_policy (auth_uid c) d in
  let new := proposed_line c v d in
  (_ <- guard (types_ok cart_table new) NumericValueOutOfRange ;;
   _ <- guard (allows (for_insert pol) new) RlsViolation ;;
   _ <- guard (checks_ok cart_table new) CheckViolation ;;
   match find (arbiter (target_of onConflict) new) (cart d) with
   | None =>
       let d' := with_cart (cart d ++ [new]) d in
       _ <- constrain cart_table d' new ;;
       Ok d'
   | Some old =>
       let upd := update_cart_updated_at (now c) (excluded_onto v old) in
       _ <- guard (allows (for_update pol) old && allows (for_select pol) old)
                  RlsViolation ;;
       _ <- guard (allows (for_update pol) upd && allows (for_select pol) upd)
                  RlsViolation ;;
       let d' := with_cart
                   (map (fun r => if N.eqb (CartLine.id r) (CartLine.id old)
                                  then upd else r) (cart d)) d in
       _ <- constrain cart_table d' upd ;;
       Ok d'
   end)%result.

(** ** Client functions *)

(** How a client function ends. *)
Inductive outcome : Type :=
| Returned                (* returned before issuing a request *)
| Completed               (* the request was accepted *)
| Failed (e : pg_error).  (* the request was rejected; the catch block shows a toast *)

Definition finish (r : result db) (d : db) : outcome * db :=
  match r with
  | Ok d' => (Completed, d')
  | Err e => (Failed e, d)
  end.

(** *** src/components/grocery/ProductCard.tsx *)
Module ProductCard.

(** [supabase.auth.getSession()]: the session of the request's token. *)
Definition getSession (c : context) : option uuid := auth_uid c.

Definition addToCart (c : context) (product_id : uuid) (cartQuantity : Z) (d : db)
    : outcome * db :=
  match getSession c with
  | None => (Returned, d)
  | Some user =>
      finish (cart_upsert c None
                {| v_user_id := user; v_product_id := product_id;
                   v_quantity := cartQuantity + 1 |} d) d
  end.

Definition updateQuantity (c : context) (product_id : uuid) (newQuantity : Z) (d : db)
    : outcome * db :=
  if newQuantity <? 0 then (Returned, d)
  else
    match getSession c with
    | None => (Returned, d)
    | Some user =>
        if newQuantity =? 0 then
          (Completed,
           snd (sql_delete cart_table c
                  (fun r => N.eqb (CartLine.user_id r) user
                            && N.eqb (CartLine.product_id r) product_id) d))
        else
          finish (cart_upsert c None
                    {| v_user_id := user; v_product_id := product_id;
                       v_quantity := newQuantity |} d) d
    end.

(** What a JSX expression [a && b] leaves for React to print when [a] is
    falsy: the value of [a] itself.  React prints a number, zero included,
    and prints nothing for null and for a boolean. *)
Inductive js : Type :=
| JsNull
| JsNumber (n : Z)
| JsBoolean (b : bool).

Definition truthy (v : js) : bool :=
  match v with
  | JsNull => false
  | JsNumber n => negb (n =? 0)
  | JsBoolean b => b
  end.

(** [language === "hi" && product.name_hi ? product.name_hi : product.name];
    an empty [name_hi] is falsy. *)
Definition displayName (language : string) (product : Product.row) : string :=
  match Product.name_hi product with
  | Some hi =>
      if String.eqb language "hi" && negb (String.eqb hi "") then hi
      else Product.name product
  | None => Product.name product
  end.

(** The default of the [language] prop. *)
Definition default_language : string := "en".

(** [product.discount_percentage && product.discount_percentage > 0] *)
Definition hasDiscount (product : Product.row) : js :=
  match Product.discount_percentage product with
  | None => JsNull
  | Some n => if n =? 0 then JsNumber n else JsBoolean (0 <? n)
  end.

(** What the card shows in the corner of the image and next to the price. *)
Inductive node : Type :=
| Badge (percent : Z)             (* the badge "n% OFF" *)
| OriginalPrice (p : decimal)     (* the struck-through original price *)
| Number (n : Z).                 (* a number printed as text *)

(** [{a && element}] *)
Definition render_and (a : js) (element : node) : list node :=
  if truthy a then [element]
  else match a with
       | JsNumber n => [Number n]
       | _ => []
       end.

(** [{hasDiscount && (<Badge>{product.discount_percentage}% OFF</Badge>)}] *)
Definition render_badge (product : Product.row) : list node :=
  render_and (hasDiscount product)
    (Badge (match Product.discount_percentage product with
            | Some n => n
            | None => 0
            end)).

(** [{hasDiscount && product.original_price && (<span>...</span>)}] *)
Definition render_original_price (product : Product.row) : list node :=
  let a := hasDiscount product in
  let ab := if truthy a then
              match Product.original_price product with
              | Some p => JsNumber p
              | None => JsNull
              end
            else a in
  render_and ab
    (OriginalPrice (match Product.original_price product with
                    | Some p => p
                    | None => 0
                    end)).

(** The buttons of the card: the stepper when [cartQuantity > 0], the ADD
    button otherwise. *)
Inductive button : Type := Minus | Plus | Add.

Definition rendered (cartQuantity : Z) (b : button) : bool :=
  match b with
  | Minus | Plus => 0 <? cartQuantity
  | Add => negb (0 <? cartQuantity)
  end.

(** [cartQuantity >= product.stock_quantity]; a null stock compares as 0. *)
Definition at_stock_ceiling (cartQuantity : Z) (product : Product.row) : bool :=
  match Product.stock_quantity product with
  | Some s => s <=? cartQuantity
  | None => 0 <=? cartQuantity
  end.

(** [product.stock_quantity === 0] *)
Definition out_of_stock (product : Product.row) : bool :=
  match Product.stock_quantity product with
  | Some s => s =? 0
  | None => false
  end.

Definition disabled (loading : bool) (product : Product.row) (cartQuantity : Z)
    (b : button) : bool :=
  match b with
  | Minus => loading
  | Plus => loading || at_stock_ceiling cartQuantity product
  | Add => loading || out_of_stock product
  end.

(** The quantity the handler of a button asks for. *)
Definition requested (cartQuantity : Z) (b : button) : Z :=
  match b with
  | Minus => cartQuantity - 1
  | Plus => cartQuantity + 1
  | Add => cartQuantity + 1
  end.

Definition onClick (c : context) (product : Product.row) (cartQuantity : Z)
    (b : button) (d : db) : outcome * db :=
  match b with
  | Minus => updateQuantity c (Product.id product) (cartQuantity - 1) d
  | Plus => updateQuantity c (Product.id product) (cartQuantity + 1) d
  | Add => addToCart c (Product.id product) cartQuantity d
  end.

End ProductCard.

(** *** src/pages/Cart.tsx *)
Module Cart.

Record ProductView : Type := {
  id : uuid;
  name : string;
  price : Double.t;
  image_url : option string;
  unit : option string;
  stock_quantity : option Z
}.

(** [product] is [null] when the policies of [products] hide the product. *)
Record CartItemWithProduct : Type := {
  item_id : uuid;
  quantity : Z;
  product : option ProductView
}.

Definition product_view (p : Product.row) : ProductView :=
  {| id := Product.id p; name := Product.name p;
     price := Double.of_decimal (Product.price p);
     image_url := Product.image_url p; unit := Product.unit p;
     stock_quantity := Product.stock_quantity p |}.

(** The embedded resource [product:products (...)] of a cart line. *)
Definition embed_product (c : context) (d : db) (pid : uuid) : option ProductView :=
  option_map product_view
    (find (fun p => N.eqb (Product.id p) pid)
          (sql_select products_table c (fun _ => true) d)).

Definition fetchCartItems (c : context) (d : db) : list CartItemWithProduct :=
  match auth_uid c with
  | None => []
  | Some user =>
      map (fun l => {| item_id := CartLine.id l;
                       quantity := CartLine.quantity l;
                       product := embed_product c d (CartLine.product_id l) |})
          (sql_select cart_table c (fun l => N.eqb (CartLine.user_id l) user) d)
  end.

Definition set_quantity (q : Z) (r : CartLine.row) : CartLine.row :=
  {| CartLine.id := CartLine.id r; CartLine.user_id := CartLine.user_id r;
     CartLine.product_id := CartLine.product_id r;
     CartLine.quantity := q;
     CartLine.created_at := CartLine.created_at r;
     CartLine.updated_at := CartLine.updated_at r |}.

Definition updateQuantity (c : context) (cartItemId : uuid) (newQuantity : Z) (d : db)
    : outcome * db :=
  if newQuantity <? 0 then (Returned, d)
  else if newQuantity =? 0 then
    (Completed,
     snd (sql_delete cart_table c (fun r => N.eqb (CartLine.id r) cartItemId) d))
  else
    finish (x <- sql_update cart_table c
                   (fun r => N.eqb (CartLine.id r) cartItemId)
                   (set_quantity newQuantity) d ;;
            Ok (snd x))%result d.

Definition removeFromCart (c : context) (cartItemId : uuid) (d : db) : outcome * db :=
  (Completed,
   snd (sql_delete cart_table c (fun r => N.eqb (CartLine.id r) cartItemId) d)).

(** [cartItems.reduce((total, item) => total + (item.product.price * item.quantity), 0)]
    on JavaScript numbers; [None] when an item has no product (the property
    access throws). *)
Definition add_item (total : option Double.t) (item : CartItemWithProduct)
    : option Double.t :=
  match total, product item with
  | Some t, Some p =>
      Some (Double.add t (Double.mul (price p) (Double.of_Z (quantity item))))
  | _, _ => None
  end.

Definition calculateTotal (cartItems : list CartItemWithProduct) : option Double.t :=
  fold_left add_item cartItems (Some (Double.of_Z 0)).

Definition calculateItemCount (cartItems : list CartItemWithProduct) : Z :=
  fold_left (fun count item => count + quantity item) cartItems 0.

(** The total of the order summary, [calculateTotal() + 20]. *)
Definition summary_total (cartItems : list CartItemWithProduct) : option Double.t :=
  option_map (fun t => Double.add t (Double.of_Z 20)) (calculateTotal cartItems).

(** The two amounts the order summary prints,
    [calculateTotal().toFixed(2)] and [(calculateTotal() + 20).toFixed(2)]. *)
Definition summary (cartItems : list CartItemWithProduct)
    : option (Double.fixed * Double.fixed) :=
  match calculateTotal cartItems, summary_total cartItems with
  | Some subtotal, Some total => Some (Double.toFixed2 subtotal, Double.toFixed2 total)
  | _, _ => None
  end.

(** The stepper of a cart item: [-] asks for [quantity - 1], [+] for
    [quantity + 1] and is disabled at the stock ceiling
    ([item.quantity >= item.product.stock_quantity]; null compares as 0). *)
Definition plus_disabled (updating : option uuid) (item : CartItemWithProduct)
    : option bool :=
  match product item with
  | None => None    (* the property access throws *)
  | Some p =>
      Some (match updating with
            | Some u => N.eqb u (item_id item)
            | None => false
            end
            || match stock_quantity p with
               | Some s => s <=? quantity item
               | None => 0 <=? quantity item
               end)
  end.

End Cart.

(** *** Orders page (the file that defines [Orders] and [fetchOrders]) *)
Module Orders.

Record ProductView : Type := {
  name : string;
  image_url : option string
}.

Record OrderItemView : Type := {
  quantity : Z;
  unit_price : decimal;
  product : option ProductView
}.

Record Order : Type := {
  id : uuid;
  total_amount : decimal;
  delivery_fee : option decimal;
  status : option string;
  payment_method : option string;
  created_at : timestamptz;
  order_items : list OrderItemView
}.

Definition embed_product (c : context) (d : db) (pid : uuid) : option ProductView :=
  option_map
    (fun p => {| name := Product.name p; image_url := Product.image_url p |})
    (find (fun p => N.eqb (Product.id p) pid)
          (sql_select products_table c (fun _ => true) d)).

(** The embedded resource [order_items (quantity, unit_price, product:products (...))]. *)
Definition embed_items (c : context) (d : db) (oid : uuid) : list OrderItemView :=
  map (fun i => {| quantity := OrderItem.quantity i;
                   unit_price := OrderItem.unit_price i;
                   product := embed_product c d (OrderItem.product_id i) |})
      (sql_select order_items_table c
         (fun i => N.eqb (OrderItem.order_id i) oid) d).

(** [.order('created_at', { ascending: false })]; rows with the same time
    keep their order in the table. *)
Fixpoint insert_desc (o : Order.row) (l : list Order.row) : list Order.row :=
  match l with
  | [] => [o]
  | x :: rest =>
      if Order.created_at x <=? Order.created_at o then o :: l
      else x :: insert_desc o rest
  end.

Definition order_desc (l : list Order.row) : list Order.row :=
  fold_right insert_desc [] l.

Definition fetchOrders (c : context) (d : db) : list Order :=
  match auth_uid c with
  | None => []
  | Some user =>
      map (fun o => {| id := Order.id o;
                       total_amount := Order.total_amount o;
                       delivery_fee := Order.delivery_fee o;
                       status := Order.status o;
                       payment_method := Order.payment_method o;
                       created_at := Order.created_at o;
                       order_items := embed_items c d (Order.id o) |})
          (order_desc
             (sql_select orders_table c (fun o => N.eqb (Order.user_id o) user) d))
  end.

Definition getStatusColor (status : option string) : string :=
  match status with
  | Some s =>
      if String.eqb s "pending" then "bg-yellow-100 text-yellow-800"
      else if String.eqb s "confirmed" then "bg-blue-100 text-blue-800"
      else if String.eqb s "shipped" then "bg-purple-100 text-purple-800"
      else if String.eqb s "delivered" then "bg-green-100 text-green-800"
      else if String.eqb s "cancelled" then "bg-red-100 text-red-800"
      else "bg-gray-100 text-gray-800"
  | None => "bg-gray-100 text-gray-800"
  end%string.

Definition getStatusText (status : option string) : option string :=
  match status with
  | Some s =>
      if String.eqb s "pending" then Some "Pending"
      else if String.eqb s "confirmed" then Some "Confirmed"
      else if String.eqb s "shipped" then Some "Shipped"
      else if String.eqb s "delivered" then Some "Delivered"
      else if String.eqb s "cancelled" then Some "Cancelled"
      else status
  | None => status
  end%string.

(** [order.payment_method === 'cod' ? 'Cash on Delivery' : order.payment_method] *)
Definition payment_label (payment_method : option string) : option string :=
  match payment_method with
  | Some s => if String.eqb s "cod" then Some "Cash on Delivery"%string
              else payment_method
  | None => payment_method
  end.

(** What an order card prints for one item: the image, or the placeholder
    icon when [image_url] is falsy; the name of the product; and
    "Qty: quantity x unit_price". *)
Record ItemLine : Type := {
  image : option string;
  title : string;
  qty : Z;
  price : decimal
}.

(** [item.product.image_url ? ... : ...] and [item.product.name]: the
    property access throws when [product] is null, which it is for a product
    that the policy of [products] hides. *)
Definition render_item (item : OrderItemView) : option ItemLine :=
  match product item with
  | None => None
  | Some p =>
      Some {| image := match image_url p with
                       | Some url => if String.eqb url "" then None else Some url
                       | None => None
                       end;
              title := name p;
              qty := quantity item;
              price := unit_price item |}
  end.

(** [l.map(f)] where [f] may throw: the first throw ends the rendering. *)
Fixpoint render_all {A B : Type} (f : A -> option B) (l : list A) : option (list B) :=
  match l with
  | [] => Some []
  | x :: rest =>
      match f x with
      | None => None
      | Some y => option_map (cons y) (render_all f rest)
      end
  end.

(** [order.order_items.slice(0, 2).map(...)], the items an order card lists. *)
Definition listed_items (o : Order) : option (list ItemLine) :=
  render_all render_item (firstn 2 (order_items o)).

(** The line "+n more items", shown when there are more than two. *)
Definition more_items (o : Order) : option nat :=
  if (2 <? List.length (order_items o))%nat
  then Some (List.length (order_items o) - 2)%nat
  else None.

(** The card of an order. *)
Record OrderCard : Type := {
  badge_class : string;
  badge_text : option string;
  listed : list ItemLine;
  more : option nat;
  payment : option string
}.

Definition order_card (o : Order) : option OrderCard :=
  option_map
    (fun items => {| badge_class := getStatusColor (status o);
                     badge_text := getStatusText (status o);
                     listed := items;
                     more := more_items o;
                     payment := payment_label (payment_method o) |})
    (listed_items o).

(** [orders.map((order) => <Card ...>)]: the page renders when every card
    does. *)
Definition render_orders (orders : list Order) : option (list OrderCard) :=
  render_all order_card orders.

End Orders.

(** *** src/components/auth/AuthForm.tsx *)
Module AuthForm.

Inductive mode : Type := login | signup | forgot.

(** The state of the form. *)
Record form : Type := {
  email : string;
  password : string;
  fullName : string;
  phone : string;
  language : string;
  dataConsent : bool
}.

(** [options.data] of the [signUp] call. *)
Definition signUp_data (f : form) : list (string * json) :=
  [ ("full_name", JString (fullName f));
    ("phone", JString (phone f));
    ("language", JString (language f));
    ("data_collection_consent", JBool (dataConsent f)) ]%string.

(** [handleSubmit]; logging in and asking for a reset link do not touch
    the tables. *)
Definition handleSubmit (m : mode) (t : timestamptz) (f : form) (d : db)
    : outcome * db :=
  match m with
  | signup =>
      if negb (dataConsent f) then (Returned, d)
      else finish (x <- auth_signUp t (signUp_data f) d ;; Ok (snd x))%result d
  | login => (Completed, d)
  | forgot => (Completed, d)
  end.

End AuthForm.

(** *** src/pages/Home.tsx *)
Module Home.

Record CartItem : Type := {
  product_id : uuid;
  quantity : Z
}.





Definition fetchCartItems (c : context) (d : db) : list CartItem :=
  match auth_uid c with
  | None => []
  | Some user =>
      map (fun l => {| product_id := CartLine.product_id l;
                       quantity := CartLine.quantity l |})
          (sql_select cart_table c (fun l => N.eqb (CartLine.user_id l) user) d)
  end.

(** [cartItems.find(item => item.product_id === productId)?.quantity || 0] *)
Definition getCartQuantity (cartItems : list CartItem) (productId : uuid) : Z :=
  match find (fun item => N.eqb (product_id item) productId) cartItems with
  | Some item => if quantity item =? 0 then 0 else quantity item
  | None => 0
  end.

(** [setSelectedCategory(selectedCategory === categoryId ? null : categoryId)] *)
Definition handleCategorySelect (selectedCategory : option uuid) (categoryId : uuid)
    : option uuid :=
  match selectedCategory with
  | Some s => if N.eqb s categoryId then None else Some categoryId
  | None => Some categoryId
  end.

(** The name a product card shows on the home page: [Home] passes no
    [language] prop, so the card takes the default. *)
Definition card_name (product : Product.row) : string :=
  ProductCard.displayName ProductCard.default_language product.

End Home.

(** *** src/components/grocery/CategoryGrid.tsx *)
Module CategoryGrid.

(** [language === "hi" && category.name_hi ? category.name_hi : category.name] *)
Definition displayName (language : string) (category : Category.row) : string :=
  match Category.name_hi category with
  | Some hi =>
      if String.eqb language "hi" && negb (String.eqb hi "") then hi
      else Category.name category
  | None => Category.name category
  end.

(** The default of the [language] prop; [Home] passes none. *)
Definition default_language : string := "en".

(** [category.icon_url || "🛒"] *)
Definition icon (category : Category.row) : string :=
  match Category.icon_url category with
  | Some i => if String.eqb i "" then "🛒"%string else i
  | None => "🛒"%string
  end.

End CategoryGrid.

(** *** The account page (the file that defines [Account] and [fetchProfile]) *)
Module Account.

(** [.select('*').eq('user_id', user.id).single()]: the row when there is
    exactly one; otherwise the error PGRST116, which [fetchProfile] lets
    pass, leaving the profile null. *)
Definition fetchProfile (c : context) (d : db) : option Profile.row :=
  match auth_uid c with
  | None => None
  | Some user =>
      match sql_select profiles_table c
              (fun p => N.eqb (Profile.user_id p) user) d with
      | [p] => Some p
      | _ => None
      end
  end.

(** [profile?.full_name || "User"] *)
Definition shown_name (profile : option Profile.row) : string :=
  match profile with
  | Some p =>
      match Profile.full_name p with
      | Some n => if String.eqb n "" then "User"%string else n
      | None => "User"%string
      end
  | None => "User"%string
  end.

(** [profile?.language === 'hi' ? 'हिंदी' : 'English'] *)
Definition language_badge (profile : option Profile.row) : string :=
  match profile with
  | Some p =>
      match Profile.language p with
      | Some l => if String.eqb l "hi" then "हिंदी"%string else "English"%string
      | None => "English"%string
      end
  | None => "English"%string
  end.

End Account.

(** ** A price change by the shop

    No policy lets a client write [products]; the price is changed by the
    owner of the table. *)
Definition set_price (p : decimal) (r : Product.row) : Product.row :=
  {| Product.id := Product.id r; Product.name := Product.name r;
     Product.name_hi := Product.name_hi r;
     Product.description := Product.description r;
     Product.description_hi := Product.description_hi r;
     Product.price := p;
     Product.original_price := Product.original_price r;
     Product.discount_percentage := Product.discount_percentage r;
     Product.image_url := Product.image_url r;
     Product.category_id := Product.category_id r;
     Product.brand := Product.brand r; Product.unit := Product.unit r;
     Product.stock_quantity := Product.stock_quantity r;
     Product.is_active := Product.is_active r;
     Product.created_at := Product.created_at r;
     Product.updated_at := Product.updated_at r |}.

Definition update_price (t : timestamptz) (pid : uuid) (p : decimal) (d : db)
    : result (nat * db) :=
  sql_update_owner products_table t (fun r => N.eqb (Product.id r) pid) (set_price p) d.

(** ** Checkout *)

(** Transactions: statements run on a working state; a failure leaves the
    state the failing step was reached with. *)
Definition tx (A : Type) : Type := db -> result A * db.

Definition tx_ret {A : Type} (a : A) : tx A := fun d => (Ok a, d).

Definition tx_bind {A B : Type} (m : tx A) (k : A -> tx B) : tx B :=
  fun d =>
    match m d with
    | (Ok a, d') => k a d'
    | (Err e, d') => (Err e, d')
    end.

Definition tx_stmt (s : db -> result db) : tx unit :=
  fun d =>
    match s d with
    | Ok d' => (Ok tt, d')
    | Err e => (Err e, d)
    end.

Definition tx_lift {A : Type} (r : db -> result A) : tx A :=
  fun d => (r d, d).

(** Commit on success, roll back to the state at [BEGIN] on failure. *)
Definition atomically {A : Type} (m : tx A) : tx A :=
  fun d =>
    match m d with
    | (Ok a, d') => (Ok a, d')
    | (Err e, _) => (Err e, d)
    end.

(** Modelled from the spec: the checkout operation behind the route
    [/checkout], to which the cart page navigates, is not among the
    sources.  The module follows the three steps of the specification:
    create one order with [total_amount] the sum of price times quantity
    plus the delivery fee and [status] pending; create one order item per
    cart line with the price snapshot; clear the cart lines that were
    materialised; all three atomically.  Every statement goes through the
    policies and the constraints of the migration. *)
Module Checkout.

(** The cart lines of the user. *)
Definition cart_lines (c : context) (user : uuid) (d : db) : list CartLine.row :=
  sql_select cart_table c (fun l => N.eqb (CartLine.user_id l) user) d.

(** The current price of a product. *)
Definition price_of (d : db) (pid : uuid) : option decimal :=
  option_map Product.price (find (fun p => N.eqb (Product.id p) pid) (products d)).

(** Each line with the price of its product at this instant. *)
Fixpoint price_lines (d : db) (lines : list CartLine.row)
    : result (list (CartLine.row * decimal)) :=
  match lines with
  | [] => Ok []
  | l :: rest =>
      match price_of d (CartLine.product_id l) with
      | None => Err ForeignKeyViolation
      | Some p => (ps <- price_lines d rest ;; Ok ((l, p) :: ps))%result
      end
  end.

Definition subtotal (priced : list (CartLine.row * decimal)) : decimal :=
  fold_right (fun lp acc => snd lp * CartLine.quantity (fst lp) + acc) 0 priced.

Definition new_order (c : context) (user : uuid) (total fee : decimal)
    (payment_method delivery_address phone : string) (d : db) : Order.row :=
  {| Order.id := gen_random_uuid (map Order.id (orders d));
     Order.user_id := user;
     Order.total_amount := total;
     Order.delivery_fee := Some fee;
     Order.discount_amount := Some 0;
     Order.status := Some "pending"%string;
     Order.payment_method := Some payment_method;
     Order.delivery_address := delivery_address;
     Order.phone := phone;
     Order.created_at := now c;
     Order.updated_at := now c |}.

Definition new_item (c : context) (oid : uuid) (l : CartLine.row) (p : decimal) (d : db)
    : OrderItem.row :=
  {| OrderItem.id := gen_random_uuid (map OrderItem.id (order_items d));
     OrderItem.order_id := oid;
     OrderItem.product_id := CartLine.product_id l;
     OrderItem.quantity := CartLine.quantity l;
     OrderItem.unit_price := p;
     OrderItem.total_price := p * CartLine.quantity l;
     OrderItem.created_at := now c |}.

Fixpoint insert_items (c : context) (oid : uuid) (priced : list (CartLine.row * decimal))
    : tx unit :=
  match priced with
  | [] => tx_ret tt
  | (l, p) :: rest =>
      tx_bind
        (tx_stmt (fun d => sql_insert order_items_table c (new_item c oid l p d) d))
        (fun _ => insert_items c oid rest)
  end.

(** [delete from cart] of the lines that were materialised. *)
Definition clear_lines (c : context) (user : uuid)
    (priced : list (CartLine.row * decimal)) (d : db) : db :=
  snd (sql_delete cart_table c
         (fun r => N.eqb (CartLine.user_id r) user
                   && existsb (N.eqb (CartLine.id r))
                        (map (fun lp => CartLine.id (fst lp)) priced))
         d).

(** Modelled from the spec: the three steps of the checkout, in a
    transaction that is still open. *)
Definition steps (c : context) (user : uuid) (fee : decimal)
    (payment_method delivery_address phone : string) : tx uuid :=
  tx_bind
    (tx_lift (fun d => price_lines d (cart_lines c user d)))
    (fun priced =>
       fun d =>
         let o := new_order c user (subtotal priced + fee) fee
                    payment_method delivery_address phone d in
         tx_bind (tx_stmt (sql_insert orders_table c o))
           (fun _ =>
              tx_bind (insert_items c (Order.id o) priced)
                (fun _ =>
                   tx_bind
                     (tx_stmt (fun d' => Ok (clear_lines c user priced d')))
                     (fun _ => tx_ret (Order.id o))))
           d).

(** Modelled from the spec: the atomic checkout of the requester's cart. *)
Definition checkout (c : context) (fee : decimal)
    (payment_method delivery_address phone : string) : tx uuid :=
  fun d =>
    match auth_uid c with
    | None => (Err RlsViolation, d)
    | Some user =>
        atomically (steps c user fee payment_method delivery_address phone) d
    end.

(** An order item that materialises a priced cart line for an order. *)
Definition item_matches (oid : uuid) (lp : CartLine.row * decimal)
    (i : OrderItem.row) : Prop :=
  OrderItem.order_id i = oid
  /\ OrderItem.product_id i = CartLine.product_id (fst lp)
  /\ OrderItem.quantity i = CartLine.quantity (fst lp)
  /\ OrderItem.unit_price i = snd lp
  /\ OrderItem.total_price i = snd lp * CartLine.quantity (fst lp).

End Checkout.

(** ** The state after the migration: the sample categories and products *)
Module Seed.

Definition category (i : N) (name name_hi icon : string) (sort : Z) : Category.row :=
  {| Category.id := i; Category.name := name; Category.name_hi := Some name_hi;
     Category.icon_url := Some icon; Category.sort_order := Some sort;
     Category.is_active := Some true; Category.created_at := 0 |}.

Definition product (i : N) (name name_hi description : string) (price : decimal)
    (image_url : string) (category_id : N) (brand unit : string) (stock : Z)
    : Product.row :=
  {| Product.id := i; Product.name := name; Product.name_hi := Some name_hi;
     Product.description := Some description; Product.description_hi := None;
     Product.price := price; Product.original_price := None;
     Product.discount_percentage := Some 0; Product.image_url := Some image_url;
     Product.category_id := Some category_id; Product.brand := Some brand;
     Product.unit := Some unit; Product.stock_quantity := Some stock;
     Product.is_active := Some true;
     Product.created_at := 0; Product.updated_at := 0 |}.

Definition fruits : N := 1.
Definition dairy : N := 2.
Definition snacks : N := 3.
Definition care : N := 4.

Definition banana : N := 1.
Definition orange : N := 2.
Definition milk : N := 3.
Definition chips : N := 4.

Definition migrated : db :=
  {| auth_users := [];
     profiles := [];
     categories :=
       [ category fruits "Fruits & Vegetables" "फल और सब्जियां" "🥕" 1;
         category dairy "Dairy & Bakery" "डेयरी और बेकरी" "🥛" 2;
         category snacks "Snacks & Beverages" "स्नैक्स और पेय" "🥤" 3;
         category care "Personal Care" "व्यक्तिगत देखभाल" "🧴" 4 ]%string;
     products :=
       [ product banana "Banana" "केला" "Fresh bananas" 4000
           "https://images.unsplash.com/photo-1571771894821-ce9b6c11b08e?w=300&h=300&fit=crop"
           fruits "Fresh" "kg" 100;
         product orange "Orange" "संतरा" "Juicy oranges" 6000
           "https://images.unsplash.com/photo-1547036967-23d11aacaee0?w=300&h=300&fit=crop"
           fruits "Fresh" "kg" 50;
         product milk "Milk" "दूध" "Fresh milk" 5500
           "https://images.unsplash.com/photo-1563636619-e9143da7973b?w=300&h=300&fit=crop"
           dairy "Amul" "liter" 30;
         product chips "Chips" "चिप्स" "Crunchy potato chips" 2500
           "https://images.unsplash.com/photo-1566478989037-eec170784d0b?w=300&h=300&fit=crop"
           snacks "Lays" "packet" 75 ]%string;
     cart := [];
     orders := [];
     order_items := [] |}.

End Seed.


(** ** Vocabulary of the properties *)

(** The profiles of an identity. *)
Definition profile_of (d : db) (uid : uuid) : list Profile.row :=
  filter (fun p => N.eqb uid (Profile.user_id p)) (profiles d).

(** The cart lines of a (user, product) pair. *)
Definition is_line_of (u p : uuid) (l : CartLine.row) : bool :=
  N.eqb u (CartLine.user_id l) && N.eqb p (CartLine.product_id l).

Definition lines_of (u p : uuid) (d : db) : list CartLine.row :=
  filter (is_line_of u p) (cart d).

(** Foreign key of [profiles]: every profile belongs to an identity. *)
Definition profiles_reference_users (d : db) : Prop :=
  forall p, In p (profiles d) -> user_exists d (Profile.user_id p) = true.

(** Ownership: directly by [user_id] for profiles, cart lines and orders,
    through the parent order for order items. *)
Definition owns_profile (u : uuid) (_ : db) (r : Profile.row) : bool :=
  N.eqb u (Profile.user_id r).
Definition owns_line (u : uuid) (_ : db) (r : CartLine.row) : bool :=
  N.eqb u (CartLine.user_id r).
Definition owns_order (u : uuid) (_ : db) (r : Order.row) : bool :=
  N.eqb u (Order.user_id r).
Definition owns_item (u : uuid) (d : db) (i : OrderItem.row) : bool :=
  existsb (fun o => N.eqb (Order.id o) (OrderItem.order_id i)
                    && N.eqb u (Order.user_id o)) (orders d).

(** Primary keys of [orders] and [cart]. *)
Definition orders_pk (d : db) : Prop := NoDup (map Order.id (orders d)).
Definition cart_pk (d : db) : Prop := NoDup (map CartLine.id (cart d)).

(** A filter that selects only rows of a given kind. *)
Definition targets {row : Type} (wh kind : row -> bool) : Prop :=
  forall r, wh r = true -> kind r = true.

(** What a requester [u2] can do to the rows of [u1] in a table: a read
    never returns one, and returns nothing when it aims at them; an insert
    of one is rejected; an update or a delete that aims at them affects zero
    rows and leaves the state as it is, and any update or delete leaves the
    rows of [u1] as they are. *)
Definition isolated {row : Type} (T : table row) (owns : uuid -> db -> row -> bool)
    (u1 u2 : uuid) (d : db) : Prop :=
  forall c, auth_uid c = Some u2 ->
    (forall wh r, In r (sql_select T c wh d) -> owns u1 d r = false)
    /\ (forall wh, targets wh (owns u1 d) -> sql_select T c wh d = [])
    /\ (forall r, owns u1 d r = true -> exists e, sql_insert T c r d = Err e)
    /\ (forall wh assign, targets wh (owns u1 d) ->
                          sql_update T c wh assign d = Ok (0%nat, d))
    /\ (forall wh assign n d',
           sql_update T c wh assign d = Ok (n, d') ->
           filter (owns u1 d') (rows T d') = filter (owns u1 d) (rows T d))
    /\ (forall wh, targets wh (owns u1 d) -> sql_delete T c wh d = (0%nat, d))
    /\ (forall wh,
           filter (owns u1 (snd (sql_delete T c wh d)))
                  (rows T (snd (sql_delete T c wh d)))
           = filter (owns u1 d) (rows T d)).

(** At most one line per (user, product) pair. *)
Definition lines_unique (l : list CartLine.row) : Prop :=
  forall u p, (List.length (filter (is_line_of u p) l) <= 1)%nat.

Definition cart_unique (d : db) : Prop := lines_unique (cart d).

(** The state a request leaves: the new state when the statement was
    accepted, the old one when it was rejected. *)
Definition state_after {A : Type} (r : result A) (proj : A -> db) (d : db) : db :=
  match r with
  | Ok a => proj a
  | Err _ => d
  end.

(** What a client can ask of [cart]: the four statements with arbitrary
    arguments, and the four functions of the product card and the cart page. *)
Inductive request : Type :=
| InsertLine (r : CartLine.row)
| UpsertLine (onConflict : option conflict_target) (v : cart_values)
| UpdateLines (wh : CartLine.row -> bool) (assign : CartLine.row -> CartLine.row)
| DeleteLines (wh : CartLine.row -> bool)
| AddToCart (product_id : uuid) (cartQuantity : Z)
| CardUpdateQuantity (product_id : uuid) (newQuantity : Z)
| PageUpdateQuantity (cartItemId : uuid) (newQuantity : Z)
| RemoveFromCart (cartItemId : uuid).

Definition exec (c : context) (rq : request) (d : db) : db :=
  match rq with
  | InsertLine r => state_after (sql_insert cart_table c r d) (fun x => x) d
  | UpsertLine oc v => state_after (cart_upsert c oc v d) (fun x => x) d
  | UpdateLines wh assign => state_after (sql_update cart_table c wh assign d) snd d
  | DeleteLines wh => snd (sql_delete cart_table c wh d)
  | AddToCart pid q => snd (ProductCard.addToCart c pid q d)
  | CardUpdateQuantity pid q => snd (ProductCard.updateQuantity c pid q d)
  | PageUpdateQuantity cid q => snd (Cart.updateQuantity c cid q d)
  | RemoveFromCart cid => snd (Cart.removeFromCart c cid d)
  end.

(** The states that requests lead to, from a given one. *)
Inductive reachable_from (d0 : db) : db -> Prop :=
| reach_start : reachable_from d0 d0
| reach_step (c : context) (rq : request) (d : db) :
    reachable_from d0 d -> reachable_from d0 (exec c rq d).


Definition newest_first (a b : Orders.Order) : Prop :=
  Orders.created_at b <= Orders.created_at a.

(** What a requester cannot do to a table, whatever the arguments. *)
Definition no_select {row : Type} (T : table row) (c : context) (d : db) : Prop :=
  forall wh, sql_select T c wh d = [].
Definition no_insert {row : Type} (T : table row) (c : context) (d : db) : Prop :=
  forall r, exists e, sql_insert T c r d = Err e.
Definition no_update {row : Type} (T : table row) (c : context) (d : db) : Prop :=
  forall wh assign, sql_update T c wh assign d = Ok (0%nat, d).
Definition no_delete {row : Type} (T : table row) (c : context) (d : db) : Prop :=
  forall wh, sql_delete T c wh d = (0%nat, d).

(** Every cart line holds a positive 32-bit quantity and points to an
    identity and a product that exist. *)
Definition valid_line_in (d : db) (l : CartLine.row) : Prop :=
  0 < CartLine.quantity l < 2 ^ 31
  /\ user_exists d (CartLine.user_id l) = true
  /\ product_exists d (CartLine.product_id l) = true.

Definition cart_valid (d : db) : Prop :=
  forall l, In l (cart d) -> valid_line_in d l.

(** At most one profile per identity, with a language of the enumeration. *)
Definition profiles_valid (d : db) : Prop :=
  (forall u, (List.length (profile_of d u) <= 1)%nat)
  /\ (forall p, In p (profiles d) ->
                 Profile.language p = None
                 \/ Profile.language p = Some "en"%string
                 \/ Profile.language p = Some "hi"%string).

(** What a client can ask of [profiles], and the form. *)
Inductive profile_request : Type :=
| InsertProfile (r : Profile.row)
| UpdateProfiles (wh : Profile.row -> bool) (assign : Profile.row -> Profile.row)
| DeleteProfiles (wh : Profile.row -> bool)
| SubmitForm (m : AuthForm.mode) (f : AuthForm.form).

Definition exec_profile (c : context) (rq : profile_request) (d : db) : db :=
  match rq with
  | InsertProfile r => state_after (sql_insert profiles_table c r d) (fun x => x) d
  | UpdateProfiles wh assign =>
      state_after (sql_update profiles_table c wh assign d) snd d
  | DeleteProfiles wh => snd (sql_delete profiles_table c wh d)
  | SubmitForm m f => snd (AuthForm.handleSubmit m (now c) f d)
  end.

(** ** Sample sessions on the migrated database *)
Module Scenario.

Definition form_of (name phone language : string) : AuthForm.form :=
  {| AuthForm.email := (name ++ "@example.com")%string;
     AuthForm.password := "secret"%string;
     AuthForm.fullName := name;
     AuthForm.phone := phone;
     AuthForm.language := language;
     AuthForm.dataConsent := true |}.

(** Asha and Ravi sign up; they get the identities 1 and 2. *)
Definition asha : uuid := 1%N.
Definition ravi : uuid := 2%N.

Definition signed_up : db :=
  snd (AuthForm.handleSubmit AuthForm.signup 2
         (form_of "Ravi" "9800000002" "en")
         (snd (AuthForm.handleSubmit AuthForm.signup 1
                 (form_of "Asha" "9800000001" "hi") Seed.migrated))).

Definition as_asha (t : timestamptz) : context := {| auth_uid := Some asha; now := t |}.
Definition as_ravi (t : timestamptz) : context := {| auth_uid := Some ravi; now := t |}.
Definition anonymous (t : timestamptz) : context := {| auth_uid := None; now := t |}.

(** The values of an upsert of Asha's for Banana. *)
Definition asha_banana (q : Z) : cart_values :=
  {| v_user_id := asha; v_product_id := Seed.banana; v_quantity := q |}.

(** Asha presses ADD on the banana card. *)
Definition one_banana : db :=
  snd (ProductCard.addToCart (as_asha 3) Seed.banana 0 signed_up).

(** She raises the quantity to 2 on the cart page and adds milk. *)
Definition banana_and_milk : db :=
  snd (ProductCard.addToCart (as_asha 5) Seed.milk 0
         (snd (Cart.updateQuantity (as_asha 4) 1%N 2 one_banana))).

(** Asha checks out with the delivery fee of 20.00, then puts chips in
    her cart. *)
Definition ordered : db :=
  snd (Checkout.checkout (as_asha 6) 2000 "cod" "12 Park Road" "9800000001"
         banana_and_milk).

Definition ordered_with_chips : db :=
  snd (ProductCard.addToCart (as_asha 7) Seed.chips 0 ordered).

(** An assignment that tries to set [updated_at] to 0. *)
Definition backdate (r : CartLine.row) : CartLine.row :=
  {| CartLine.id := CartLine.id r; CartLine.user_id := CartLine.user_id r;
     CartLine.product_id := CartLine.product_id r;
     CartLine.quantity := CartLine.quantity r;
     CartLine.created_at := CartLine.created_at r;
     CartLine.updated_at := 0 |}.

(** An assignment that switches a profile to Hindi. *)
Definition speak_hindi (r : Profile.row) : Profile.row :=
  {| Profile.id := Profile.id r; Profile.user_id := Profile.user_id r;
     Profile.full_name := Profile.full_name r; Profile.phone := Profile.phone r;
     Profile.language := Some "hi"%string;
     Profile.data_collection_consent := Profile.data_collection_consent r;
     Profile.created_at := Profile.created_at r;
     Profile.updated_at := Profile.updated_at r |}.

(** An order item for one banana at 0.01, whatever the shop asks. *)
Definition cheap_banana : OrderItem.row :=
  {| OrderItem.id := 3%N; OrderItem.order_id := 1%N;
     OrderItem.product_id := Seed.banana; OrderItem.quantity := 1;
     OrderItem.unit_price := 1; OrderItem.total_price := 1;
     OrderItem.created_at := 9 |}.

(** The shop takes Banana off the shelf after Asha's order. *)
Definition retire (r : Product.row) : Product.row :=
  {| Product.id := Product.id r; Product.name := Product.name r;
     Product.name_hi := Product.name_hi r;
     Product.description := Product.description r;
     Product.description_hi := Product.description_hi r;
     Product.price := Product.price r;
     Product.original_price := Product.original_price r;
     Product.discount_percentage := Product.discount_percentage r;
     Product.image_url := Product.image_url r;
     Product.category_id := Product.category_id r;
     Product.brand := Product.brand r; Product.unit := Product.unit r;
     Product.stock_quantity := Product.stock_quantity r;
     Product.is_active := Some false;
     Product.created_at := Product.created_at r;
     Product.updated_at := Product.updated_at r |}.

Definition banana_retired : db :=
  state_after
    (sql_update_owner products_table 8 (fun r => N.eqb (Product.id r) Seed.banana)
       retire ordered)
    snd ordered.

(** A product the shop has taken off the shelf. *)
Definition retired_soap : Product.row :=
  {| Product.id := 5%N; Product.name := "Soap"%string; Product.name_hi := None;
     Product.description := None; Product.description_hi := None;
     Product.price := 3000; Product.original_price := None;
     Product.discount_percentage := Some 0; Product.image_url := None;
     Product.category_id := Some Seed.care; Product.brand := None;
     Product.unit := Some "piece"%string; Product.stock_quantity := Some 0;
     Product.is_active := Some false;
     Product.created_at := 0; Product.updated_at := 0 |}.

Definition with_retired_soap : db :=
  with_products (products Seed.migrated ++ [retired_soap]) Seed.migrated.

(** The shop reprices: Banana at 60,000,000.00 and Milk, a deposit
    return, at -99,999,999.99. *)
Definition repriced : db :=
  let d1 := state_after (update_price 6 Seed.banana 6000000000 banana_and_milk) snd
              banana_and_milk in
  state_after (update_price 6 Seed.milk (-9999999999) d1) snd d1.

End Scenario.

(** * Properties *)

(** ** Basic facts *)

Lemma gen_random_uuid_above (used : list uuid) (x : uuid) :
  In x used -> (x < gen_random_uuid used)%N.
Proof.
  unfold gen_random_uuid.
  induction used as [|y used IH]; simpl; intros Hin.
  - contradiction.
  - destruct Hin as [->|Hin].
    + lia.
    + specialize (IH Hin). lia.
Qed.

Lemma gen_random_uuid_fresh (used : list uuid) : ~ In (gen_random_uuid used) used.
Proof.
  intros Hin. apply gen_random_uuid_above in Hin. lia.
Qed.

Lemma filter_none {A : Type} (f : A -> bool) (l : list A) :
  (forall x, In x l -> f x = false) -> filter f l = [].
Proof.
  induction l as [|x l IH]; simpl; intros H; [reflexivity|].
  rewrite (H x (or_introl eq_refl)). apply IH. intros y Hy. apply H. now right.
Qed.

Lemma fresh_filter_none {A : Type} (key : A -> uuid) (l : list A) :
  filter (fun b => N.eqb (gen_random_uuid (map key l)) (key b)) l = [].
Proof.
  apply filter_none. intros x Hx. apply N.eqb_neq. intros Heq.
  apply (gen_random_uuid_fresh (map key l)). rewrite Heq. now apply in_map.
Qed.

Lemma bind_ok {A B : Type} (m : result A) (k : A -> result B) (b : B) :
  bind m k = Ok b -> exists a, m = Ok a /\ k a = Ok b.
Proof.
  destruct m as [a|e]; simpl; intros H.
  - exists a. split; [reflexivity | exact H].
  - discriminate.
Qed.

Lemma guard_ok (b : bool) (e : pg_error) (u : unit) : guard b e = Ok u -> b = true.
Proof.
  destruct b; simpl; [reflexivity | discriminate].
Qed.

Lemma guard_true (e : pg_error) : guard true e = Ok tt.
Proof. reflexivity. Qed.

(** Splits a successful chain of binds and guards in hypothesis [H]. *)
Ltac ok_inv H :=
  repeat match type of H with
         | bind (guard _ _) _ = Ok _ =>
             let Hg := fresh "Hguard" in
             let u := fresh "u" in
             apply bind_ok in H; destruct H as (u & Hg & H);
             apply guard_ok in Hg
         | bind _ _ = Ok _ =>
             let Hm := fresh "Hstep" in
             let a := fresh "a" in
             apply bind_ok in H; destruct H as (a & Hm & H)
         | guard _ _ = Ok _ => apply guard_ok in H
         end.

Lemma filter_length_le {A : Type} (f : A -> bool) (l : list A) :
  (List.length (filter f l) <= List.length l)%nat.
Proof.
  induction l as [|x l IH]; simpl; [lia|].
  destruct (f x); simpl; lia.
Qed.

Lemma filter_all {A : Type} (f : A -> bool) (l : list A) :
  (forall x, In x l -> f x = true) -> filter f l = l.
Proof.
  induction l as [|x l IH]; simpl; intros H; [reflexivity|].
  rewrite (H x (or_introl eq_refl)). f_equal. apply IH. intros y Hy. apply H. now right.
Qed.

Lemma map_id_on {A : Type} (g : A -> A) (l : list A) :
  (forall x, In x l -> g x = x) -> map g l = l.
Proof.
  induction l as [|x l IH]; simpl; intros H; [reflexivity|].
  rewrite (H x (or_introl eq_refl)). f_equal. apply IH. intros y Hy. apply H. now right.
Qed.

(** ** Reads of [categories] and [products] *)

Lemma select_categories_spec (c : context) (wh : Category.row -> bool) (d : db)
    (r : Category.row) :
  In r (sql_select categories_table c wh d) <->
  In r (categories d) /\ Category.is_active r = Some true /\ wh r = true.
Proof.
  unfold sql_select, visible. simpl. rewrite filter_In, andb_true_iff.
  unfold is_true.
  destruct (Category.is_active r) as [[|]|]; intuition congruence.
Qed.

Lemma select_products_spec (c : context) (wh : Product.row -> bool) (d : db)
    (r : Product.row) :
  In r (sql_select products_table c wh d) <->
  In r (products d) /\ Product.is_active r = Some true /\ wh r = true.
Proof.
  unfold sql_select, visible. simpl. rewrite filter_In, andb_true_iff.
  unfold is_true.
  destruct (Product.is_active r) as [[|]|]; intuition congruence.
Qed.

(** C9.  In every read of [categories] or [products], by an authenticated
    or an anonymous requester and whatever the filter, a row with
    [is_active = false] is never in the result; a row with
    [is_active = true] that the filter selects is in the result for every
    requester, and the result does not depend on the requester at all. *)
Theorem catalogue_reads_show_active_rows_only (c : context) (d : db) :
  (forall wh r, Category.is_active r = Some false ->
                ~ In r (sql_select categories_table c wh d))
  /\ (forall wh r, Product.is_active r = Some false ->
                   ~ In r (sql_select products_table c wh d))
  /\ (forall wh r, In r (categories d) -> Category.is_active r = Some true ->
                   wh r = true -> In r (sql_select categories_table c wh d))
  /\ (forall wh r, In r (products d) -> Product.is_active r = Some true ->
                   wh r = true -> In r (sql_select products_table c wh d))
  /\ (forall c' wh, sql_select categories_table c' wh d
                    = sql_select categories_table c wh d)
  /\ (forall c' wh, sql_select products_table c' wh d
                    = sql_select products_table c wh d).
Proof.
  repeat split.
  - intros wh r Hf Hin. apply select_categories_spec in Hin. destruct Hin as (_ & Ha & _).
    congruence.
  - intros wh r Hf Hin. apply select_products_spec in Hin. destruct Hin as (_ & Ha & _).
    congruence.
  - intros wh r Hin Ha Hw. apply select_categories_spec. auto.
  - intros wh r Hin Ha Hw. apply select_products_spec. auto.
Qed.

Lemma catalogue_reads_show_active_rows_only_witness :
  ~ In Scenario.retired_soap
      (sql_select products_table (Scenario.anonymous 1) (fun _ => true)
         Scenario.with_retired_soap)
  /\ (forall r, In r (products Seed.migrated) ->
                In r (sql_select products_table (Scenario.as_asha 1) (fun _ => true)
                        Scenario.with_retired_soap))
  /\ sql_select products_table (Scenario.anonymous 1) (fun _ => true)
       Scenario.with_retired_soap
     = sql_select products_table (Scenario.as_asha 1) (fun _ => true)
         Scenario.with_retired_soap.
Proof.
  destruct (catalogue_reads_show_active_rows_only (Scenario.as_asha 1)
              Scenario.with_retired_soap) as (_ & _ & _ & Hshown & _ & Hsame).
  destruct (catalogue_reads_show_active_rows_only (Scenario.anonymous 1)
              Scenario.with_retired_soap) as (_ & Hhidden & _).
  split; [apply Hhidden; reflexivity|].
  split; [|apply Hsame].
  intros r Hr. apply Hshown.
  - change (products Scenario.with_retired_soap)
      with (products Seed.migrated ++ [Scenario.retired_soap]).
    apply in_or_app. now left.
  - simpl in Hr. decompose [or] Hr; subst; try reflexivity; contradiction.
  - reflexivity.
Defined.

(** ** Profile provisioning *)

Lemma user_exists_In (d : db) (u : uuid) :
  user_exists d u = true -> In u (map AuthUser.id (auth_users d)).
Proof.
  unfold user_exists. rewrite existsb_exists. intros (a & Hin & Heq).
  apply N.eqb_eq in Heq. subst u. now apply in_map.
Qed.

Lemma filter_app_last {A : Type} (f : A -> bool) (l : list A) (x : A) :
  f x = true -> filter f (l ++ [x]) = filter f l ++ [x].
Proof.
  intros Hx. rewrite filter_app. simpl. now rewrite Hx.
Qed.

Lemma length_app_one_le {A : Type} (l : list A) (x : A) :
  (List.length (l ++ [x]) <= 1)%nat -> l = [].
Proof.
  rewrite length_app. simpl. destruct l; simpl; [reflexivity | lia].
Qed.

(** What a successful sign-up leaves behind: the identity, and exactly one
    profile for it, built by [handle_new_user]. *)
Lemma auth_signUp_ok (t : timestamptz) (data : list (string * json)) (d d' : db)
    (uid : uuid) :
  auth_signUp t data d = Ok (uid, d') ->
  let new := {| AuthUser.id := uid; AuthUser.raw_user_meta_data := data |} in
  let d1 := with_auth_users (auth_users d ++ [new]) d in
  uid = gen_random_uuid (map AuthUser.id (auth_users d))
  /\ d' = with_profiles (profiles d ++ [new_profile t new d1]) d1
  /\ profile_of d' uid = [new_profile t new d1].
Proof.
  unfold auth_signUp, insert_auth_user, handle_new_user, sql_insert_owner.
  intros H. ok_inv H. injection H as Huid Hd'. subst a.
  ok_inv Hstep. injection Hstep as Hd'.
  cbn zeta. rewrite <- Huid in *. clear Huid.
  split; [reflexivity|]. split; [now symmetry|].
  unfold constrain in Hstep0. ok_inv Hstep0.
  unfold unique_ok in Hguard1. simpl in Hguard1.
  rewrite !andb_true_iff in Hguard1. destruct Hguard1 as (_ & Hu & _).
  apply Nat.leb_le in Hu.
  rewrite filter_app_last in Hu by (simpl; apply N.eqb_refl).
  apply length_app_one_le in Hu.
  subst d'. unfold profile_of. simpl.
  rewrite filter_app_last by (simpl; apply N.eqb_refl).
  simpl in Hu. now rewrite Hu.
Qed.

(** A second run of the provisioning function for an identity that has a
    profile is rejected by [UNIQUE (user_id)]. *)
Lemma handle_new_user_again (t : timestamptz) (new : AuthUser.row) (d : db)
    (p : Profile.row) :
  In p (profiles d) -> Profile.user_id p = AuthUser.id new ->
  handle_new_user t new d = Err UniqueViolation.
Proof.
  intros Hin Hp.
  unfold handle_new_user, sql_insert_owner, constrain. simpl.
  replace (unique_ok profiles_table _ _) with false; [reflexivity|].
  symmetry. unfold unique_ok. simpl.
  rewrite andb_true_r. apply andb_false_iff. right.
  apply Nat.leb_gt.
  rewrite filter_app_last by (simpl; apply N.eqb_refl).
  rewrite length_app. simpl.
  apply in_split in Hin. destruct Hin as (l1 & l2 & ->).
  rewrite filter_app. simpl. rewrite Hp, N.eqb_refl.
  rewrite length_app. simpl. lia.
Qed.

(** Sign-up succeeds in every state that respects the foreign key of
    [profiles]. *)
Lemma auth_signUp_succeeds (t : timestamptz) (data : list (string * json)) (d : db) :
  profiles_reference_users d ->
  exists uid d', auth_signUp t data d = Ok (uid, d').
Proof.
  intros Hfk.
  unfold auth_signUp, insert_auth_user, handle_new_user, sql_insert_owner, constrain.
  set (uid := gen_random_uuid (map AuthUser.id (auth_users d))).
  set (new := {| AuthUser.id := uid; AuthUser.raw_user_meta_data := data |}).
  set (d1 := with_auth_users (auth_users d ++ [new]) d).
  set (r := new_profile t new d1).
  assert (Hid : filter (fun b => N.eqb (Profile.id r) (Profile.id b)) (profiles d) = []).
  { apply filter_none. intros x Hx. apply N.eqb_neq. intros Heq.
    apply (gen_random_uuid_fresh (map Profile.id (profiles d))).
    change (gen_random_uuid (map Profile.id (profiles d))) with (Profile.id r).
    rewrite Heq. now apply in_map. }
  assert (Hus : filter (fun b => N.eqb (Profile.user_id r) (Profile.user_id b))
                  (profiles d) = []).
  { apply filter_none. intros x Hx. apply N.eqb_neq. intros Heq.
    apply (gen_random_uuid_fresh (map AuthUser.id (auth_users d))).
    change (gen_random_uuid (map AuthUser.id (auth_users d))) with (Profile.user_id r).
    rewrite Heq. apply user_exists_In. now apply Hfk. }
  assert (Hun : unique_ok profiles_table (profiles d ++ [r]) r = true).
  { unfold unique_ok. simpl.
    rewrite !filter_app_last by (simpl; apply N.eqb_refl).
    simpl in Hid, Hus. rewrite Hid, Hus. reflexivity. }
  assert (Hfk' : user_exists (with_profiles (profiles d1 ++ [r]) d1) uid = true).
  { unfold user_exists. simpl. rewrite existsb_app. simpl.
    rewrite N.eqb_refl. now rewrite orb_true_r. }
  exists uid, (with_profiles (profiles d1 ++ [r]) d1).
  simpl. simpl in Hun. rewrite Hun. simpl.
  simpl in Hfk'. unfold user_exists in Hfk'. simpl in Hfk'.
  unfold user_exists. simpl. rewrite Hfk'. reflexivity.
Qed.

(** C8.  A sign-up that creates an identity leaves exactly one profile with
    that identity's [user_id]: [full_name] is the [full_name] member of the
    sign-up metadata (NULL when there is none), [language] is ['en'] and
    [data_collection_consent] is [false]; running the provisioning function
    again for that identity fails with a uniqueness violation.  In a state
    that respects the foreign key of [profiles], sign-up does create the
    identity. *)
Theorem new_identity_has_one_profile (t : timestamptz) (data : list (string * json))
    (d : db) :
  (forall uid d',
      auth_signUp t data d = Ok (uid, d') ->
      exists p,
        profile_of d' uid = [p]
        /\ Profile.user_id p = uid
        /\ Profile.full_name p = json_get_text data "full_name"
        /\ Profile.language p = Some "en"%string
        /\ Profile.data_collection_consent p = Some false
        /\ (forall t' again, AuthUser.id again = uid ->
                             handle_new_user t' again d' = Err UniqueViolation))
  /\ (profiles_reference_users d ->
      exists uid d', auth_signUp t data d = Ok (uid, d')).
Proof.
  split.
  - intros uid d' H. apply auth_signUp_ok in H. destruct H as (_ & Hd' & Hp).
    eexists. split; [exact Hp|]. repeat split.
    intros t' again Hagain.
    eapply handle_new_user_again with (p := new_profile t _ _).
    + rewrite Hd'. simpl. apply in_or_app. right. left. reflexivity.
    + simpl. now symmetry.
  - apply auth_signUp_succeeds.
Qed.

Lemma new_identity_has_one_profile_witness :
  exists p,
    profile_of (with_profiles
                  [new_profile 7 {| AuthUser.id := 1%N;
                                    AuthUser.raw_user_meta_data :=
                                      [("full_name"%string, JString "Asha")] |}
                     Seed.migrated]
                  (with_auth_users
                     [{| AuthUser.id := 1%N;
                         AuthUser.raw_user_meta_data :=
                           [("full_name"%string, JString "Asha")] |}]
                     Seed.migrated)) 1%N = [p]
    /\ Profile.full_name p = Some "Asha"%string
    /\ Profile.language p = Some "en"%string
    /\ Profile.data_collection_consent p = Some false
    /\ exists uid d',
         auth_signUp 7 [("full_name"%string, JString "Asha")] Seed.migrated
         = Ok (uid, d').
Proof.
  destruct (new_identity_has_one_profile 7 [("full_name"%string, JString "Asha")]
              Seed.migrated) as (Hone & Hsucc).
  destruct (Hone 1%N _ eq_refl) as (p & Hp & _ & Hname & Hlang & Hcons & _).
  exists p. repeat split; try assumption.
  apply Hsucc. intros q Hq. simpl in Hq. contradiction.
Defined.

Lemma handleSubmit_signup_completed (t : timestamptz) (f : AuthForm.form) (d d' : db) :
  AuthForm.handleSubmit AuthForm.signup t f d = (Completed, d') ->
  AuthForm.dataConsent f = true
  /\ exists uid, auth_signUp t (AuthForm.signUp_data f) d = Ok (uid, d').
Proof.
  unfold AuthForm.handleSubmit.
  destruct (AuthForm.dataConsent f); simpl; [|discriminate].
  destruct (auth_signUp t (AuthForm.signUp_data f) d) as [[uid d1]|e]; simpl;
    intros H; [|discriminate].
  injection H as ->. split; [reflexivity|]. now exists uid.
Qed.

(** C10.  Whatever the sign-up metadata says about phone, language and
    consent, the profile provisioned for the new identity has [phone] NULL,
    [language] ['en'] and [data_collection_consent] [false].  So it is for
    the sign-up form, which sends the phone, the chosen language and the
    consent [true] in the metadata. *)
Theorem signup_metadata_does_not_reach_profile (t : timestamptz) (d : db) :
  (forall data uid d',
      auth_signUp t data d = Ok (uid, d') ->
      exists p,
        profile_of d' uid = [p]
        /\ Profile.phone p = None
        /\ Profile.language p = Some "en"%string
        /\ Profile.data_collection_consent p = Some false)
  /\ (forall f d',
         AuthForm.handleSubmit AuthForm.signup t f d = (Completed, d') ->
         exists uid p,
           In {| AuthUser.id := uid;
                 AuthUser.raw_user_meta_data := AuthForm.signUp_data f |}
              (auth_users d')
           /\ json_get_text (AuthForm.signUp_data f) "phone"
              = Some (AuthForm.phone f)
           /\ json_get_text (AuthForm.signUp_data f) "language"
              = Some (AuthForm.language f)
           /\ json_get_text (AuthForm.signUp_data f) "data_collection_consent"
              = Some "true"%string
           /\ profile_of d' uid = [p]
           /\ Profile.phone p = None
           /\ Profile.language p = Some "en"%string
           /\ Profile.data_collection_consent p = Some false).
Proof.
  split.
  - intros data uid d' H. apply auth_signUp_ok in H. destruct H as (_ & _ & Hp).
    eexists. split; [exact Hp|]. repeat split.
  - intros f d' H. apply handleSubmit_signup_completed in H.
    destruct H as (Hcons & uid & H).
    apply auth_signUp_ok in H. destruct H as (_ & Hd' & Hp).
    exists uid. eexists. split; [|split; [|split; [|split; [|split; [exact Hp|]]]]].
    + rewrite Hd'. simpl. apply in_or_app. right. left. reflexivity.
    + reflexivity.
    + reflexivity.
    + simpl. now rewrite Hcons.
    + repeat split.
Qed.

Lemma signup_metadata_does_not_reach_profile_witness :
  exists uid p,
    profile_of (snd (AuthForm.handleSubmit AuthForm.signup 1
                       (Scenario.form_of "Asha" "9800000001" "hi") Seed.migrated))
      uid = [p]
    /\ Profile.phone p = None
    /\ Profile.language p = Some "en"%string
    /\ Profile.data_collection_consent p = Some false.
Proof.
  destruct (signup_metadata_does_not_reach_profile 1 Seed.migrated) as (_ & Hform).
  destruct (Hform (Scenario.form_of "Asha" "9800000001" "hi")
              (snd (AuthForm.handleSubmit AuthForm.signup 1
                      (Scenario.form_of "Asha" "9800000001" "hi") Seed.migrated))
              eq_refl)
    as (uid & p & _ & _ & _ & _ & Hp & Hphone & Hlang & Hcons).
  exists uid, p. repeat split; assumption.
Defined.

(** ** The state as a record *)

Lemma with_cart_same (d : db) : with_cart (cart d) d = d.
Proof. destruct d; reflexivity. Qed.

Lemma with_cart_twice (l l' : list CartLine.row) (d : db) :
  with_cart l' (with_cart l d) = with_cart l' d.
Proof. reflexivity. Qed.

Lemma filter_filter_same {A : Type} (f : A -> bool) (l : list A) :
  filter f (filter f l) = filter f l.
Proof.
  apply filter_all. intros x Hx. apply filter_In in Hx. tauto.
Qed.

(** ** Setting a quantity of zero or less *)

Lemma uid_is_some (u v : uuid) : uid_is (Some u) v = N.eqb u v.
Proof. reflexivity. Qed.

(** The rows the product card's [delete] removes are the lines of the pair. *)
Lemma card_delete_hits (c : context) (u pid : uuid) (d : db) (r : CartLine.row) :
  auth_uid c = Some u ->
  delete_hits cart_table c
    (fun r => N.eqb (CartLine.user_id r) u && N.eqb (CartLine.product_id r) pid) d r
  = is_line_of u pid r.
Proof.
  intros Hc. unfold delete_hits, visible, is_line_of. simpl. rewrite Hc. simpl.
  rewrite (N.eqb_sym (CartLine.user_id r) u), (N.eqb_sym (CartLine.product_id r) pid).
  destruct (N.eqb u (CartLine.user_id r)); simpl; reflexivity.
Qed.

Lemma card_updateQuantity_zero (c : context) (u pid : uuid) (d : db) :
  auth_uid c = Some u ->
  ProductCard.updateQuantity c pid 0 d
  = (Completed, with_cart (filter (fun l => negb (is_line_of u pid l)) (cart d)) d).
Proof.
  intros Hc. unfold ProductCard.updateQuantity, ProductCard.getSession.
  rewrite Hc. simpl. unfold sql_delete. simpl. do 2 f_equal.
  apply filter_ext. intros r. now rewrite card_delete_hits.
Qed.

Lemma page_updateQuantity_zero (c : context) (u cid : uuid) (d : db) :
  auth_uid c = Some u ->
  Cart.updateQuantity c cid 0 d
  = (Completed,
     with_cart (filter (fun l => negb (N.eqb u (CartLine.user_id l)
                                      && N.eqb (CartLine.id l) cid)) (cart d)) d).
Proof.
  intros Hc. unfold Cart.updateQuantity. simpl. unfold sql_delete. simpl.
  do 2 f_equal. apply filter_ext. intros r.
  unfold delete_hits, visible. simpl. rewrite Hc. simpl.
  destruct (N.eqb u (CartLine.user_id r)); reflexivity.
Qed.

(** C7, as the code has it.  With a quantity of zero, [updateQuantity]
    deletes the line of the (user, product) pair if there is one and
    changes nothing if there is none, and doing it again changes nothing
    more: no line for the pair is left.  With a negative quantity it
    returns at once and every line stays as it is.  The cart page's
    [updateQuantity], which addresses a line by its id, behaves the same. *)
Theorem updateQuantity_zero_deletes_negative_returns (c : context) (u pid : uuid)
    (d : db) :
  auth_uid c = Some u ->
  let d0 := snd (ProductCard.updateQuantity c pid 0 d) in
  (lines_of u pid d0 = []
   /\ cart d0 = filter (fun l => negb (is_line_of u pid l)) (cart d)
   /\ (lines_of u pid d = [] -> d0 = d)
   /\ snd (ProductCard.updateQuantity c pid 0 d0) = d0)
  /\ (forall q, q < 0 -> ProductCard.updateQuantity c pid q d = (Returned, d))
  /\ (forall cid,
         cart (snd (Cart.updateQuantity c cid 0 d))
         = filter (fun l => negb (N.eqb u (CartLine.user_id l)
                                  && N.eqb (CartLine.id l) cid)) (cart d))
  /\ (forall cid q, q < 0 -> Cart.updateQuantity c cid q d = (Returned, d)).
Proof.
  intros Hc d0. subst d0.
  rewrite (card_updateQuantity_zero c u pid d Hc). cbn [snd].
  repeat split.
  - unfold lines_of. simpl. apply filter_none. intros x Hx.
    apply filter_In in Hx. destruct Hx as (_ & Hx).
    now apply negb_true_iff in Hx.
  - intros Hnone.
    rewrite filter_all; [apply with_cart_same|].
    intros x Hx. apply negb_true_iff.
    destruct (is_line_of u pid x) eqn:Hl; [|reflexivity].
    assert (Hin : In x (lines_of u pid d)) by (apply filter_In; auto).
    rewrite Hnone in Hin. contradiction.
  - rewrite (card_updateQuantity_zero c u pid _ Hc). cbn [snd]. simpl.
    now rewrite filter_filter_same.
  - intros q Hq. unfold ProductCard.updateQuantity.
    apply Z.ltb_lt in Hq. now rewrite Hq.
  - intros cid. now rewrite (page_updateQuantity_zero c u cid d Hc).
  - intros cid q Hq. unfold Cart.updateQuantity.
    apply Z.ltb_lt in Hq. now rewrite Hq.
Qed.

Lemma updateQuantity_zero_deletes_negative_returns_witness :
  lines_of Scenario.asha Seed.banana
    (snd (ProductCard.updateQuantity (Scenario.as_asha 4) Seed.banana 0
            Scenario.one_banana)) = []
  /\ ProductCard.updateQuantity (Scenario.as_asha 4) Seed.banana (-3)
       Scenario.one_banana = (Returned, Scenario.one_banana).
Proof.
  destruct (updateQuantity_zero_deletes_negative_returns
              (Scenario.as_asha 4) Scenario.asha Seed.banana Scenario.one_banana
              eq_refl) as ((Hnone & _) & Hneg & _).
  split; [exact Hnone | apply Hneg; lia].
Defined.

(** C7 as stated fails for a negative quantity: the line of the pair is
    still there after [updateQuantity] with [-1]. *)
Lemma updateQuantity_negative_keeps_line :
  lines_of Scenario.asha Seed.banana Scenario.one_banana <> []
  /\ lines_of Scenario.asha Seed.banana
       (snd (ProductCard.updateQuantity (Scenario.as_asha 4) Seed.banana (-1)
               Scenario.one_banana))
     = lines_of Scenario.asha Seed.banana Scenario.one_banana
  /\ lines_of Scenario.asha Seed.banana
       (snd (Cart.updateQuantity (Scenario.as_asha 4) 1%N (-1) Scenario.one_banana))
     <> [].
Proof.
  split; [|split].
  - vm_compute. discriminate.
  - reflexivity.
  - vm_compute. discriminate.
Qed.

(** ** Upsert without a conflict target *)

(** The generated id is new, so the primary key never arbitrates. *)
Lemma primary_key_never_conflicts (c : context) (v : cart_values) (d : db) :
  find (arbiter OnPrimaryKey (proposed_line c v d)) (cart d) = None.
Proof.
  destruct (find _ _) as [old|] eqn:Hf; [|reflexivity].
  apply find_some in Hf. destruct Hf as (Hin & Heq).
  simpl in Heq. apply N.eqb_eq in Heq.
  exfalso. apply (gen_random_uuid_fresh (map CartLine.id (cart d))).
  rewrite Heq. now apply in_map.
Qed.

Lemma same_user_product_line_of (r b : CartLine.row) :
  same_user_product r b = is_line_of (CartLine.user_id r) (CartLine.product_id r) b.
Proof. reflexivity. Qed.

(** An upsert as the client functions issue it is rejected when the pair
    already has a line. *)
Lemma upsert_on_existing_line (c : context) (v : cart_values) (d : db) :
  lines_of (v_user_id v) (v_product_id v) d <> [] ->
  exists e, cart_upsert c None v d = Err e.
Proof.
  intros Hex. unfold cart_upsert. simpl target_of.
  rewrite primary_key_never_conflicts.
  set (new := proposed_line c v d).
  assert (Hun : unique_ok cart_table (cart d ++ [new]) new = false).
  { unfold unique_ok. simpl. rewrite andb_true_r.
    apply andb_false_iff. right. apply Nat.leb_gt.
    rewrite filter_app_last
      by (unfold same_user_product; simpl; now rewrite !N.eqb_refl).
    rewrite length_app. simpl.
    unfold lines_of in Hex.
    change (filter (same_user_product new) (cart d))
      with (filter (is_line_of (v_user_id v) (v_product_id v)) (cart d)).
    destruct (filter (is_line_of (v_user_id v) (v_product_id v)) (cart d));
      [contradiction | simpl; lia]. }
  unfold constrain.
  change (rows cart_table (with_cart (cart d ++ [new]) d)) with (cart d ++ [new]).
  rewrite Hun.
  destruct (types_ok cart_table new); cbn [guard bind]; [|eauto].
  destruct (allows (for_insert (cart_policy (auth_uid c) d)) new);
    cbn [guard bind]; [|eauto].
  destruct (checks_ok cart_table new); cbn [guard bind]; eauto.
Qed.

(** So the product card cannot change the quantity of a line that exists. *)
Lemma card_updateQuantity_on_existing_line (c : context) (u pid : uuid) (q : Z)
    (d : db) :
  auth_uid c = Some u -> 0 < q -> lines_of u pid d <> [] ->
  exists e, ProductCard.updateQuantity c pid q d = (Failed e, d).
Proof.
  intros Hc Hq Hex. unfold ProductCard.updateQuantity, ProductCard.getSession.
  rewrite Hc.
  replace (q <? 0) with false by (symmetry; apply Z.ltb_ge; lia).
  replace (q =? 0) with false by (symmetry; apply Z.eqb_neq; lia).
  destruct (upsert_on_existing_line c
              {| v_user_id := u; v_product_id := pid; v_quantity := q |} d Hex)
    as (e & He).
  exists e. now rewrite He.
Qed.

(** When the pair has no line yet, the upsert inserts one. *)
Lemma card_updateQuantity_on_new_line (c : context) (u pid : uuid) (q : Z) (d : db) :
  auth_uid c = Some u -> 0 < q < 2 ^ 31 -> lines_of u pid d = [] ->
  user_exists d u = true -> product_exists d pid = true ->
  let line := proposed_line c {| v_user_id := u; v_product_id := pid;
                                 v_quantity := q |} d in
  ProductCard.updateQuantity c pid q d = (Completed, with_cart (cart d ++ [line]) d)
  /\ lines_of u pid (with_cart (cart d ++ [line]) d) = [line]
  /\ CartLine.quantity line = q.
Proof.
  intros Hc Hq Hnone Hu Hp line.
  assert (Hl : lines_of u pid (with_cart (cart d ++ [line]) d) = [line]).
  { unfold lines_of. simpl.
    rewrite filter_app_last
      by (unfold is_line_of; simpl; now rewrite !N.eqb_refl).
    unfold lines_of in Hnone. now rewrite Hnone. }
  split; [|split; [exact Hl | reflexivity]].
  unfold ProductCard.updateQuantity, ProductCard.getSession.
  rewrite Hc.
  replace (q <? 0) with false by (symmetry; apply Z.ltb_ge; lia).
  replace (q =? 0) with false by (symmetry; apply Z.eqb_neq; lia).
  unfold cart_upsert. simpl target_of. rewrite primary_key_never_conflicts.
  fold line.
  assert (Hty : types_ok cart_table line = true).
  { simpl. unfold integer_ok. apply andb_true_iff. split.
    - apply Z.leb_le. lia.
    - apply Z.ltb_lt. lia. }
  assert (Hrls : allows (for_insert (cart_policy (auth_uid c) d)) line = true).
  { simpl. rewrite Hc. simpl. apply N.eqb_refl. }
  assert (Hck : checks_ok cart_table line = true).
  { simpl. apply Z.ltb_lt. lia. }
  assert (Hun : unique_ok cart_table (cart d ++ [line]) line = true).
  { unfold unique_ok. simpl. rewrite andb_true_r. apply andb_true_iff. split.
    - apply Nat.leb_le.
      rewrite filter_app_last by (simpl; apply N.eqb_refl).
      assert (Hf : filter (fun b => N.eqb (CartLine.id line) (CartLine.id b)) (cart d)
                   = [])
        by exact (fresh_filter_none CartLine.id (cart d)).
      simpl in Hf |- *. rewrite Hf. simpl. lia.
    - change (filter (same_user_product line) (cart d ++ [line]))
        with (lines_of u pid (with_cart (cart d ++ [line]) d)).
      now rewrite Hl. }
  rewrite Hty, Hrls, Hck. simpl.
  unfold constrain. rewrite Hck. simpl rows. rewrite Hun. simpl.
  unfold user_exists, product_exists in *. simpl. rewrite Hu, Hp. reflexivity.
Qed.

(** Had the call named the unique constraint as the conflict target, the
    quantity of an existing line of the requester would have been replaced. *)
Lemma upsert_on_user_product_replaces (c : context) (u pid : uuid) (q : Z) (d : db)
    (old : CartLine.row) :
  auth_uid c = Some u -> 0 < q < 2 ^ 31 ->
  cart d = [old] -> CartLine.user_id old = u -> CartLine.product_id old = pid ->
  user_exists d u = true -> product_exists d pid = true ->
  exists line,
    cart_upsert c (Some OnUserProduct)
      {| v_user_id := u; v_product_id := pid; v_quantity := q |} d
    = Ok (with_cart [line] d)
    /\ CartLine.quantity line = q /\ CartLine.id line = CartLine.id old.
Proof.
  intros Hc Hq Hcart Hu Hp Hue Hpe.
  eexists. split; [|split].
  - unfold cart_upsert. simpl target_of. rewrite Hcart.
    cbn [find arbiter]. unfold same_user_product at 1. simpl.
    rewrite Hu, Hp, !N.eqb_refl. simpl.
    assert (Hty : integer_ok q = true).
    { unfold integer_ok. apply andb_true_iff. split.
      - apply Z.leb_le. lia.
      - apply Z.ltb_lt. lia. }
    assert (Hck : (0 <? q) = true) by (apply Z.ltb_lt; lia).
    rewrite Hty, Hc, Hck. simpl. rewrite !N.eqb_refl. simpl.
    rewrite Hu, !N.eqb_refl. simpl.
    unfold constrain. simpl. rewrite Hck. simpl.
    unfold unique_ok. simpl. unfold same_user_product. simpl.
    rewrite !N.eqb_refl. simpl.
    unfold user_exists, product_exists in *. simpl. rewrite Hue, Hpe. simpl.
    reflexivity.
  - reflexivity.
  - reflexivity.
Qed.

(** C6, the failing case.  Asha has one line for Banana with quantity 1 and
    presses [+]: [updateQuantity] with 2 ends in the catch block with a
    uniqueness violation, and the line still has quantity 1. *)
Theorem updateQuantity_does_not_replace_existing_line :
  (exists l, lines_of Scenario.asha Seed.banana Scenario.one_banana = [l]
             /\ CartLine.quantity l = 1)
  /\ ProductCard.updateQuantity (Scenario.as_asha 4) Seed.banana 2 Scenario.one_banana
     = (Failed UniqueViolation, Scenario.one_banana)
  /\ (forall l,
         In l (lines_of Scenario.asha Seed.banana
                 (snd (ProductCard.updateQuantity (Scenario.as_asha 4) Seed.banana 2
                         Scenario.one_banana))) ->
         CartLine.quantity l = 1).
Proof.
  split; [|split].
  - eexists. split; vm_compute; reflexivity.
  - vm_compute. reflexivity.
  - intros l Hl. vm_compute in Hl. destruct Hl as [<-|[]]. reflexivity.
Qed.

(** ** Statements of the engine *)

Lemma sql_insert_ok {row : Type} (T : table row) (c : context) (r : row) (d d' : db) :
  sql_insert T c r d = Ok d' ->
  d' = with_rows T (rows T d ++ [r]) d
  /\ types_ok T r = true
  /\ allows (for_insert (policy T (auth_uid c) d)) r = true
  /\ constrain T d' r = Ok tt.
Proof.
  unfold sql_insert. intros H. ok_inv H. injection H as <-.
  destruct a. auto.
Qed.

Lemma constrain_unique {row : Type} (T : table row) (d : db) (r : row) (u : unit) :
  constrain T d r = Ok u -> unique_ok T (rows T d) r = true.
Proof.
  unfold constrain. intros H. ok_inv H. assumption.
Qed.

Lemma constrain_all_In {row : Type} (T : table row) (d : db) (rs : list row) (u : unit)
    (r : row) :
  constrain_all T d rs = Ok u -> In r rs -> constrain T d r = Ok tt.
Proof.
  induction rs as [|x rs IH]; simpl; intros H Hin; [contradiction|].
  ok_inv H. destruct a. destruct Hin as [->|Hin]; auto.
Qed.

(** ** Checkout *)

Lemma price_lines_ok (d : db) (lines : list CartLine.row)
    (priced : list (CartLine.row * decimal)) :
  Checkout.price_lines d lines = Ok priced ->
  map fst priced = lines
  /\ Forall (fun lp => Checkout.price_of d (CartLine.product_id (fst lp)) = Some (snd lp))
            priced.
Proof.
  revert priced. induction lines as [|l lines IH]; simpl; intros priced H.
  - injection H as <-. split; [reflexivity | constructor].
  - destruct (Checkout.price_of d (CartLine.product_id l)) as [p|] eqn:Hp;
      [|discriminate].
    ok_inv H. injection H as <-.
    destruct (IH a Hstep) as (Hm & Hf).
    split; [simpl; now rewrite Hm | constructor; [exact Hp | exact Hf]].
Qed.

Lemma insert_items_ok (c : context) (oid : uuid)
    (priced : list (CartLine.row * decimal)) (d d' : db) :
  Checkout.insert_items c oid priced d = (Ok tt, d') ->
  exists items,
    d' = with_order_items (order_items d ++ items) d
    /\ Forall2 (Checkout.item_matches oid) priced items.
Proof.
  revert d. induction priced as [|[l p] priced IH]; simpl; intros d H.
  - injection H as <-. exists []. rewrite app_nil_r.
    split; [destruct d; reflexivity | constructor].
  - unfold tx_bind, tx_stmt in H.
    destruct (sql_insert order_items_table c (Checkout.new_item c oid l p d) d)
      as [d1|e] eqn:Hins; [|discriminate].
    apply sql_insert_ok in Hins. destruct Hins as (Hd1 & _).
    apply IH in H. destruct H as (items & Hd' & Hall).
    exists (Checkout.new_item c oid l p d :: items). split.
    + rewrite Hd', Hd1. simpl. now rewrite <- app_assoc.
    + constructor; [|exact Hall]. repeat split.
Qed.

(** What a successful checkout did. *)
Lemma checkout_ok (c : context) (fee : decimal) (pm addr ph : string) (d d' : db)
    (oid : uuid) :
  Checkout.checkout c fee pm addr ph d = (Ok oid, d') ->
  exists user priced items,
    auth_uid c = Some user
    /\ Checkout.price_lines d (Checkout.cart_lines c user d) = Ok priced
    /\ let o := Checkout.new_order c user (Checkout.subtotal priced + fee) fee
                  pm addr ph d in
       let d2 := with_order_items (order_items d ++ items)
                   (with_orders (orders d ++ [o]) d) in
       oid = Order.id o
       /\ Forall2 (Checkout.item_matches oid) priced items
       /\ d' = Checkout.clear_lines c user priced d2.
Proof.
  unfold Checkout.checkout. destruct (auth_uid c) as [user|] eqn:Hc; [|discriminate].
  unfold atomically, Checkout.steps, tx_bind at 1, tx_lift.
  destruct (Checkout.price_lines d (Checkout.cart_lines c user d)) as [priced|e]
    eqn:Hpr; [|discriminate].
  set (o := Checkout.new_order c user (Checkout.subtotal priced + fee) fee pm addr ph d).
  unfold tx_bind at 1, tx_stmt at 1.
  destruct (sql_insert orders_table c o d) as [d1|e] eqn:Hins; [|discriminate].
  apply sql_insert_ok in Hins. destruct Hins as (Hd1 & _). simpl in Hd1.
  unfold tx_bind at 1.
  destruct (Checkout.insert_items c (Order.id o) priced d1) as [[[]|e] d2] eqn:Hit;
    [|discriminate].
  apply insert_items_ok in Hit. destruct Hit as (items & Hd2 & Hall).
  unfold tx_bind, tx_stmt, tx_ret. intros H. injection H as <- <-.
  exists user, priced, items. split; [reflexivity|]. split; [exact Hpr|].
  cbn zeta. fold o. split; [reflexivity|]. split; [exact Hall|].
  now rewrite Hd2, Hd1.
Qed.

(** The lines of the requester are all removed by [clear_lines] when they
    are the ones that were priced. *)
Lemma clear_lines_empties (c : context) (user : uuid)
    (priced : list (CartLine.row * decimal)) (d d2 : db) :
  auth_uid c = Some user ->
  map fst priced = Checkout.cart_lines c user d ->
  cart d2 = cart d ->
  Checkout.cart_lines c user (Checkout.clear_lines c user priced d2) = [].
Proof.
  intros Hc Hm Hcart.
  unfold Checkout.cart_lines at 1, Checkout.clear_lines, sql_select, sql_delete.
  simpl. rewrite Hcart. apply filter_none.
  intros r Hr. apply filter_In in Hr. destruct Hr as (Hin & Hnot).
  apply negb_true_iff in Hnot.
  unfold visible. simpl. rewrite Hc. simpl.
  destruct (N.eqb user (CartLine.user_id r)) eqn:Hu; [|reflexivity].
  simpl. rewrite N.eqb_sym in Hu. rewrite Hu.
  exfalso.
  unfold delete_hits, visible in Hnot. simpl in Hnot. rewrite Hc in Hnot.
  simpl in Hnot. rewrite (N.eqb_sym user), Hu in Hnot. simpl in Hnot.
  assert (Hex : existsb (N.eqb (CartLine.id r))
                  (map (fun lp => CartLine.id (fst lp)) priced) = true).
  { apply existsb_exists. exists (CartLine.id r). split; [|apply N.eqb_refl].
    rewrite <- (map_map fst CartLine.id), Hm.
    apply in_map. unfold Checkout.cart_lines, sql_select. apply filter_In.
    split; [exact Hin|]. unfold visible. simpl. rewrite Hc. simpl.
    rewrite (N.eqb_sym user), Hu. reflexivity. }
  rewrite Hex in Hnot. discriminate.
Qed.

(** *** The total of the cart page *)

Lemma calculateTotal_none (items : list Cart.CartItemWithProduct) :
  fold_left Cart.add_item items None = None.
Proof.
  induction items as [|i items IH]; simpl; [reflexivity | exact IH].
Qed.

(** C4.  A successful checkout of a non-empty cart with delivery fee [fee]
    appends exactly one order, owned by the requester, with [status]
    pending and [total_amount] the sum over the cart lines of the current
    product price times the quantity, plus [fee]; it appends one order item
    per cart line, for that order, with [unit_price] the current price of
    the line's product and [total_price] that price times the quantity; and
    the requester has no cart line left.  Amounts are the exact decimals of
    the database. *)
Theorem checkout_creates_order_and_items (c : context) (user : uuid) (fee : decimal)
    (pm addr ph : string) (d d' : db) (oid : uuid) :
  auth_uid c = Some user ->
  Checkout.cart_lines c user d <> [] ->
  Checkout.checkout c fee pm addr ph d = (Ok oid, d') ->
  exists priced o items,
    map fst priced = Checkout.cart_lines c user d
    /\ Forall (fun lp => Checkout.price_of d (CartLine.product_id (fst lp))
                         = Some (snd lp)) priced
    /\ orders d' = orders d ++ [o]
    /\ Order.id o = oid
    /\ Order.user_id o = user
    /\ Order.status o = Some "pending"%string
    /\ Order.total_amount o = Checkout.subtotal priced + fee
    /\ order_items d' = order_items d ++ items
    /\ Forall2 (Checkout.item_matches oid) priced items
    /\ Checkout.cart_lines c user d' = [].
Proof.
  intros Hc _ H. apply checkout_ok in H.
  destruct H as (user' & priced & items & Hc' & Hpr & Hoid & Hall & Hd').
  rewrite Hc in Hc'. injection Hc' as <-.
  destruct (price_lines_ok _ _ _ Hpr) as (Hm & Hprices).
  exists priced.
  exists (Checkout.new_order c user (Checkout.subtotal priced + fee) fee pm addr ph d).
  exists items.
  split; [exact Hm|]. split; [exact Hprices|].
  split; [now rewrite Hd'|]. split; [now symmetry|].
  split; [reflexivity|]. split; [reflexivity|]. split; [reflexivity|].
  split; [now rewrite Hd'|]. split; [exact Hall|].
  rewrite Hd'. now apply clear_lines_empties with (d := d).
Qed.

(** The scenario of the specification: Banana 40.00 x 2 and Milk 55.00 x 1
    with a delivery fee of 20.00 give a pending order of 155.00, items at
    40.00 / 80.00 and 55.00 / 55.00, and an empty cart.  The order summary
    of the cart page, computed on JavaScript numbers, printed a subtotal of
    135.00 and a total of 155.00. *)
Example checkout_banana_milk :
  map (fun l => (CartLine.product_id l, CartLine.quantity l))
      (cart Scenario.banana_and_milk) = [(Seed.banana, 2); (Seed.milk, 1)]
  /\ Cart.summary (Cart.fetchCartItems (Scenario.as_asha 6) Scenario.banana_and_milk)
     = Some (Double.Fixed false 13500, Double.Fixed false 15500)
  /\ map (fun o => (Order.status o, Order.total_amount o)) (orders Scenario.ordered)
     = [(Some "pending"%string, 15500)]
  /\ map (fun i => (OrderItem.product_id i, OrderItem.unit_price i,
                     OrderItem.total_price i)) (order_items Scenario.ordered)
     = [(Seed.banana, 4000, 8000); (Seed.milk, 5500, 5500)]
  /\ cart Scenario.ordered = [].
Proof.
  repeat split; vm_compute; reflexivity.
Qed.

Lemma checkout_creates_order_and_items_witness :
  (exists priced o items,
      map fst priced
      = Checkout.cart_lines (Scenario.as_asha 6) Scenario.asha Scenario.banana_and_milk
      /\ orders Scenario.ordered = orders Scenario.banana_and_milk ++ [o]
      /\ Order.status o = Some "pending"%string
      /\ Order.total_amount o = Checkout.subtotal priced + 2000
      /\ order_items Scenario.ordered = order_items Scenario.banana_and_milk ++ items
      /\ Forall2 (Checkout.item_matches 1%N) priced items
      /\ Checkout.cart_lines (Scenario.as_asha 6) Scenario.asha Scenario.ordered = [])
  /\ map (fun o => (Order.status o, Order.total_amount o)) (orders Scenario.ordered)
     = [(Some "pending"%string, 15500)]
  /\ map (fun i => (OrderItem.product_id i, OrderItem.unit_price i,
                     OrderItem.total_price i)) (order_items Scenario.ordered)
     = [(Seed.banana, 4000, 8000); (Seed.milk, 5500, 5500)].
Proof.
  split.
  - destruct (checkout_creates_order_and_items
                (Scenario.as_asha 6) Scenario.asha 2000 "cod" "12 Park Road"
                "9800000001" Scenario.banana_and_milk Scenario.ordered 1%N eq_refl)
      as (priced & o & items & Hm & _ & Ho & _ & _ & Hst & Htot & Hi & Hall & Hcart).
    + vm_compute. discriminate.
    + vm_compute. reflexivity.
    + exists priced, o, items. repeat split; assumption.
  - destruct checkout_banana_milk as (_ & _ & Horders & Hitems & _).
    split; assumption.
Defined.

(** C3.  A checkout that fails, at whichever step, leaves the database as
    it was: no order and no order item of that checkout exists, and the
    cart lines are the ones from before the call. *)
Theorem failed_checkout_changes_nothing (c : context) (fee : decimal)
    (pm addr ph : string) (d d' : db) (e : pg_error) :
  Checkout.checkout c fee pm addr ph d = (Err e, d') ->
  d' = d
  /\ orders d' = orders d
  /\ order_items d' = order_items d
  /\ cart d' = cart d.
Proof.
  unfold Checkout.checkout, atomically. intros H.
  assert (Hd : d' = d).
  { destruct (auth_uid c) as [user|].
    - destruct (Checkout.steps c user fee pm addr ph d) as [[oid|e'] d1].
      + discriminate.
      + now injection H as _ <-.
    - now injection H as _ <-. }
  subst d'. repeat split.
Qed.

(** A checkout that fails partway: the order row is written and the first
    item is rejected, its [total_price] being out of range; the rollback
    takes the order away again. *)
Lemma failed_checkout_changes_nothing_witness :
  fst (Checkout.steps (Scenario.as_asha 7) Scenario.asha 2000 "cod" "12 Park Road"
         "9800000001" Scenario.repriced) = Err NumericValueOutOfRange
  /\ List.length (orders (snd (Checkout.steps (Scenario.as_asha 7) Scenario.asha 2000
                                 "cod" "12 Park Road" "9800000001" Scenario.repriced)))
     = 1%nat
  /\ orders Scenario.repriced = []
  /\ snd (Checkout.checkout (Scenario.as_asha 7) 2000 "cod" "12 Park Road"
            "9800000001" Scenario.repriced) = Scenario.repriced.
Proof.
  split; [vm_compute; reflexivity|].
  split; [vm_compute; reflexivity|].
  split; [vm_compute; reflexivity|].
  apply (failed_checkout_changes_nothing (Scenario.as_asha 7) 2000 "cod" "12 Park Road"
           "9800000001" Scenario.repriced _ NumericValueOutOfRange).
  vm_compute. reflexivity.
Defined.

(** ** [UNIQUE (user_id, product_id)] *)

Lemma sql_update_ok {row : Type} (T : table row) (c : context) (wh : row -> bool)
    (assign : row -> row) (d d' : db) (n : nat) :
  sql_update T c wh assign d = Ok (n, d') ->
  let hit := update_hits T c wh d in
  let new := fun r => before_update T (now c) (assign r) in
  d' = with_rows T (map (fun r => if hit r then new r else r) (rows T d)) d
  /\ n = List.length (filter hit (rows T d))
  /\ (forall r, In r (rows T d) -> hit r = true ->
                allows (for_update (policy T (auth_uid c) d)) (new r) = true
                /\ visible T (auth_uid c) d (new r) = true
                /\ constrain T d' (new r) = Ok tt).
Proof.
  unfold sql_update. intros H. ok_inv H. injection H as <- <-.
  cbn zeta. split; [reflexivity|]. split; [now rewrite length_map|].
  intros r Hin Hhit.
  assert (Hch : In (before_update T (now c) (assign r))
                  (map (fun r => before_update T (now c) (assign r))
                       (filter (update_hits T c wh d) (rows T d)))).
  { apply in_map_iff. exists r. split; [reflexivity|]. apply filter_In. auto. }
  rewrite forallb_forall in Hguard0. specialize (Hguard0 _ Hch).
  apply andb_true_iff in Hguard0. destruct Hguard0 as (Hu & Hv).
  split; [exact Hu|]. split; [exact Hv|].
  eapply constrain_all_In; eassumption.
Qed.

Lemma cart_upsert_ok (c : context) (oc : option conflict_target) (v : cart_values)
    (d d' : db) :
  cart_upsert c oc v d = Ok d' ->
  let pol := cart_policy (auth_uid c) d in
  let new := proposed_line c v d in
  allows (for_insert pol) new = true
  /\ ((d' = with_cart (cart d ++ [new]) d /\ constrain cart_table d' new = Ok tt)
      \/ (exists old,
             let upd := update_cart_updated_at (now c) (excluded_onto v old) in
             In old (cart d)
             /\ allows (for_update pol) old = true
             /\ allows (for_update pol) upd = true
             /\ d' = with_cart
                       (map (fun r => if N.eqb (CartLine.id r) (CartLine.id old)
                                      then upd else r) (cart d)) d
             /\ constrain cart_table d' upd = Ok tt)).
Proof.
  unfold cart_upsert. intros H. ok_inv H. cbn zeta.
  split; [exact Hguard0|].
  destruct (find _ (cart d)) as [old|] eqn:Hf.
  - right. exists old. cbn zeta. ok_inv H. injection H as <-.
    apply find_some in Hf. destruct Hf as (Hin & _).
    apply andb_true_iff in Hguard2, Hguard3.
    destruct a. tauto.
  - left. ok_inv H. injection H as <-. destruct a. auto.
Qed.

Lemma unique_ok_pair (tbl : list CartLine.row) (r : CartLine.row) :
  unique_ok cart_table tbl r = true ->
  (List.length (filter (is_line_of (CartLine.user_id r) (CartLine.product_id r)) tbl)
   <= 1)%nat.
Proof.
  unfold unique_ok. simpl. rewrite andb_true_r, andb_true_iff.
  intros (_ & H). now apply Nat.leb_le in H.
Qed.

Lemma is_line_of_key (u p : uuid) (r : CartLine.row) :
  is_line_of u p r = true -> u = CartLine.user_id r /\ p = CartLine.product_id r.
Proof.
  unfold is_line_of. rewrite andb_true_iff, !N.eqb_eq. tauto.
Qed.

Lemma lines_unique_insert (l : list CartLine.row) (r : CartLine.row) :
  lines_unique l -> unique_ok cart_table (l ++ [r]) r = true ->
  lines_unique (l ++ [r]).
Proof.
  intros Hl Hr u p.
  destruct (is_line_of u p r) eqn:Hk.
  - apply is_line_of_key in Hk. destruct Hk as (-> & ->).
    now apply unique_ok_pair.
  - rewrite filter_app. simpl. rewrite Hk, app_nil_r. apply Hl.
Qed.

Lemma existsb_false_all {A : Type} (f : A -> bool) (l : list A) :
  existsb f l = false -> forall x, In x l -> f x = false.
Proof.
  intros H x Hx. destruct (f x) eqn:Hf; [|reflexivity].
  assert (existsb f l = true) by (apply existsb_exists; eauto). congruence.
Qed.

Lemma filter_map_le {A : Type} (P hit : A -> bool) (new : A -> A) (l : list A) :
  (forall r, In r l -> hit r = true -> P (new r) = false) ->
  (List.length (filter P (map (fun r => if hit r then new r else r) l))
   <= List.length (filter P l))%nat.
Proof.
  induction l as [|x l IH]; simpl; intros H; [lia|].
  assert (IH' := IH (fun r Hr => H r (or_intror Hr))).
  destruct (hit x) eqn:Hx.
  - rewrite (H x (or_introl eq_refl) Hx). destruct (P x); simpl; lia.
  - destruct (P x); simpl; lia.
Qed.

Lemma lines_unique_map (l : list CartLine.row) (hit : CartLine.row -> bool)
    (new : CartLine.row -> CartLine.row) :
  lines_unique l ->
  (forall r, In r l -> hit r = true ->
             unique_ok cart_table (map (fun r => if hit r then new r else r) l) (new r)
             = true) ->
  lines_unique (map (fun r => if hit r then new r else r) l).
Proof.
  intros Hl Hnew u p.
  destruct (existsb (fun r => hit r && is_line_of u p (new r)) l) eqn:Hex.
  - apply existsb_exists in Hex. destruct Hex as (r & Hin & Hr).
    apply andb_true_iff in Hr. destruct Hr as (Hhit & Hk).
    apply is_line_of_key in Hk. destruct Hk as (-> & ->).
    apply unique_ok_pair. now apply Hnew.
  - etransitivity; [apply filter_map_le | apply Hl].
    intros r Hin Hhit. apply (existsb_false_all _ _ Hex) in Hin.
    now rewrite Hhit in Hin.
Qed.

Lemma lines_unique_filter (l : list CartLine.row) (keep : CartLine.row -> bool) :
  lines_unique l -> lines_unique (filter keep l).
Proof.
  intros Hl u p. etransitivity; [|apply (Hl u p)].
  clear Hl. induction l as [|x l IH]; simpl; [lia|].
  destruct (keep x), (is_line_of u p x) eqn:Hk; simpl; rewrite ?Hk; simpl; lia.
Qed.

Lemma insert_keeps_unique (c : context) (r : CartLine.row) (d : db) :
  cart_unique d -> cart_unique (state_after (sql_insert cart_table c r d) (fun x => x) d).
Proof.
  intros Hd. destruct (sql_insert cart_table c r d) as [d'|e] eqn:H; simpl;
    [|exact Hd].
  apply sql_insert_ok in H. destruct H as (Hd' & _ & _ & Hc).
  apply constrain_unique in Hc. rewrite Hd' in Hc |- *.
  unfold cart_unique. simpl in *. now apply lines_unique_insert.
Qed.

Lemma upsert_keeps_unique (c : context) (oc : option conflict_target) (v : cart_values)
    (d : db) :
  cart_unique d -> cart_unique (state_after (cart_upsert c oc v d) (fun x => x) d).
Proof.
  intros Hd. destruct (cart_upsert c oc v d) as [d'|e] eqn:H; simpl; [|exact Hd].
  apply cart_upsert_ok in H. cbn zeta in H.
  destruct H as (_ & [(Hd' & Hc) | (old & _ & _ & _ & Hd' & Hc)]).
  - apply constrain_unique in Hc. rewrite Hd' in Hc |- *.
    unfold cart_unique. simpl in *. now apply lines_unique_insert.
  - apply constrain_unique in Hc. rewrite Hd' in Hc |- *.
    unfold cart_unique. simpl in *.
    apply (lines_unique_map (cart d)
             (fun r => N.eqb (CartLine.id r) (CartLine.id old))
             (fun _ => update_cart_updated_at (now c) (excluded_onto v old)) Hd).
    intros r _ _. exact Hc.
Qed.

Lemma update_keeps_unique (c : context) (wh : CartLine.row -> bool)
    (assign : CartLine.row -> CartLine.row) (d : db) :
  cart_unique d -> cart_unique (state_after (sql_update cart_table c wh assign d) snd d).
Proof.
  intros Hd. destruct (sql_update cart_table c wh assign d) as [[n d']|e] eqn:H; simpl;
    [|exact Hd].
  apply sql_update_ok in H. cbn zeta in H. destruct H as (Hd' & _ & Hall).
  rewrite Hd'. unfold cart_unique. simpl.
  apply lines_unique_map; [exact Hd|].
  intros r Hin Hhit. destruct (Hall r Hin Hhit) as (_ & _ & Hc).
  apply constrain_unique in Hc. rewrite Hd' in Hc. exact Hc.
Qed.

Lemma delete_keeps_unique (c : context) (wh : CartLine.row -> bool) (d : db) :
  cart_unique d -> cart_unique (snd (sql_delete cart_table c wh d)).
Proof.
  intros Hd. unfold sql_delete, cart_unique. simpl. now apply lines_unique_filter.
Qed.

Lemma finish_state (r : result db) (d : db) :
  snd (finish r d) = state_after r (fun x => x) d.
Proof. destruct r; reflexivity. Qed.

Lemma exec_keeps_unique (c : context) (rq : request) (d : db) :
  cart_unique d -> cart_unique (exec c rq d).
Proof.
  intros Hd. destruct rq; simpl.
  - now apply insert_keeps_unique.
  - now apply upsert_keeps_unique.
  - now apply update_keeps_unique.
  - now apply delete_keeps_unique.
  - unfold ProductCard.addToCart. destruct (ProductCard.getSession c); [|exact Hd].
    rewrite finish_state. now apply upsert_keeps_unique.
  - unfold ProductCard.updateQuantity.
    destruct (newQuantity <? 0); [exact Hd|].
    destruct (ProductCard.getSession c); [|exact Hd].
    destruct (newQuantity =? 0).
    + now apply delete_keeps_unique.
    + rewrite finish_state. now apply upsert_keeps_unique.
  - unfold Cart.updateQuantity.
    destruct (newQuantity <? 0); [exact Hd|].
    destruct (newQuantity =? 0).
    + now apply delete_keeps_unique.
    + rewrite finish_state.
      pose proof (update_keeps_unique c
                    (fun r => N.eqb (CartLine.id r) cartItemId)
                    (Cart.set_quantity newQuantity) d Hd) as Hu.
      destruct (sql_update cart_table c _ _ d) as [[n d']|e]; exact Hu.
  - now apply delete_keeps_unique.
Qed.

(** X24.  At most one cart line exists per (user, product) pair at all
    times: the uniqueness is enforced by the table, so every request
    preserves it, every state reached from an empty cart has it, and two
    upsert requests for the same pair never leave two lines for the pair. *)
Theorem cart_lines_stay_unique :
  (forall c rq d, cart_unique d -> cart_unique (exec c rq d))
  /\ (forall d0 d, cart d0 = [] -> reachable_from d0 d -> cart_unique d)
  /\ (forall c1 c2 oc1 oc2 v1 v2 d,
         cart_unique d ->
         v_user_id v1 = v_user_id v2 -> v_product_id v1 = v_product_id v2 ->
         (List.length
            (lines_of (v_user_id v1) (v_product_id v1)
               (exec c2 (UpsertLine oc2 v2) (exec c1 (UpsertLine oc1 v1) d)))
          <= 1)%nat).
Proof.
  split; [|split].
  - intros c rq d. apply exec_keeps_unique.
  - intros d0 d Hempty Hreach. induction Hreach as [|c rq d _ IH].
    + intros u p. unfold cart_unique. rewrite Hempty. simpl. lia.
    + now apply exec_keeps_unique.
  - intros c1 c2 oc1 oc2 v1 v2 d Hd _ _.
    apply (exec_keeps_unique c2 (UpsertLine oc2 v2)).
    now apply (exec_keeps_unique c1 (UpsertLine oc1 v1)).
Qed.

Lemma cart_lines_stay_unique_witness :
  cart_unique (exec (Scenario.as_asha 4)
                 (UpsertLine None (Scenario.asha_banana 2)) Scenario.one_banana)
  /\ cart_unique Scenario.one_banana.
Proof.
  destruct cart_lines_stay_unique as (Hstep & Hreach & _).
  assert (Hone : cart_unique Scenario.one_banana).
  { apply (Hreach Scenario.signed_up); [reflexivity|].
    apply (reach_step Scenario.signed_up (Scenario.as_asha 3)
             (AddToCart Seed.banana 0) Scenario.signed_up).
    apply reach_start. }
  split; [|exact Hone].
  apply Hstep. exact Hone.
Defined.

(** The ADD button of a card that does not know of the line (another tab,
    another device) is rejected as well. *)
Lemma card_addToCart_on_existing_line (c : context) (u pid : uuid) (q : Z) (d : db) :
  auth_uid c = Some u -> lines_of u pid d <> [] ->
  exists e, ProductCard.addToCart c pid q d = (Failed e, d).
Proof.
  intros Hc Hex. unfold ProductCard.addToCart, ProductCard.getSession. rewrite Hc.
  destruct (upsert_on_existing_line c
              {| v_user_id := u; v_product_id := pid; v_quantity := q + 1 |} d Hex)
    as (e & He).
  exists e. now rewrite He.
Qed.

(** C5, the failing case.  Asha's first ADD at time 3 made the line for
    Banana with quantity 1.  A second upsert for the pair, the ADD of a card
    that still shows no quantity or an upsert of quantity 2, is rejected
    with a uniqueness violation: the pair keeps its single line, but the
    request is not merged into it, the line keeps quantity 1 and the time of
    the first request.  With the unique constraint as the conflict target
    the same request is merged: one line, quantity 2, stamped at time 4. *)
Theorem second_upsert_is_rejected_not_merged :
  Scenario.one_banana
  = exec (Scenario.as_asha 3) (UpsertLine None (Scenario.asha_banana 1))
      Scenario.signed_up
  /\ map (fun l => (CartLine.quantity l, CartLine.updated_at l))
       (lines_of Scenario.asha Seed.banana Scenario.one_banana) = [(1, 3)]
  /\ ProductCard.addToCart (Scenario.as_asha 4) Seed.banana 0 Scenario.one_banana
     = (Failed UniqueViolation, Scenario.one_banana)
  /\ cart_upsert (Scenario.as_asha 4) None (Scenario.asha_banana 2) Scenario.one_banana
     = Err UniqueViolation
  /\ map (fun l => (CartLine.quantity l, CartLine.updated_at l))
       (lines_of Scenario.asha Seed.banana
          (exec (Scenario.as_asha 4) (UpsertLine None (Scenario.asha_banana 2))
             Scenario.one_banana)) = [(1, 3)]
  /\ map (fun l => (CartLine.quantity l, CartLine.updated_at l))
       (lines_of Scenario.asha Seed.banana
          (exec (Scenario.as_asha 4)
             (UpsertLine (Some OnUserProduct) (Scenario.asha_banana 2))
             Scenario.one_banana)) = [(2, 4)].
Proof.
  split; [reflexivity|]. repeat split; vm_compute; reflexivity.
Qed.

(** ** Isolation between users *)

Section Isolation.
Context {row : Type} (T : table row) (owns : uuid -> db -> row -> bool).
Variable valid : db -> Prop.

Hypothesis rows_with_rows : forall l d, rows T (with_rows T l d) = l.
Hypothesis with_rows_same : forall d, with_rows T (rows T d) d = d.
Hypothesis owns_frame : forall u l d r, owns u (with_rows T l d) r = owns u d r.

(** Every policy of the table admits only rows of the requester. *)
Hypothesis select_own : forall u d r,
    allows (for_select (policy T (Some u) d)) r = true -> owns u d r = true.
Hypothesis insert_own : forall u d r,
    allows (for_insert (policy T (Some u) d)) r = true -> owns u d r = true.
Hypothesis update_own : forall u d r,
    allows (for_update (policy T (Some u) d)) r = true -> owns u d r = true.
Hypothesis delete_own : forall u d r,
    allows (for_delete (policy T (Some u) d)) r = true -> owns u d r = true.

(** A row has one owner. *)
Hypothesis one_owner : forall d u1 u2 r,
    valid d -> u1 <> u2 -> owns u2 d r = true -> owns u1 d r = false.

Variables (u1 u2 : uuid) (d : db).
Hypothesis distinct : u1 <> u2.
Hypothesis valid_d : valid d.

Lemma filter_filter_untouched (P hit : row -> bool) (l : list row) :
  (forall r, hit r = true -> P r = false) ->
  filter P (filter (fun r => negb (hit r)) l) = filter P l.
Proof.
  intros H. induction l as [|x l IH]; simpl; [reflexivity|].
  destruct (hit x) eqn:Hx; simpl.
  - now rewrite (H x Hx).
  - destruct (P x); now rewrite IH.
Qed.

Theorem policies_isolate : isolated T owns u1 u2 d.
Proof.
  intros c' Hc'.
  assert (Hsel : forall wh r, In r (sql_select T c' wh d) ->
                              owns u1 d r = false /\ wh r = true).
  { intros wh r Hin. apply filter_In in Hin. destruct Hin as (_ & Hv).
    apply andb_true_iff in Hv. destruct Hv as (Hv & Hw). split; [|exact Hw].
    apply (one_owner d u1 u2 r valid_d distinct).
    apply select_own. unfold visible in Hv. now rewrite Hc' in Hv. }
  repeat split.
  - intros wh r Hin. now apply Hsel in Hin.
  - intros wh Ht. destruct (sql_select T c' wh d) as [|r l] eqn:Hs; [reflexivity|].
    destruct (Hsel wh r) as (Hn & Hw); [rewrite Hs; now left|].
    apply Ht in Hw. congruence.
  - intros r Hr. unfold sql_insert.
    destruct (types_ok T r); simpl; [|eauto].
    destruct (allows (for_insert (policy T (auth_uid c') d)) r) eqn:Ha; simpl;
      [|eauto].
    rewrite Hc' in Ha. apply insert_own in Ha.
    rewrite (one_owner d u1 u2 r valid_d distinct Ha) in Hr. discriminate.
  - intros wh assign Ht. unfold sql_update.
    assert (Hnone : filter (update_hits T c' wh d) (rows T d) = []).
    { apply filter_none. intros r _.
      destruct (update_hits T c' wh d r) eqn:Hh; [|reflexivity].
      unfold update_hits in Hh. rewrite Hc', !andb_true_iff in Hh.
      destruct Hh as ((_ & Hu) & Hw). apply update_own in Hu. apply Ht in Hw.
      rewrite (one_owner d u1 u2 r valid_d distinct Hu) in Hw. discriminate. }
    rewrite Hnone. simpl.
    rewrite map_id_on.
    + now rewrite with_rows_same.
    + intros r Hin.
      destruct (update_hits T c' wh d r) eqn:Hh; [|reflexivity].
      assert (Hin' : In r (filter (update_hits T c' wh d) (rows T d)))
        by (apply filter_In; auto).
      rewrite Hnone in Hin'. contradiction.
  - intros wh assign n d' H. apply sql_update_ok in H. cbn zeta in H.
    destruct H as (Hd' & _ & Hall). rewrite Hd', rows_with_rows.
    transitivity (filter (owns u1 d)
                    (map (fun r => if update_hits T c' wh d r
                                   then before_update T (now c') (assign r) else r)
                         (rows T d))).
    { apply filter_ext. intros r. apply owns_frame. }
    clear Hd'. induction (rows T d) as [|x l IH]; simpl; [reflexivity|].
    assert (IH' := IH (fun r Hr => Hall r (or_intror Hr))).
    destruct (update_hits T c' wh d x) eqn:Hh.
    + destruct (Hall x (or_introl eq_refl) Hh) as (Hu & _ & _).
      rewrite Hc' in Hu. apply update_own in Hu.
      rewrite (one_owner d u1 u2 _ valid_d distinct Hu).
      unfold update_hits in Hh. rewrite Hc', !andb_true_iff in Hh.
      destruct Hh as ((_ & Hx) & _). apply update_own in Hx.
      rewrite (one_owner d u1 u2 _ valid_d distinct Hx). exact IH'.
    + destruct (owns u1 d x); now rewrite IH'.
  - intros wh Ht. unfold sql_delete.
    assert (Hnone : forall r, delete_hits T c' wh d r = false).
    { intros r. destruct (delete_hits T c' wh d r) eqn:Hh; [|reflexivity].
      unfold delete_hits in Hh. rewrite Hc', !andb_true_iff in Hh.
      destruct Hh as ((_ & Hu) & Hw). apply delete_own in Hu. apply Ht in Hw.
      rewrite (one_owner d u1 u2 r valid_d distinct Hu) in Hw. discriminate. }
    rewrite filter_none by (intros; apply Hnone).
    rewrite filter_all by (intros; now rewrite Hnone).
    now rewrite with_rows_same.
  - intros wh. unfold sql_delete. simpl. rewrite rows_with_rows.
    transitivity (filter (owns u1 d)
                    (filter (fun r => negb (delete_hits T c' wh d r)) (rows T d))).
    { apply filter_ext. intros r. apply owns_frame. }
    apply filter_filter_untouched. intros r Hh.
    unfold delete_hits in Hh. rewrite Hc', !andb_true_iff in Hh.
    destruct Hh as ((_ & Hu) & _). apply delete_own in Hu.
    exact (one_owner d u1 u2 r valid_d distinct Hu).
Qed.
End Isolation.

Lemma other_user (u1 u2 x : uuid) : u1 <> u2 -> N.eqb u2 x = true -> N.eqb u1 x = false.
Proof.
  intros Hne Hx. apply N.eqb_eq in Hx. subst x. now apply N.eqb_neq.
Qed.

Lemma NoDup_map_injective {A B : Type} (f : A -> B) (l : list A) (x y : A) :
  NoDup (map f l) -> In x l -> In y l -> f x = f y -> x = y.
Proof.
  induction l as [|a l IH]; simpl; intros Hnd Hx Hy Hf; [contradiction|].
  inversion Hnd as [|? ? Hnotin Hnd']; subst.
  destruct Hx as [->|Hx], Hy as [->|Hy].
  - reflexivity.
  - exfalso. apply Hnotin. rewrite Hf. now apply in_map.
  - exfalso. apply Hnotin. rewrite <- Hf. now apply in_map.
  - now apply IH.
Qed.

Lemma profiles_isolated (u1 u2 : uuid) (d : db) :
  u1 <> u2 -> isolated profiles_table owns_profile u1 u2 d.
Proof.
  intros Hne.
  apply (policies_isolate profiles_table owns_profile (fun _ => True)); auto.
  - intros; destruct d0; reflexivity.
  - simpl. discriminate.
  - intros d0 a b r _ Hab. now apply other_user.
Qed.

Lemma cart_isolated (u1 u2 : uuid) (d : db) :
  u1 <> u2 -> isolated cart_table owns_line u1 u2 d.
Proof.
  intros Hne.
  apply (policies_isolate cart_table owns_line (fun _ => True)); auto.
  - intros; destruct d0; reflexivity.
  - intros d0 a b r _ Hab. now apply other_user.
Qed.

Lemma orders_isolated (u1 u2 : uuid) (d : db) :
  u1 <> u2 -> isolated orders_table owns_order u1 u2 d.
Proof.
  intros Hne.
  apply (policies_isolate orders_table owns_order (fun _ => True)); auto.
  - intros; destruct d0; reflexivity.
  - simpl. discriminate.
  - simpl. discriminate.
  - intros d0 a b r _ Hab. now apply other_user.
Qed.

(** The policy of [order_items] admits an item only if its order is the
    requester's. *)
Lemma in_own_orders_owns (u : uuid) (d : db) (r : OrderItem.row) :
  in_own_orders (Some u) d r = true -> owns_item u d r = true.
Proof.
  unfold in_own_orders, own_order_ids, owns_item. rewrite !existsb_exists.
  intros (x & Hin & Hx). apply in_map_iff in Hin. destruct Hin as (o & Ho & Hin).
  apply filter_In in Hin. destruct Hin as (Hin & Hv).
  apply andb_true_iff in Hv. destruct Hv as (_ & Hu).
  exists o. split; [exact Hin|].
  apply N.eqb_eq in Hx. subst x. rewrite Hx, N.eqb_refl. exact Hu.
Qed.

Lemma item_has_one_owner (d : db) (u1 u2 : uuid) (r : OrderItem.row) :
  orders_pk d -> u1 <> u2 -> owns_item u2 d r = true -> owns_item u1 d r = false.
Proof.
  intros Hpk Hne H2. destruct (owns_item u1 d r) eqn:H1; [|reflexivity].
  unfold owns_item in H1, H2. apply existsb_exists in H1, H2.
  destruct H1 as (o1 & Hin1 & H1), H2 as (o2 & Hin2 & H2).
  apply andb_true_iff in H1, H2. destruct H1 as (Hid1 & Hu1), H2 as (Hid2 & Hu2).
  apply N.eqb_eq in Hid1, Hid2, Hu1, Hu2.
  assert (o1 = o2).
  { apply (NoDup_map_injective Order.id (orders d)); try assumption. congruence. }
  subst o2. congruence.
Qed.

Lemma order_items_isolated (u1 u2 : uuid) (d : db) :
  u1 <> u2 -> orders_pk d -> isolated order_items_table owns_item u1 u2 d.
Proof.
  intros Hne Hpk.
  apply (policies_isolate order_items_table owns_item orders_pk); auto.
  - intros; destruct d0; reflexivity.
  - intros u d0 r. apply in_own_orders_owns.
  - intros u d0 r. apply in_own_orders_owns.
  - simpl. discriminate.
  - simpl. discriminate.
  - intros d0 a b r Hv Hab. now apply item_has_one_owner.
Qed.

(** The upsert of the cart, issued by [u2], neither creates nor changes a
    line of [u1]. *)
Lemma upsert_isolated (u1 u2 : uuid) (d : db) (c : context)
    (oc : option conflict_target) (v : cart_values) :
  u1 <> u2 -> cart_pk d -> auth_uid c = Some u2 ->
  (v_user_id v = u1 -> exists e, cart_upsert c oc v d = Err e)
  /\ (forall d', cart_upsert c oc v d = Ok d' ->
                 filter (owns_line u1 d') (cart d') = filter (owns_line u1 d) (cart d)).
Proof.
  intros Hne Hpk Hc. split.
  - intros Hv. destruct (cart_upsert c oc v d) as [d'|e] eqn:H; [|eauto].
    apply cart_upsert_ok in H. cbn zeta in H. destruct H as (Hins & _).
    simpl in Hins. rewrite Hc in Hins. simpl in Hins.
    apply N.eqb_eq in Hins. congruence.
  - intros d' H. apply cart_upsert_ok in H. cbn zeta in H.
    destruct H as (Hins & [(Hd' & _) | (old & Hin & Hold & Hupd & Hd' & _)]).
    + rewrite Hd'. simpl. rewrite filter_app. simpl.
      simpl in Hins. rewrite Hc in Hins. simpl in Hins.
      unfold owns_line at 2. simpl.
      rewrite (other_user u1 u2 _ Hne Hins). now rewrite app_nil_r.
    + rewrite Hd'. simpl.
      simpl in Hold, Hupd. rewrite Hc in Hold, Hupd. simpl in Hold, Hupd.
      unfold cart_pk in Hpk. unfold owns_line. clear Hd' Hins.
      revert Hpk Hin.
      induction (cart d) as [|x l IH]; simpl; intros Hpk Hin; [reflexivity|].
      inversion Hpk as [|? ? Hnotin Hpk']; subst.
      destruct (N.eqb (CartLine.id x) (CartLine.id old)) eqn:Hid.
      * assert (x = old).
        { apply N.eqb_eq in Hid. destruct Hin as [Hin|Hin]; [exact Hin|].
          exfalso. apply Hnotin. rewrite Hid. now apply in_map. }
        subst x. simpl.
        rewrite (other_user u1 u2 _ Hne Hupd), (other_user u1 u2 _ Hne Hold).
        clear IH. rewrite map_id_on; [reflexivity|].
        intros y Hy. destruct (N.eqb (CartLine.id y) (CartLine.id old)) eqn:Hy';
          [|reflexivity].
        exfalso. apply Hnotin. apply N.eqb_eq in Hy'. rewrite <- Hy'.
        now apply in_map.
      * destruct Hin as [->|Hin]; [rewrite N.eqb_refl in Hid; discriminate|].
        rewrite (IH Hpk' Hin). reflexivity.
Qed.

(** C1.  For distinct identities [u1] and [u2], in each of [profiles],
    [cart], [orders] and [order_items] (owned through the parent order): a
    read issued as [u2] never returns a row of [u1] and is empty when it
    aims at rows of [u1]; an insert of a row of [u1] is rejected; an update
    or a delete that aims at rows of [u1] affects zero rows and changes
    nothing, and every update, delete or cart upsert of [u2] leaves the
    rows of [u1] exactly as they were. *)
Theorem other_users_rows_are_out_of_reach (u1 u2 : uuid) (d : db) :
  u1 <> u2 -> orders_pk d -> cart_pk d ->
  isolated profiles_table owns_profile u1 u2 d
  /\ isolated cart_table owns_line u1 u2 d
  /\ isolated orders_table owns_order u1 u2 d
  /\ isolated order_items_table owns_item u1 u2 d
  /\ (forall c oc v,
         auth_uid c = Some u2 ->
         (v_user_id v = u1 -> exists e, cart_upsert c oc v d = Err e)
         /\ (forall d', cart_upsert c oc v d = Ok d' ->
                        filter (owns_line u1 d') (cart d')
                        = filter (owns_line u1 d) (cart d))).
Proof.
  intros Hne Hopk Hcpk.
  split; [now apply profiles_isolated|].
  split; [now apply cart_isolated|].
  split; [now apply orders_isolated|].
  split; [now apply order_items_isolated|].
  intros c oc v Hc. exact (upsert_isolated u1 u2 d c oc v Hne Hcpk Hc).
Qed.

Lemma other_users_rows_are_out_of_reach_witness :
  sql_select orders_table (Scenario.as_asha 9)
    (fun o => N.eqb (Order.user_id o) Scenario.asha) Scenario.ordered_with_chips <> []
  /\ sql_select orders_table (Scenario.as_ravi 9)
       (fun o => N.eqb (Order.user_id o) Scenario.asha) Scenario.ordered_with_chips = []
  /\ sql_select order_items_table (Scenario.as_ravi 9)
       (owns_item Scenario.asha Scenario.ordered_with_chips)
       Scenario.ordered_with_chips = []
  /\ sql_delete cart_table (Scenario.as_ravi 9)
       (fun l => N.eqb (CartLine.user_id l) Scenario.asha) Scenario.ordered_with_chips
     = (0%nat, Scenario.ordered_with_chips)
  /\ sql_update profiles_table (Scenario.as_ravi 9)
       (fun p => N.eqb (Profile.user_id p) Scenario.asha)
       (fun p => p) Scenario.ordered_with_chips
     = Ok (0%nat, Scenario.ordered_with_chips).
Proof.
  assert (Hne : Scenario.asha <> Scenario.ravi) by discriminate.
  assert (Hopk : orders_pk Scenario.ordered_with_chips)
    by (vm_compute; repeat constructor; simpl; tauto).
  assert (Hcpk : cart_pk Scenario.ordered_with_chips)
    by (vm_compute; repeat constructor; simpl; tauto).
  destruct (other_users_rows_are_out_of_reach Scenario.asha Scenario.ravi
              Scenario.ordered_with_chips Hne Hopk Hcpk)
    as (Hprof & Hcart & Hord & Hitems & _).
  destruct (Hprof (Scenario.as_ravi 9) eq_refl) as (_ & _ & _ & Hpu & _).
  destruct (Hcart (Scenario.as_ravi 9) eq_refl) as (_ & _ & _ & _ & _ & Hcd & _).
  destruct (Hord (Scenario.as_ravi 9) eq_refl) as (_ & Hos & _).
  destruct (Hitems (Scenario.as_ravi 9) eq_refl) as (_ & His & _).
  split; [vm_compute; discriminate|].
  split.
  { apply Hos. intros r Hr. unfold owns_order. now rewrite N.eqb_sym. }
  split.
  { apply His. intros r Hr. exact Hr. }
  split.
  { apply Hcd. intros r Hr. unfold owns_line. now rewrite N.eqb_sym. }
  apply Hpu. intros r Hr. unfold owns_profile. now rewrite N.eqb_sym.
Defined.

(** ** Price snapshots *)

Lemma update_price_ok (t : timestamptz) (pid : uuid) (p : decimal) (d d' : db)
    (n : nat) :
  update_price t pid p d = Ok (n, d') ->
  d' = with_products
         (map (fun r => if N.eqb (Product.id r) pid
                        then update_products_updated_at t (set_price p r) else r) (products d)) d.
Proof.
  unfold update_price, sql_update_owner. intros H. ok_inv H.
  now injection H as _ <-.
Qed.

(** What the orders page reads of a product survives any rewrite of
    [products] that keeps [id], [name], [image_url] and [is_active]. *)
Lemma embed_product_frame (c : context) (d : db) (g : Product.row -> Product.row)
    (x : uuid) :
  (forall r, Product.id (g r) = Product.id r
             /\ Product.name (g r) = Product.name r
             /\ Product.image_url (g r) = Product.image_url r
             /\ Product.is_active (g r) = Product.is_active r) ->
  Orders.embed_product c (with_products (map g (products d)) d) x
  = Orders.embed_product c d x.
Proof.
  intros Hg. unfold Orders.embed_product, sql_select, visible. simpl.
  induction (products d) as [|r l IH]; simpl; [reflexivity|].
  destruct (Hg r) as (Hid & Hname & Himg & Hact).
  rewrite Hact. destruct (is_true (Product.is_active r) && true); [|exact IH].
  simpl. rewrite Hid.
  destruct (N.eqb (Product.id r) x); [|exact IH].
  simpl. now rewrite Hname, Himg.
Qed.

Lemma fetchOrders_frame (c : context) (d : db) (g : Product.row -> Product.row) :
  (forall r, Product.id (g r) = Product.id r
             /\ Product.name (g r) = Product.name r
             /\ Product.image_url (g r) = Product.image_url r
             /\ Product.is_active (g r) = Product.is_active r) ->
  Orders.fetchOrders c (with_products (map g (products d)) d)
  = Orders.fetchOrders c d.
Proof.
  intros Hg. unfold Orders.fetchOrders. destruct (auth_uid c) as [user|]; [|reflexivity].
  apply map_ext. intros o. f_equal.
  unfold Orders.embed_items. apply map_ext. intros i. f_equal.
  now apply embed_product_frame.
Qed.

Lemma fetched_item_is_stored (c : context) (d : db) (o : Orders.Order)
    (iv : Orders.OrderItemView) :
  In o (Orders.fetchOrders c d) -> In iv (Orders.order_items o) ->
  exists i, In i (order_items d)
            /\ OrderItem.order_id i = Orders.id o
            /\ Orders.unit_price iv = OrderItem.unit_price i
            /\ Orders.quantity iv = OrderItem.quantity i.
Proof.
  unfold Orders.fetchOrders. destruct (auth_uid c) as [user|]; [|contradiction].
  intros Ho Hiv. apply in_map_iff in Ho. destruct Ho as (r & <- & _).
  simpl in Hiv. unfold Orders.embed_items in Hiv.
  apply in_map_iff in Hiv. destruct Hiv as (i & <- & Hi).
  apply filter_In in Hi. destruct Hi as (Hin & Hw).
  apply andb_true_iff in Hw. destruct Hw as (_ & Hw). apply N.eqb_eq in Hw.
  exists i. simpl. auto.
Qed.

(** C2.  A change of a product's price leaves every order item as it is,
    [unit_price] and [total_price] included, and the orders page shows the
    same after the change as before: each item it shows carries the
    [unit_price] stored in its [order_items] row, and nothing read from
    [products] but the name and the image. *)
Theorem price_change_leaves_order_items (t : timestamptz) (pid : uuid) (p : decimal)
    (d d' : db) (n : nat) :
  update_price t pid p d = Ok (n, d') ->
  order_items d' = order_items d
  /\ orders d' = orders d
  /\ (forall c, Orders.fetchOrders c d' = Orders.fetchOrders c d)
  /\ (forall c o iv,
         In o (Orders.fetchOrders c d') -> In iv (Orders.order_items o) ->
         exists i, In i (order_items d)
                   /\ OrderItem.order_id i = Orders.id o
                   /\ Orders.unit_price iv = OrderItem.unit_price i
                   /\ Orders.quantity iv = OrderItem.quantity i).
Proof.
  intros H. apply update_price_ok in H.
  assert (Hf : forall c, Orders.fetchOrders c d' = Orders.fetchOrders c d).
  { intros c. rewrite H. apply fetchOrders_frame.
    intros r. destruct (N.eqb (Product.id r) pid); repeat split. }
  split; [now rewrite H|]. split; [now rewrite H|]. split; [exact Hf|].
  intros c o iv Ho Hiv. rewrite Hf in Ho. eapply fetched_item_is_stored; eassumption.
Qed.

(** Banana goes from 40.00 to 45.00 after Asha's order: the order still
    shows 40.00. *)
Lemma price_change_leaves_order_items_witness :
  exists d',
    update_price 8 Seed.banana 4500 Scenario.ordered = Ok (1%nat, d')
    /\ Checkout.price_of Scenario.ordered Seed.banana = Some 4000
    /\ Checkout.price_of d' Seed.banana = Some 4500
    /\ map OrderItem.unit_price (order_items d') = [4000; 5500]
    /\ map OrderItem.total_price (order_items d') = [8000; 5500]
    /\ map (fun o => map Orders.unit_price (Orders.order_items o))
         (Orders.fetchOrders (Scenario.as_asha 9) d') = [[4000; 5500]].
Proof.
  eexists. split; [vm_compute; reflexivity|].
  split; [vm_compute; reflexivity|]. split; [vm_compute; reflexivity|].
  match goal with
  | |- context [order_items ?d'] =>
      destruct (price_change_leaves_order_items 8 Seed.banana 4500 Scenario.ordered
                  d' 1%nat) as (Hitems & _ & Hfetch & _);
      [vm_compute; reflexivity|]
  end.
  rewrite Hitems, Hfetch.
  split; [vm_compute; reflexivity|]. split; vm_compute; reflexivity.
Defined.

(** * Further properties of the code *)

(** ** Statements that no policy admits *)

Section NoPolicy.
Context {row : Type} (T : table row).
Hypothesis with_rows_same : forall d, with_rows T (rows T d) d = d.

Lemma update_without_hits (c : context) (wh : row -> bool) (assign : row -> row)
    (d : db) :
  (forall r, update_hits T c wh d r = false) ->
  sql_update T c wh assign d = Ok (0%nat, d).
Proof.
  intros Hnone. unfold sql_update.
  rewrite filter_none by (intros; apply Hnone). simpl.
  rewrite map_id_on by (intros r _; now rewrite Hnone).
  now rewrite with_rows_same.
Qed.

Lemma delete_without_hits (c : context) (wh : row -> bool) (d : db) :
  (forall r, delete_hits T c wh d r = false) ->
  sql_delete T c wh d = (0%nat, d).
Proof.
  intros Hnone. unfold sql_delete.
  rewrite filter_none by (intros; apply Hnone).
  rewrite filter_all by (intros; now rewrite Hnone).
  now rewrite with_rows_same.
Qed.

Lemma insert_without_policy (c : context) (d : db) :
  (forall r, allows (for_insert (policy T (auth_uid c) d)) r = false) ->
  no_insert T c d.
Proof.
  intros Hnone r. unfold sql_insert.
  destruct (types_ok T r); simpl; [|eauto].
  rewrite Hnone. simpl. eauto.
Qed.

Lemma update_without_policy (c : context) (d : db) :
  (forall r, allows (for_update (policy T (auth_uid c) d)) r = false) ->
  no_update T c d.
Proof.
  intros Hnone wh assign. apply update_without_hits.
  intros r. unfold update_hits. rewrite Hnone. now rewrite andb_false_r.
Qed.

Lemma delete_without_policy (c : context) (d : db) :
  (forall r, allows (for_delete (policy T (auth_uid c) d)) r = false) ->
  no_delete T c d.
Proof.
  intros Hnone wh. apply delete_without_hits.
  intros r. unfold delete_hits. rewrite Hnone. now rewrite andb_false_r.
Qed.

Lemma select_without_policy (c : context) (d : db) :
  (forall r, visible T (auth_uid c) d r = false) ->
  no_select T c d.
Proof.
  intros Hnone wh. unfold sql_select. apply filter_none.
  intros r _. now rewrite Hnone.
Qed.
End NoPolicy.

Lemma with_profiles_same (d : db) : with_profiles (profiles d) d = d.
Proof. destruct d; reflexivity. Qed.
Lemma with_categories_same (d : db) : with_categories (categories d) d = d.
Proof. destruct d; reflexivity. Qed.
Lemma with_products_same (d : db) : with_products (products d) d = d.
Proof. destruct d; reflexivity. Qed.
Lemma with_orders_same (d : db) : with_orders (orders d) d = d.
Proof. destruct d; reflexivity. Qed.
Lemma with_order_items_same (d : db) : with_order_items (order_items d) d = d.
Proof. destruct d; reflexivity. Qed.

(** X1.  No client, signed in or not, can write the catalogue or rewrite
    history: every insert into [categories] or [products] is rejected, every
    update or delete there affects zero rows and changes nothing; so does
    every update or delete of [orders] and [order_items], and every delete
    of [profiles]. *)
Theorem catalogue_and_history_are_read_only (c : context) (d : db) :
  (no_insert categories_table c d /\ no_update categories_table c d
   /\ no_delete categories_table c d)
  /\ (no_insert products_table c d /\ no_update products_table c d
      /\ no_delete products_table c d)
  /\ (no_update orders_table c d /\ no_delete orders_table c d)
  /\ (no_update order_items_table c d /\ no_delete order_items_table c d)
  /\ no_delete profiles_table c d.
Proof.
  repeat split.
  - now apply insert_without_policy.
  - apply update_without_policy; [apply with_categories_same | reflexivity].
  - apply delete_without_policy; [apply with_categories_same | reflexivity].
  - now apply insert_without_policy.
  - apply update_without_policy; [apply with_products_same | reflexivity].
  - apply delete_without_policy; [apply with_products_same | reflexivity].
  - apply update_without_policy; [apply with_orders_same | reflexivity].
  - apply delete_without_policy; [apply with_orders_same | reflexivity].
  - apply update_without_policy; [apply with_order_items_same | reflexivity].
  - apply delete_without_policy; [apply with_order_items_same | reflexivity].
  - apply delete_without_policy; [apply with_profiles_same | reflexivity].
Qed.

Lemma in_own_orders_anonymous (d : db) (r : OrderItem.row) :
  in_own_orders None d r = false.
Proof.
  unfold in_own_orders, own_order_ids.
  rewrite filter_none; [reflexivity|]. intros o _. reflexivity.
Qed.

(** X2.  A request without a session reads no profile, cart line, order or
    order item and writes none: every select is empty, every insert and
    every cart upsert is rejected, every update and delete affects zero
    rows; the client functions that need a session return at once or show
    nothing. *)
Theorem anonymous_requests_reach_nothing (c : context) (d : db) :
  auth_uid c = None ->
  (no_select profiles_table c d /\ no_insert profiles_table c d
   /\ no_update profiles_table c d /\ no_delete profiles_table c d)
  /\ (no_select cart_table c d /\ no_insert cart_table c d
      /\ no_update cart_table c d /\ no_delete cart_table c d)
  /\ (no_select orders_table c d /\ no_insert orders_table c d)
  /\ (no_select order_items_table c d /\ no_insert order_items_table c d)
  /\ (forall oc v, exists e, cart_upsert c oc v d = Err e)
  /\ (forall pid q, ProductCard.addToCart c pid q d = (Returned, d))
  /\ (forall pid q, ProductCard.updateQuantity c pid q d = (Returned, d))
  /\ Cart.fetchCartItems c d = []
  /\ Orders.fetchOrders c d = []
  /\ Home.fetchCartItems c d = []
  /\ Account.fetchProfile c d = None.
Proof.
  intros Hc.
  assert (Hitems : forall r, in_own_orders (auth_uid c) d r = false)
    by (intros r; rewrite Hc; apply in_own_orders_anonymous).
  repeat split.
  - apply select_without_policy. intros r. unfold visible. now rewrite Hc.
  - apply insert_without_policy. intros r. now rewrite Hc.
  - apply update_without_policy; [apply with_profiles_same|]. intros r. now rewrite Hc.
  - apply delete_without_policy; [apply with_profiles_same | reflexivity].
  - apply select_without_policy. intros r. unfold visible. now rewrite Hc.
  - apply insert_without_policy. intros r. now rewrite Hc.
  - apply update_without_policy; [apply with_cart_same|]. intros r. now rewrite Hc.
  - apply delete_without_policy; [apply with_cart_same|]. intros r. now rewrite Hc.
  - apply select_without_policy. intros r. unfold visible. now rewrite Hc.
  - apply insert_without_policy. intros r. now rewrite Hc.
  - apply select_without_policy. intros r. unfold visible. simpl. apply Hitems.
  - apply insert_without_policy. intros r. simpl. apply Hitems.
  - intros oc v. unfold cart_upsert.
    destruct (guard (types_ok cart_table (proposed_line c v d)) _); simpl; [|eauto].
    rewrite Hc. simpl. eauto.
  - intros pid q. unfold ProductCard.addToCart, ProductCard.getSession. now rewrite Hc.
  - intros pid q. unfold ProductCard.updateQuantity, ProductCard.getSession.
    rewrite Hc. now destruct (q <? 0).
  - unfold Cart.fetchCartItems. now rewrite Hc.
  - unfold Orders.fetchOrders. now rewrite Hc.
  - unfold Home.fetchCartItems. now rewrite Hc.
  - unfold Account.fetchProfile. now rewrite Hc.
Qed.

Lemma anonymous_requests_reach_nothing_witness :
  sql_select orders_table (Scenario.anonymous 9) (fun _ => true)
    Scenario.ordered_with_chips = []
  /\ sql_select orders_table (Scenario.as_asha 9) (fun _ => true)
       Scenario.ordered_with_chips <> []
  /\ sql_delete cart_table (Scenario.anonymous 9) (fun _ => true)
       Scenario.ordered_with_chips = (0%nat, Scenario.ordered_with_chips)
  /\ cart Scenario.ordered_with_chips <> [].
Proof.
  destruct (anonymous_requests_reach_nothing (Scenario.anonymous 9)
              Scenario.ordered_with_chips eq_refl)
    as (_ & (_ & _ & _ & Hdel) & (Hsel & _) & _).
  split; [apply Hsel|]. split; [vm_compute; discriminate|].
  split; [apply Hdel|]. vm_compute. discriminate.
Defined.

(** ** Validity of the cart *)

Lemma constrain_ok_inv {row : Type} (T : table row) (d : db) (r : row) (u : unit) :
  constrain T d r = Ok u ->
  checks_ok T r = true /\ unique_ok T (rows T d) r = true /\ references_ok T d r = true.
Proof.
  unfold constrain. intros H. ok_inv H. auto.
Qed.

Lemma sql_update_types {row : Type} (T : table row) (c : context) (wh : row -> bool)
    (assign : row -> row) (d d' : db) (n : nat) (r : row) :
  sql_update T c wh assign d = Ok (n, d') ->
  In r (rows T d) -> update_hits T c wh d r = true ->
  types_ok T (before_update T (now c) (assign r)) = true.
Proof.
  unfold sql_update. intros H Hin Hhit. ok_inv H.
  rewrite forallb_forall in Hguard. apply Hguard.
  apply in_map_iff. exists r. split; [reflexivity|]. apply filter_In. auto.
Qed.

Lemma cart_upsert_types (c : context) (oc : option conflict_target) (v : cart_values)
    (d d' : db) :
  cart_upsert c oc v d = Ok d' -> integer_ok (v_quantity v) = true.
Proof.
  unfold cart_upsert. intros H. ok_inv H. exact Hguard.
Qed.

Lemma valid_line_of_guards (d : db) (tbl : list CartLine.row) (l : CartLine.row) :
  types_ok cart_table l = true ->
  checks_ok cart_table l = true ->
  references_ok cart_table (with_cart tbl d) l = true ->
  valid_line_in d l.
Proof.
  simpl. unfold integer_ok, valid_line_in, user_exists, product_exists. simpl.
  rewrite !andb_true_iff, Z.leb_le, !Z.ltb_lt. intuition lia.
Qed.

Lemma cart_valid_with_cart (d : db) (tbl : list CartLine.row) :
  (forall l, In l tbl -> valid_line_in d l) -> cart_valid (with_cart tbl d).
Proof.
  intros H l Hl. exact (H l Hl).
Qed.

Lemma insert_keeps_valid (c : context) (r : CartLine.row) (d : db) :
  cart_valid d -> cart_valid (state_after (sql_insert cart_table c r d) (fun x => x) d).
Proof.
  intros Hd. destruct (sql_insert cart_table c r d) as [d'|e] eqn:H; simpl;
    [|exact Hd].
  apply sql_insert_ok in H. destruct H as (Hd' & Hty & _ & Hc).
  apply constrain_ok_inv in Hc. destruct Hc as (Hck & _ & Hfk).
  rewrite Hd' in Hfk |- *. apply cart_valid_with_cart.
  intros l Hl. apply in_app_or in Hl. destruct Hl as [Hl|[<-|[]]].
  - now apply Hd.
  - eapply valid_line_of_guards; eassumption.
Qed.

Lemma upsert_keeps_valid (c : context) (oc : option conflict_target) (v : cart_values)
    (d : db) :
  cart_valid d -> cart_valid (state_after (cart_upsert c oc v d) (fun x => x) d).
Proof.
  intros Hd. destruct (cart_upsert c oc v d) as [d'|e] eqn:H; simpl; [|exact Hd].
  pose proof (cart_upsert_types _ _ _ _ _ H) as Hty.
  apply cart_upsert_ok in H. cbn zeta in H.
  destruct H as (_ & [(Hd' & Hc) | (old & _ & _ & _ & Hd' & Hc)]);
    apply constrain_ok_inv in Hc; destruct Hc as (Hck & _ & Hfk);
    rewrite Hd' in Hfk |- *; apply cart_valid_with_cart; intros l Hl.
  - apply in_app_or in Hl. destruct Hl as [Hl|[<-|[]]].
    + now apply Hd.
    + eapply valid_line_of_guards; eassumption.
  - apply in_map_iff in Hl. destruct Hl as (x & Hx & Hin).
    destruct (N.eqb (CartLine.id x) (CartLine.id old)).
    + subst l. eapply valid_line_of_guards; eassumption.
    + subst l. now apply Hd.
Qed.

Lemma update_keeps_valid (c : context) (wh : CartLine.row -> bool)
    (assign : CartLine.row -> CartLine.row) (d : db) :
  cart_valid d -> cart_valid (state_after (sql_update cart_table c wh assign d) snd d).
Proof.
  intros Hd. destruct (sql_update cart_table c wh assign d) as [[n d']|e] eqn:H; simpl;
    [|exact Hd].
  pose proof (sql_update_types cart_table c wh assign d d' n) as Hty.
  specialize (Hty) with (1 := H).
  apply sql_update_ok in H. cbn zeta in H. destruct H as (Hd' & _ & Hall).
  rewrite Hd'. apply cart_valid_with_cart. intros l Hl.
  apply in_map_iff in Hl. destruct Hl as (x & Hx & Hin).
  destruct (update_hits cart_table c wh d x) eqn:Hhit.
  - subst l. destruct (Hall x Hin Hhit) as (_ & _ & Hc).
    apply constrain_ok_inv in Hc. destruct Hc as (Hck & _ & Hfk).
    rewrite Hd' in Hfk.
    eapply valid_line_of_guards; [exact (Hty x Hin Hhit) | exact Hck | exact Hfk].
  - subst l. now apply Hd.
Qed.

Lemma delete_keeps_valid (c : context) (wh : CartLine.row -> bool) (d : db) :
  cart_valid d -> cart_valid (snd (sql_delete cart_table c wh d)).
Proof.
  intros Hd. unfold sql_delete. simpl. apply cart_valid_with_cart.
  intros l Hl. apply filter_In in Hl. now apply Hd.
Qed.

(** X3.  Every request of a client keeps the cart well-formed: each line
    holds a quantity between 1 and 2^31 - 1 and points to an identity and a
    product that exist.  So it is in every state reached from an empty
    cart. *)
Theorem cart_stays_valid :
  (forall c rq d, cart_valid d -> cart_valid (exec c rq d))
  /\ (forall d0 d, cart d0 = [] -> reachable_from d0 d -> cart_valid d).
Proof.
  assert (Hstep : forall c rq d, cart_valid d -> cart_valid (exec c rq d)).
  { intros c rq d Hd. destruct rq; simpl.
    - now apply insert_keeps_valid.
    - now apply upsert_keeps_valid.
    - now apply update_keeps_valid.
    - now apply delete_keeps_valid.
    - unfold ProductCard.addToCart. destruct (ProductCard.getSession c); [|exact Hd].
      rewrite finish_state. now apply upsert_keeps_valid.
    - unfold ProductCard.updateQuantity.
      destruct (newQuantity <? 0); [exact Hd|].
      destruct (ProductCard.getSession c); [|exact Hd].
      destruct (newQuantity =? 0).
      + now apply delete_keeps_valid.
      + rewrite finish_state. now apply upsert_keeps_valid.
    - unfold Cart.updateQuantity.
      destruct (newQuantity <? 0); [exact Hd|].
      destruct (newQuantity =? 0).
      + now apply delete_keeps_valid.
      + rewrite finish_state.
        pose proof (update_keeps_valid c
                      (fun r => N.eqb (CartLine.id r) cartItemId)
                      (Cart.set_quantity newQuantity) d Hd) as Hu.
        destruct (sql_update cart_table c _ _ d) as [[n d']|e]; exact Hu.
    - now apply delete_keeps_valid. }
  split; [exact Hstep|].
  intros d0 d Hempty Hreach. induction Hreach as [|c rq d _ IH].
  - intros l Hl. rewrite Hempty in Hl. contradiction.
  - now apply Hstep.
Qed.

Lemma cart_stays_valid_witness :
  cart_valid Scenario.banana_and_milk
  /\ cart_valid (exec (Scenario.as_asha 6)
                   (UpdateLines (fun _ => true) (Cart.set_quantity 0))
                   Scenario.banana_and_milk).
Proof.
  destruct cart_stays_valid as (Hstep & Hreach).
  assert (Hv : cart_valid Scenario.banana_and_milk).
  { apply (Hreach Scenario.signed_up); [reflexivity|].
    apply (reach_step _ (Scenario.as_asha 5) (AddToCart Seed.milk 0)).
    apply (reach_step _ (Scenario.as_asha 4) (PageUpdateQuantity 1%N 2)).
    apply (reach_step _ (Scenario.as_asha 3) (AddToCart Seed.banana 0)).
    apply reach_start. }
  split; [exact Hv | now apply Hstep].
Defined.

(** ** The cart page *)

Lemma constrain_all_intro {row : Type} (T : table row) (d : db) (rs : list row) :
  (forall r, In r rs -> constrain T d r = Ok tt) -> constrain_all T d rs = Ok tt.
Proof.
  induction rs as [|x rs IH]; simpl; intros H; [reflexivity|].
  rewrite (H x (or_introl eq_refl)). simpl. apply IH. intros r Hr. apply H. now right.
Qed.

Lemma filter_map_length {A : Type} (P : A -> bool) (g : A -> A) (l : list A) :
  (forall r, P (g r) = P r) ->
  List.length (filter P (map g l)) = List.length (filter P l).
Proof.
  intros H. induction l as [|x l IH]; simpl; [reflexivity|].
  rewrite H. destruct (P x); simpl; now rewrite IH.
Qed.

Lemma NoDup_key_once {A : Type} (key : A -> uuid) (l : list A) (k : uuid) :
  NoDup (map key l) ->
  (List.length (filter (fun r => N.eqb k (key r)) l) <= 1)%nat.
Proof.
  induction l as [|x l IH]; simpl; intros Hnd; [lia|].
  inversion Hnd as [|? ? Hnotin Hnd']; subst.
  destruct (N.eqb k (key x)) eqn:Hk; [|now apply IH].
  simpl. rewrite filter_none; [simpl; lia|].
  intros y Hy. apply N.eqb_neq. intros Heq. apply N.eqb_eq in Hk.
  apply Hnotin. rewrite <- Hk, Heq. now apply in_map.
Qed.

Lemma sql_update_intro {row : Type} (T : table row) (c : context) (wh : row -> bool)
    (assign : row -> row) (d : db) :
  let hit := update_hits T c wh d in
  let new := fun r => before_update T (now c) (assign r) in
  let changed := map new (filter hit (rows T d)) in
  let d' := with_rows T (map (fun r => if hit r then new r else r) (rows T d)) d in
  forallb (types_ok T) changed = true ->
  forallb (fun r => allows (for_update (policy T (auth_uid c) d)) r
                    && visible T (auth_uid c) d r) changed = true ->
  constrain_all T d' changed = Ok tt ->
  sql_update T c wh assign d = Ok (List.length changed, d').
Proof.
  cbn zeta. intros Hty Hrls Hcon. unfold sql_update.
  rewrite Hty, Hrls. cbn [guard bind]. rewrite Hcon. reflexivity.
Qed.

(** The update the cart page issues, on the rows of the cart: the line
    with the given id, when it is the requester's. *)
Lemma page_update_hits (c : context) (u cid : uuid) (d : db) (r : CartLine.row) :
  auth_uid c = Some u ->
  update_hits cart_table c (fun r => N.eqb (CartLine.id r) cid) d r
  = N.eqb u (CartLine.user_id r) && N.eqb (CartLine.id r) cid.
Proof.
  intros Hc. unfold update_hits, visible. simpl. rewrite Hc. simpl.
  now destruct (N.eqb u (CartLine.user_id r)).
Qed.

(** X4.  On the cart page, [updateQuantity] with a quantity between 1 and
    2^31 - 1 for a line of the requester replaces the quantity of that line
    and stamps it with the time of the request; its id, owner, product and
    creation time stay, and every other line is left as it was. *)
Theorem page_updateQuantity_sets_quantity (c : context) (u cid : uuid) (q : Z)
    (d : db) (l : CartLine.row) :
  auth_uid c = Some u -> 0 < q < 2 ^ 31 ->
  In l (cart d) -> CartLine.id l = cid -> CartLine.user_id l = u ->
  cart_pk d -> cart_unique d -> cart_valid d ->
  let l' := {| CartLine.id := cid; CartLine.user_id := u;
               CartLine.product_id := CartLine.product_id l;
               CartLine.quantity := q;
               CartLine.created_at := CartLine.created_at l;
               CartLine.updated_at := now c |} in
  Cart.updateQuantity c cid q d
  = (Completed,
     with_cart (map (fun r => if N.eqb (CartLine.id r) cid then l' else r) (cart d)) d)
  /\ In l' (cart (snd (Cart.updateQuantity c cid q d)))
  /\ (forall r, In r (cart d) -> CartLine.id r <> cid ->
                In r (cart (snd (Cart.updateQuantity c cid q d)))).
Proof.
  intros Hc Hq Hin Hid Hown Hpk Huniq Hvalid l'.
  set (hit := update_hits cart_table c (fun r => N.eqb (CartLine.id r) cid) d).
  set (new := fun r => before_update cart_table (now c) (Cart.set_quantity q r)).
  assert (Honly : forall r, In r (cart d) -> CartLine.id r = cid -> r = l).
  { intros r Hr Hrid.
    apply (NoDup_map_injective CartLine.id (cart d)); try assumption. congruence. }
  assert (Hhit : forall r, In r (cart d) -> hit r = N.eqb (CartLine.id r) cid).
  { intros r Hr. unfold hit. rewrite (page_update_hits c u cid d r Hc).
    destruct (N.eqb (CartLine.id r) cid) eqn:Hrid; [|apply andb_false_r].
    apply N.eqb_eq in Hrid. rewrite (Honly r Hr Hrid), Hown, N.eqb_refl. reflexivity. }
  assert (Hnew : new l = l').
  { unfold new, l'. simpl. unfold update_cart_updated_at, Cart.set_quantity. simpl.
    now rewrite Hid, Hown. }
  assert (Htbl : map (fun r => if hit r then new r else r) (cart d)
                 = map (fun r => if N.eqb (CartLine.id r) cid then l' else r) (cart d)).
  { apply map_ext_in. intros r Hr. rewrite (Hhit r Hr).
    destruct (N.eqb (CartLine.id r) cid) eqn:Hrid; [|reflexivity].
    apply N.eqb_eq in Hrid. now rewrite (Honly r Hr Hrid). }
  assert (Hchanged : forall r, In r (map new (filter hit (cart d))) -> r = l').
  { intros r Hr. apply in_map_iff in Hr. destruct Hr as (x & <- & Hx).
    apply filter_In in Hx. destruct Hx as (Hx & Hhx).
    rewrite (Hhit x Hx) in Hhx. apply N.eqb_eq in Hhx.
    now rewrite (Honly x Hx Hhx). }
  assert (Hresult : sql_update cart_table c (fun r => N.eqb (CartLine.id r) cid)
                      (Cart.set_quantity q) d
                    = Ok (List.length (map new (filter hit (cart d))),
                          with_cart
                            (map (fun r => if N.eqb (CartLine.id r) cid then l' else r)
                                 (cart d)) d)).
  { assert (Hi : forallb (types_ok cart_table) (map new (filter hit (cart d))) = true ->
                 forallb (fun r => allows (for_update (cart_policy (auth_uid c) d)) r
                                   && visible cart_table (auth_uid c) d r)
                         (map new (filter hit (cart d))) = true ->
                 constrain_all cart_table
                   (with_cart (map (fun r => if hit r then new r else r) (cart d)) d)
                   (map new (filter hit (cart d))) = Ok tt ->
                 sql_update cart_table c (fun r => N.eqb (CartLine.id r) cid)
                   (Cart.set_quantity q) d
                 = Ok (List.length (map new (filter hit (cart d))),
                       with_cart (map (fun r => if hit r then new r else r) (cart d)) d))
      by exact (sql_update_intro cart_table c (fun r => N.eqb (CartLine.id r) cid)
                  (Cart.set_quantity q) d).
    rewrite Htbl in Hi. apply Hi.
    - apply forallb_forall. intros r Hr. rewrite (Hchanged r Hr).
      simpl. unfold integer_ok. apply andb_true_iff.
      split; [apply Z.leb_le | apply Z.ltb_lt]; lia.
    - apply forallb_forall. intros r Hr. rewrite (Hchanged r Hr).
      unfold visible. simpl. rewrite Hc. simpl. now rewrite N.eqb_refl.
    - apply constrain_all_intro.
      intros r Hr. rewrite (Hchanged r Hr). unfold constrain.
      assert (Hck : checks_ok cart_table l' = true) by (simpl; apply Z.ltb_lt; lia).
      assert (Hun : unique_ok cart_table
                      (map (fun r => if N.eqb (CartLine.id r) cid then l' else r)
                           (cart d)) l' = true).
      { unfold unique_ok. simpl. rewrite andb_true_r.
        apply andb_true_iff. split; apply Nat.leb_le.
        - rewrite filter_map_length.
          + apply (NoDup_key_once CartLine.id (cart d) cid Hpk).
          + intros x. destruct (N.eqb (CartLine.id x) cid) eqn:Hx; [|reflexivity].
            simpl. apply N.eqb_eq in Hx. now rewrite Hx.
        - rewrite <- Htbl.
          change (filter (same_user_product l'))
            with (filter (is_line_of u (CartLine.product_id l))).
          rewrite filter_map_length.
          + apply (Huniq u (CartLine.product_id l)).
          + intros x. destruct (hit x); reflexivity. }
      destruct (Hvalid l Hin) as (_ & Hue & Hpe).
      rewrite Hck. cbn [guard bind].
      change (rows cart_table (with_cart ?t d)) with t. rewrite Hun. cbn [guard bind].
      simpl. unfold user_exists, product_exists in *. simpl.
      rewrite Hown in Hue. now rewrite Hue, Hpe. }
  assert (Hcall : Cart.updateQuantity c cid q d
                  = (Completed,
                     with_cart
                       (map (fun r => if N.eqb (CartLine.id r) cid then l' else r)
                            (cart d)) d)).
  { unfold Cart.updateQuantity.
    replace (q <? 0) with false by (symmetry; apply Z.ltb_ge; lia).
    replace (q =? 0) with false by (symmetry; apply Z.eqb_neq; lia).
    now rewrite Hresult. }
  split; [exact Hcall|]. rewrite Hcall. simpl. split.
  - apply in_map_iff. exists l. split; [|exact Hin]. now rewrite Hid, N.eqb_refl.
  - intros r Hr Hne. apply in_map_iff. exists r. split; [|exact Hr].
    apply N.eqb_neq in Hne. now rewrite Hne.
Qed.

Lemma page_updateQuantity_sets_quantity_witness :
  map CartLine.quantity (cart Scenario.one_banana) = [1]
  /\ map CartLine.quantity
       (cart (snd (Cart.updateQuantity (Scenario.as_asha 4) 1%N 2 Scenario.one_banana)))
     = [2]
  /\ fst (Cart.updateQuantity (Scenario.as_asha 4) 1%N 2 Scenario.one_banana)
     = Completed.
Proof.
  destruct (page_updateQuantity_sets_quantity (Scenario.as_asha 4) Scenario.asha 1%N 2
              Scenario.one_banana
              (proposed_line (Scenario.as_asha 3) (Scenario.asha_banana 1)
                 Scenario.signed_up)) as (Hcall & _ & _).
  - reflexivity.
  - lia.
  - vm_compute. left. reflexivity.
  - reflexivity.
  - reflexivity.
  - vm_compute. repeat constructor. simpl. tauto.
  - intros u p. vm_compute cart. simpl.
    destruct (is_line_of u p _); simpl; lia.
  - intros l Hl. vm_compute in Hl. destruct Hl as [<-|[]].
    unfold valid_line_in. simpl. repeat split; try lia; vm_compute; reflexivity.
  - split; [vm_compute; reflexivity|]. rewrite Hcall. split; vm_compute; reflexivity.
Defined.

Lemma update_without_hits_in {row : Type} (T : table row) (c : context)
    (wh : row -> bool) (assign : row -> row) (d : db) :
  with_rows T (rows T d) d = d ->
  (forall r, In r (rows T d) -> update_hits T c wh d r = false) ->
  sql_update T c wh assign d = Ok (0%nat, d).
Proof.
  intros Hsame Hnone. unfold sql_update.
  rewrite filter_none by exact Hnone. simpl.
  rewrite map_id_on by (intros r Hr; now rewrite (Hnone r Hr)).
  now rewrite Hsame.
Qed.

Lemma delete_without_hits_in {row : Type} (T : table row) (c : context)
    (wh : row -> bool) (d : db) :
  with_rows T (rows T d) d = d ->
  (forall r, In r (rows T d) -> delete_hits T c wh d r = false) ->
  sql_delete T c wh d = (0%nat, d).
Proof.
  intros Hsame Hnone. unfold sql_delete.
  rewrite filter_none by exact Hnone.
  rewrite filter_all by (intros r Hr; now rewrite (Hnone r Hr)).
  now rewrite Hsame.
Qed.

(** X5.  On the cart page, [updateQuantity] with a quantity of zero or more
    and [removeFromCart], given an id that is no line of the requester (no
    line at all, or a line of someone else), end as a success and change
    nothing. *)
Theorem page_requests_for_foreign_lines_do_nothing (c : context) (cid : uuid) (q : Z)
    (d : db) :
  (forall l, In l (cart d) -> CartLine.id l = cid ->
             uid_is (auth_uid c) (CartLine.user_id l) = false) ->
  0 <= q ->
  Cart.updateQuantity c cid q d = (Completed, d)
  /\ Cart.removeFromCart c cid d = (Completed, d).
Proof.
  intros Hforeign Hq.
  assert (Hdel : sql_delete cart_table c (fun r => N.eqb (CartLine.id r) cid) d
                 = (0%nat, d)).
  { apply delete_without_hits_in; [apply with_cart_same|].
    intros r Hr. unfold delete_hits, visible. simpl.
    destruct (N.eqb (CartLine.id r) cid) eqn:Hid; [|apply andb_false_r].
    apply N.eqb_eq in Hid. now rewrite (Hforeign r Hr Hid). }
  split.
  - unfold Cart.updateQuantity.
    replace (q <? 0) with false by (symmetry; apply Z.ltb_ge; lia).
    destruct (q =? 0).
    + now rewrite Hdel.
    + rewrite update_without_hits_in; [reflexivity | apply with_cart_same |].
      intros r Hr. unfold update_hits, visible. simpl.
      destruct (N.eqb (CartLine.id r) cid) eqn:Hid; [|apply andb_false_r].
      apply N.eqb_eq in Hid. now rewrite (Hforeign r Hr Hid).
  - unfold Cart.removeFromCart. now rewrite Hdel.
Qed.

Lemma page_requests_for_foreign_lines_do_nothing_witness :
  Cart.updateQuantity (Scenario.as_ravi 9) 1%N 5 Scenario.one_banana
  = (Completed, Scenario.one_banana)
  /\ Cart.removeFromCart (Scenario.as_ravi 9) 1%N Scenario.one_banana
     = (Completed, Scenario.one_banana)
  /\ map CartLine.id (cart Scenario.one_banana) = [1%N].
Proof.
  destruct (page_requests_for_foreign_lines_do_nothing (Scenario.as_ravi 9) 1%N 5
              Scenario.one_banana) as (Hupd & Hrem).
  - intros l Hl _. vm_compute in Hl. destruct Hl as [<-|[]]. reflexivity.
  - lia.
  - split; [exact Hupd|]. split; [exact Hrem|]. vm_compute. reflexivity.
Defined.

Lemma filter_map_commute {A B : Type} (P : B -> bool) (f : A -> B) (l : list A) :
  filter P (map f l) = map f (filter (fun x => P (f x)) l).
Proof.
  induction l as [|x l IH]; simpl; [reflexivity|].
  destruct (P (f x)); simpl; now rewrite IH.
Qed.

Lemma filter_filter_and {A : Type} (P Q : A -> bool) (l : list A) :
  filter P (filter Q l) = filter (fun x => Q x && P x) l.
Proof.
  induction l as [|x l IH]; simpl; [reflexivity|].
  destruct (Q x); simpl; [destruct (P x)|]; now rewrite IH.
Qed.

(** X6.  After [removeFromCart], the cart page fetches the items it showed
    before without the removed one: the other items are the same, with the
    same products. *)
Theorem removeFromCart_then_fetchCartItems (c : context) (cid : uuid) (d : db) :
  Cart.fetchCartItems c (snd (Cart.removeFromCart c cid d))
  = filter (fun i => negb (N.eqb (Cart.item_id i) cid)) (Cart.fetchCartItems c d).
Proof.
  unfold Cart.fetchCartItems, Cart.removeFromCart.
  destruct (auth_uid c) as [u|] eqn:Hc; [|reflexivity].
  rewrite filter_map_commute. cbn [snd Cart.item_id].
  unfold sql_select, sql_delete. cbn [snd rows cart_table with_rows cart with_cart].
  rewrite !filter_filter_and.
  match goal with
  | |- map _ (filter ?A ?l) = map _ (filter ?B ?l) =>
      rewrite (filter_ext A B); [apply map_ext; intros l0; reflexivity|]
  end.
  intros r. unfold delete_hits, visible. simpl. rewrite Hc. simpl.
  destruct (N.eqb u (CartLine.user_id r)), (N.eqb (CartLine.id r) cid),
    (N.eqb (CartLine.user_id r) u); reflexivity.
Qed.

Lemma calculateTotal_some_or_none (items : list Cart.CartItemWithProduct) (a : Double.t) :
  fold_left Cart.add_item items (Some a) = None
  <-> exists i, In i items /\ Cart.product i = None.
Proof.
  revert a. induction items as [|i items IH]; intros a.
  - simpl. split; [discriminate | intros (i & [] & _)].
  - cbn [fold_left]. unfold Cart.add_item at 2.
    destruct (Cart.product i) as [p|] eqn:Hp.
    + rewrite IH. split.
      * intros (j & Hj & Hn). exists j. split; [now right | exact Hn].
      * intros (j & [<-|Hj] & Hn); [congruence | eauto].
    + rewrite calculateTotal_none. split; [|reflexivity].
      intros _. exists i. split; [now left | exact Hp].
Qed.

Lemma embed_product_none (c : context) (d : db) (pid : uuid) :
  Cart.embed_product c d pid = None
  <-> forall p, In p (products d) -> Product.id p = pid ->
                Product.is_active p <> Some true.
Proof.
  unfold Cart.embed_product.
  destruct (find _ _) as [x|] eqn:Hf; simpl.
  - split; [discriminate|]. intros H. exfalso.
    apply find_some in Hf. destruct Hf as (Hin & Hid).
    apply select_products_spec in Hin. destruct Hin as (Hin & Ha & _).
    apply N.eqb_eq in Hid. exact (H x Hin Hid Ha).
  - split; [|reflexivity]. intros _ p Hp Hid Ha.
    assert (Hsel : In p (sql_select products_table c (fun _ => true) d))
      by (apply select_products_spec; auto).
    apply (find_none _ _ Hf) in Hsel. rewrite Hid, N.eqb_refl in Hsel. discriminate.
Qed.

(** X7.  The cart page can compute its total exactly when every line of
    the requester is for an active product: as soon as one line is for a
    product that is not active (or is gone), the item comes without a
    product and [calculateTotal] throws. *)
Theorem calculateTotal_needs_active_products (c : context) (u : uuid) (d : db) :
  auth_uid c = Some u ->
  (Cart.calculateTotal (Cart.fetchCartItems c d) = None
   <-> exists l, In l (cart d) /\ CartLine.user_id l = u
                 /\ forall p, In p (products d) ->
                              Product.id p = CartLine.product_id l ->
                              Product.is_active p <> Some true).
Proof.
  intros Hc. unfold Cart.calculateTotal. rewrite calculateTotal_some_or_none.
  unfold Cart.fetchCartItems. rewrite Hc. split.
  - intros (i & Hi & Hn). apply in_map_iff in Hi. destruct Hi as (l & <- & Hl).
    apply filter_In in Hl. destruct Hl as (Hl & Hw).
    apply andb_true_iff in Hw. destruct Hw as (_ & Hu). apply N.eqb_eq in Hu.
    exists l. split; [exact Hl|]. split; [exact Hu|].
    simpl in Hn. exact (proj1 (embed_product_none c d _) Hn).
  - intros (l & Hl & Hu & Hp).
    exists {| Cart.item_id := CartLine.id l; Cart.quantity := CartLine.quantity l;
              Cart.product := Cart.embed_product c d (CartLine.product_id l) |}.
    split.
    + apply in_map_iff. exists l. split; [reflexivity|].
      apply filter_In. split; [exact Hl|].
      unfold visible. simpl. rewrite Hc. simpl. subst u. now rewrite N.eqb_refl.
    + simpl. exact (proj2 (embed_product_none c d _) Hp).
Qed.

Lemma calculateTotal_needs_active_products_witness :
  Cart.calculateTotal (Cart.fetchCartItems (Scenario.as_asha 9) Scenario.banana_and_milk)
  <> None
  /\ Cart.calculateTotal
       (Cart.fetchCartItems (Scenario.as_asha 9)
          (with_products [] Scenario.banana_and_milk)) = None.
Proof.
  split.
  - vm_compute. discriminate.
  - apply (calculateTotal_needs_active_products (Scenario.as_asha 9) Scenario.asha
             (with_products [] Scenario.banana_and_milk) eq_refl).
    eexists. split; [vm_compute; left; reflexivity|].
    split; [reflexivity|]. intros p [].
Defined.

(** The total is a sum of doubles: for one item at 0.10 and one at 0.20 it
    is not the double nearest to 0.30, yet the summary prints 0.30. *)
Example calculateTotal_is_a_sum_of_doubles :
  let item := fun i p => {| Cart.item_id := i; Cart.quantity := 1;
                            Cart.product :=
                              Some {| Cart.id := i; Cart.name := "";
                                      Cart.price := Double.of_decimal p;
                                      Cart.image_url := None; Cart.unit := None;
                                      Cart.stock_quantity := None |} |} in
  Cart.calculateTotal [item 1%N 10; item 2%N 20]
  = Some (SpecFloat.S754_finite false 5404319552844596 (-54))
  /\ Double.of_decimal 30 = SpecFloat.S754_finite false 5404319552844595 (-54)
  /\ Cart.summary [item 1%N 10; item 2%N 20]
     = Some (Double.Fixed false 30, Double.Fixed false 2030).
Proof.
  repeat split; vm_compute; reflexivity.
Qed.

Lemma item_count_from (items : list Cart.CartItemWithProduct) (a : Z) :
  (forall i, In i items -> 1 <= Cart.quantity i) ->
  a + Z.of_nat (List.length items)
  <= fold_left (fun count item => count + Cart.quantity item) items a.
Proof.
  revert a. induction items as [|i items IH]; intros a H.
  - simpl. lia.
  - cbn [fold_left List.length].
    assert (Hi := H i (or_introl eq_refl)).
    assert (IH' := IH (a + Cart.quantity i) (fun j Hj => H j (or_intror Hj))).
    lia.
Qed.

(** X8.  The header of the cart page counts units, not lines: in a
    well-formed cart the count is at least the number of items shown, and it
    is zero exactly when the requester has no item. *)
Theorem calculateItemCount_counts_units (c : context) (d : db) :
  cart_valid d ->
  Z.of_nat (List.length (Cart.fetchCartItems c d))
  <= Cart.calculateItemCount (Cart.fetchCartItems c d)
  /\ (Cart.calculateItemCount (Cart.fetchCartItems c d) = 0
      <-> Cart.fetchCartItems c d = []).
Proof.
  intros Hv.
  assert (Hpos : forall i, In i (Cart.fetchCartItems c d) -> 1 <= Cart.quantity i).
  { unfold Cart.fetchCartItems. destruct (auth_uid c); [|intros i []].
    intros i Hi. apply in_map_iff in Hi. destruct Hi as (l & <- & Hl).
    apply filter_In in Hl. destruct Hl as (Hl & _).
    destruct (Hv l Hl) as (Hq & _). simpl. lia. }
  pose proof (item_count_from (Cart.fetchCartItems c d) 0 Hpos) as Hle.
  unfold Cart.calculateItemCount. split; [lia|]. split.
  - intros H0. destruct (Cart.fetchCartItems c d); [reflexivity|].
    simpl List.length in Hle. lia.
  - intros ->. reflexivity.
Qed.

Lemma calculateItemCount_counts_units_witness :
  Cart.calculateItemCount (Cart.fetchCartItems (Scenario.as_asha 9)
                             Scenario.banana_and_milk) = 3
  /\ Z.of_nat (List.length (Cart.fetchCartItems (Scenario.as_asha 9)
                              Scenario.banana_and_milk))
     <= Cart.calculateItemCount (Cart.fetchCartItems (Scenario.as_asha 9)
                                   Scenario.banana_and_milk).
Proof.
  split; [vm_compute; reflexivity|].
  apply (calculateItemCount_counts_units (Scenario.as_asha 9) Scenario.banana_and_milk).
  intros l Hl. vm_compute in Hl. destruct Hl as [<-|[<-|[]]];
    unfold valid_line_in; simpl; repeat split; try lia; vm_compute; reflexivity.
Defined.

(** ** The home page and the product card *)

Lemma addToCart_completed (c : context) (pid : uuid) (q : Z) (d d' : db) :
  ProductCard.addToCart c pid q d = (Completed, d') ->
  exists u,
    auth_uid c = Some u
    /\ let line := proposed_line c {| v_user_id := u; v_product_id := pid;
                                      v_quantity := q + 1 |} d in
       d' = with_cart (cart d ++ [line]) d
       /\ lines_of u pid d = []
       /\ 0 < q + 1 < 2 ^ 31.
Proof.
  unfold ProductCard.addToCart, ProductCard.getSession.
  destruct (auth_uid c) as [u|] eqn:Hc; [|discriminate].
  destruct (cart_upsert c None _ d) as [d1|e] eqn:H; simpl; [|discriminate].
  intros Heq. injection Heq as <-. exists u. split; [reflexivity|].
  pose proof (cart_upsert_types _ _ _ _ _ H) as Hty.
  unfold cart_upsert in H. simpl target_of in H.
  rewrite primary_key_never_conflicts in H. ok_inv H. injection H as <-.
  cbn zeta. split; [reflexivity|].
  apply constrain_ok_inv in Hstep. destruct Hstep as (_ & Hun & _).
  apply unique_ok_pair in Hun. simpl in Hun.
  rewrite filter_app_last in Hun
    by (unfold is_line_of; simpl; now rewrite !N.eqb_refl).
  apply length_app_one_le in Hun. split; [exact Hun|].
  simpl in Hguard1, Hty. unfold integer_ok in Hty.
  apply andb_true_iff in Hty. destruct Hty as (_ & Hhi).
  apply Z.ltb_lt in Hguard1, Hhi. lia.
Qed.

Lemma find_app_last {A : Type} (f : A -> bool) (l : list A) (x : A) :
  find f (l ++ [x])
  = match find f l with
    | Some y => Some y
    | None => if f x then Some x else None
    end.
Proof.
  induction l as [|y l IH]; simpl; [reflexivity|].
  destruct (f y); [reflexivity | exact IH].
Qed.

(** X9.  When ADD on a product card succeeds, the home page reads back the
    quantity the card asked for: after [addToCart] with [cartQuantity],
    [getCartQuantity] over the re-fetched cart items is [cartQuantity + 1]
    for that product, and what it is for every other product is what it
    was. *)
Theorem addToCart_then_getCartQuantity (c : context) (pid : uuid) (q : Z) (d d' : db) :
  ProductCard.addToCart c pid q d = (Completed, d') ->
  Home.getCartQuantity (Home.fetchCartItems c d') pid = q + 1
  /\ (forall other, other <> pid ->
                    Home.getCartQuantity (Home.fetchCartItems c d') other
                    = Home.getCartQuantity (Home.fetchCartItems c d) other).
Proof.
  intros H. apply addToCart_completed in H.
  destruct H as (u & Hc & Hd' & Hnone & Hq). cbn zeta in Hd'.
  assert (Hfetch : Home.fetchCartItems c d'
                   = Home.fetchCartItems c d
                     ++ [{| Home.product_id := pid; Home.quantity := q + 1 |}]).
  { unfold Home.fetchCartItems. rewrite Hc, Hd'. unfold sql_select. simpl.
    rewrite filter_app, map_app. simpl.
    unfold visible. simpl. rewrite Hc. simpl. now rewrite !N.eqb_refl. }
  split.
  - unfold Home.getCartQuantity. rewrite Hfetch, find_app_last.
    replace (find _ (Home.fetchCartItems c d)) with (@None Home.CartItem).
    + cbn [Home.product_id]. rewrite N.eqb_refl. cbn [Home.quantity].
      replace (q + 1 =? 0) with false by (symmetry; apply Z.eqb_neq; lia).
      reflexivity.
    + symmetry. destruct (find _ (Home.fetchCartItems c d)) as [i|] eqn:Hf;
        [|reflexivity].
      exfalso. apply find_some in Hf. destruct Hf as (Hi & Hp).
      unfold Home.fetchCartItems in Hi. rewrite Hc in Hi.
      apply in_map_iff in Hi. destruct Hi as (l & <- & Hl).
      apply filter_In in Hl. destruct Hl as (Hl & Hw).
      apply andb_true_iff in Hw. destruct Hw as (_ & Hu).
      simpl in Hp. apply N.eqb_eq in Hp, Hu.
      assert (Hin : In l (lines_of u pid d)).
      { apply filter_In. split; [exact Hl|]. unfold is_line_of.
        now rewrite Hu, Hp, !N.eqb_refl. }
      rewrite Hnone in Hin. contradiction.
  - intros other Hne. unfold Home.getCartQuantity. rewrite Hfetch, find_app_last.
    destruct (find _ (Home.fetchCartItems c d)); [reflexivity|].
    cbn [Home.product_id].
    replace (N.eqb pid other) with false; [reflexivity|].
    symmetry. apply N.eqb_neq. congruence.
Qed.

Lemma addToCart_then_getCartQuantity_witness :
  Home.getCartQuantity (Home.fetchCartItems (Scenario.as_asha 3) Scenario.signed_up)
    Seed.banana = 0
  /\ Home.getCartQuantity (Home.fetchCartItems (Scenario.as_asha 3) Scenario.one_banana)
       Seed.banana = 1.
Proof.
  split; [vm_compute; reflexivity|].
  apply (addToCart_then_getCartQuantity (Scenario.as_asha 3) Seed.banana 0
           Scenario.signed_up Scenario.one_banana).
  vm_compute. reflexivity.
Defined.

(** X10.  The buttons of a product card respect the stock: for a product
    with a stock of [s >= 0] and a cart quantity of zero or more, a button
    that is shown and enabled never asks for a negative quantity, [+] and
    ADD never ask for more than [s], and [-] asks for less than the cart
    holds.  The [+] of a cart item is enabled only below the stock. *)
Theorem card_buttons_respect_stock :
  (forall loading product cartQuantity s b,
      Product.stock_quantity product = Some s -> 0 <= s -> 0 <= cartQuantity ->
      ProductCard.rendered cartQuantity b = true ->
      ProductCard.disabled loading product cartQuantity b = false ->
      0 <= ProductCard.requested cartQuantity b
      /\ (b <> ProductCard.Minus -> ProductCard.requested cartQuantity b <= s)
      /\ (b = ProductCard.Minus -> ProductCard.requested cartQuantity b < cartQuantity))
  /\ (forall updating item p s,
         Cart.product item = Some p -> Cart.stock_quantity p = Some s ->
         Cart.plus_disabled updating item = Some false ->
         Cart.quantity item + 1 <= s).
Proof.
  split.
  - intros loading product cartQuantity s b Hs Hs0 Hq Hr Hd.
    destruct b; simpl in *.
    + apply Z.ltb_lt in Hr. repeat split; try lia. congruence.
    + apply Z.ltb_lt in Hr. apply orb_false_iff in Hd. destruct Hd as (_ & Hd).
      unfold ProductCard.at_stock_ceiling in Hd. rewrite Hs in Hd.
      apply Z.leb_gt in Hd. repeat split; try lia. discriminate.
    + apply negb_true_iff, Z.ltb_ge in Hr. apply orb_false_iff in Hd.
      destruct Hd as (_ & Hd). unfold ProductCard.out_of_stock in Hd.
      rewrite Hs in Hd. apply Z.eqb_neq in Hd. repeat split; try lia. discriminate.
  - intros updating item p s Hp Hs Hd. unfold Cart.plus_disabled in Hd.
    rewrite Hp, Hs in Hd. injection Hd as Hd.
    apply orb_false_iff in Hd. destruct Hd as (_ & Hd). apply Z.leb_gt in Hd. lia.
Qed.

Lemma card_buttons_respect_stock_witness :
  ProductCard.rendered 29 ProductCard.Plus = true
  /\ ProductCard.disabled false
       (Seed.product Seed.milk "Milk" "दूध" "Fresh milk" 5500 "" Seed.dairy
          "Amul" "liter" 30) 29 ProductCard.Plus = false
  /\ ProductCard.requested 29 ProductCard.Plus <= 30
  /\ ProductCard.disabled false
       (Seed.product Seed.milk "Milk" "दूध" "Fresh milk" 5500 "" Seed.dairy
          "Amul" "liter" 30) 30 ProductCard.Plus = true.
Proof.
  destruct card_buttons_respect_stock as (Hcard & _).
  destruct (Hcard false
              (Seed.product Seed.milk "Milk" "दूध" "Fresh milk" 5500 "" Seed.dairy
                 "Amul" "liter" 30) 29 30 ProductCard.Plus eq_refl)
    as (_ & Hle & _); try reflexivity; try lia.
  split; [reflexivity|]. split; [reflexivity|].
  split; [apply Hle; discriminate | reflexivity].
Defined.

(** X11.  A product card shows the discount badge exactly when
    [discount_percentage] is positive.  When it is 0, the default of the
    column, the card prints the number 0 in place of the badge and again in
    place of the original price; when it is NULL or negative it prints
    nothing there. *)
Theorem discount_badge_rendering (product : Product.row) :
  (forall n, ProductCard.render_badge product = [ProductCard.Badge n]
             <-> Product.discount_percentage product = Some n /\ 0 < n)
  /\ (Product.discount_percentage product = Some 0 ->
      ProductCard.render_badge product = [ProductCard.Number 0]
      /\ ProductCard.render_original_price product = [ProductCard.Number 0])
  /\ ((Product.discount_percentage product = None
       \/ exists n, Product.discount_percentage product = Some n /\ n < 0) ->
      ProductCard.render_badge product = []
      /\ ProductCard.render_original_price product = []).
Proof.
  unfold ProductCard.render_badge, ProductCard.render_original_price,
    ProductCard.hasDiscount, ProductCard.render_and.
  split; [|split].
  - intros n. destruct (Product.discount_percentage product) as [m|]; simpl.
    + destruct (m =? 0) eqn:H0; simpl.
      * rewrite H0. simpl. split; [discriminate|].
        intros (Hm & Hn). injection Hm as ->. apply Z.eqb_eq in H0. lia.
      * destruct (0 <? m) eqn:Hpos; simpl.
        -- apply Z.ltb_lt in Hpos. split.
           ++ intros H. injection H as ->. auto.
           ++ intros (Hm & _). now injection Hm as ->.
        -- apply Z.ltb_ge in Hpos. split; [discriminate|].
           intros (Hm & Hn). injection Hm as ->. lia.
    + split; [discriminate | intros (Hm & _); discriminate].
  - intros ->. simpl. auto.
  - intros [->|(n & -> & Hn)]; simpl; [auto|].
    replace (n =? 0) with false by (symmetry; apply Z.eqb_neq; lia).
    replace (0 <? n) with false by (symmetry; apply Z.ltb_ge; lia).
    simpl. auto.
Qed.

Lemma discount_badge_rendering_witness :
  Product.discount_percentage
    (Seed.product Seed.banana "Banana" "केला" "Fresh bananas" 4000 ""
       Seed.fruits "Fresh" "kg" 100) = Some 0
  /\ ProductCard.render_badge
       (Seed.product Seed.banana "Banana" "केला" "Fresh bananas" 4000 ""
          Seed.fruits "Fresh" "kg" 100) = [ProductCard.Number 0]
  /\ ProductCard.render_original_price
       (Seed.product Seed.banana "Banana" "केला" "Fresh bananas" 4000 ""
          Seed.fruits "Fresh" "kg" 100) = [ProductCard.Number 0].
Proof.
  split; [reflexivity|].
  exact (proj1 (proj2 (discount_badge_rendering
                         (Seed.product Seed.banana "Banana" "केला" "Fresh bananas" 4000 ""
                            Seed.fruits "Fresh" "kg" 100)))
               eq_refl).
Defined.

(** X12.  A card never shows a blank name for a product that has one: the
    Hindi name is used only when the language is "hi" and the Hindi name is
    not empty.  The home page passes no language to its product cards and
    category tiles, so they always show the English name. *)
Theorem displayName_falls_back_to_name (language : string) :
  (forall product,
      Product.name product <> ""%string ->
      ProductCard.displayName language product <> ""%string)
  /\ (forall product hi,
         Product.name_hi product = Some hi -> hi <> ""%string ->
         ProductCard.displayName "hi" product = hi)
  /\ (forall product, Home.card_name product = Product.name product)
  /\ (forall category,
         Category.name category <> ""%string ->
         CategoryGrid.displayName language category <> ""%string)
  /\ (forall category,
         CategoryGrid.displayName CategoryGrid.default_language category
         = Category.name category).
Proof.
  repeat split.
  - intros product Hname. unfold ProductCard.displayName.
    destruct (Product.name_hi product) as [hi|]; [|exact Hname].
    destruct (String.eqb language "hi"); simpl; [|exact Hname].
    destruct (String.eqb hi "") eqn:Hhi; simpl; [exact Hname|].
    now apply String.eqb_neq in Hhi.
  - intros product hi Hhi Hne. unfold ProductCard.displayName. rewrite Hhi.
    apply String.eqb_neq in Hne. now rewrite Hne.
  - intros product. unfold Home.card_name, ProductCard.displayName.
    now destruct (Product.name_hi product).
  - intros category Hname. unfold CategoryGrid.displayName.
    destruct (Category.name_hi category) as [hi|]; [|exact Hname].
    destruct (String.eqb language "hi"); simpl; [|exact Hname].
    destruct (String.eqb hi "") eqn:Hhi; simpl; [exact Hname|].
    now apply String.eqb_neq in Hhi.
  - intros category. unfold CategoryGrid.displayName.
    now destruct (Category.name_hi category).
Qed.

Lemma displayName_falls_back_to_name_witness :
  Forall (fun p => ProductCard.displayName "hi" p <> ""%string
                   /\ Home.card_name p = Product.name p)
         (products Seed.migrated).
Proof.
  destruct (displayName_falls_back_to_name "hi") as (Hname & _ & Hhome & _).
  repeat constructor; try apply Hhome; apply Hname; discriminate.
Defined.

(** ** Ordered reads *)







Lemma insert_desc_perm (o : Order.row) (l : list Order.row) :
  Permutation (Orders.insert_desc o l) (o :: l).
Proof.
  induction l as [|x l IH]; simpl; [reflexivity|].
  destruct (Order.created_at x <=? Order.created_at o); [reflexivity|].
  rewrite IH. apply perm_swap.
Qed.

Lemma insert_desc_sorted (o : Order.row) (l : list Order.row) :
  Sorted (fun a b => Order.created_at b <= Order.created_at a) l ->
  Sorted (fun a b => Order.created_at b <= Order.created_at a) (Orders.insert_desc o l).
Proof.
  induction l as [|x l IH]; simpl; intros Hs.
  - repeat constructor.
  - destruct (Order.created_at x <=? Order.created_at o) eqn:Hle.
    + apply Z.leb_le in Hle. constructor; [exact Hs|]. now constructor.
    + apply Z.leb_gt in Hle. inversion Hs as [|? ? Hs' Hhd]; subst.
      constructor; [now apply IH|].
      destruct l as [|y l]; simpl.
      * constructor. lia.
      * destruct (Order.created_at y <=? Order.created_at o).
        -- constructor. lia.
        -- inversion Hhd; subst. now constructor.
Qed.

Lemma order_desc_perm (l : list Order.row) : Permutation (Orders.order_desc l) l.
Proof.
  unfold Orders.order_desc. induction l as [|x l IH]; simpl; [reflexivity|].
  rewrite insert_desc_perm. now apply perm_skip.
Qed.

Lemma order_desc_sorted (l : list Order.row) :
  Sorted (fun a b => Order.created_at b <= Order.created_at a) (Orders.order_desc l).
Proof.
  unfold Orders.order_desc. induction l as [|x l IH]; simpl; [constructor|].
  now apply insert_desc_sorted.
Qed.

Lemma Sorted_map {A B : Type} (R : B -> B -> Prop) (f : A -> B) (l : list A) :
  Sorted (fun a b => R (f a) (f b)) l -> Sorted R (map f l).
Proof.
  induction 1 as [|x l Hs IH Hhd]; simpl; constructor; [exact IH|].
  destruct Hhd; simpl; now constructor.
Qed.

(** The items of an order of the requester are all visible to the requester. *)
Lemma own_order_items_visible (c : context) (u : uuid) (d : db) (o : Order.row)
    (i : OrderItem.row) :
  auth_uid c = Some u -> In o (orders d) -> Order.user_id o = u ->
  OrderItem.order_id i = Order.id o ->
  visible order_items_table (auth_uid c) d i = true.
Proof.
  intros Hc Ho Hu Hi. unfold visible. simpl. rewrite Hc.
  unfold in_own_orders, own_order_ids. apply existsb_exists.
  exists (Order.id o). split; [|rewrite Hi; apply N.eqb_refl].
  apply in_map. apply filter_In. split; [exact Ho|].
  unfold visible. simpl. rewrite Hu. now rewrite N.eqb_refl.
Qed.

(** X14.  The orders page shows the orders of the requester, each once and
    no other, newest first, and with every order all of its items, each
    with the quantity and the unit price of its [order_items] row. *)
Theorem fetchOrders_shows_own_orders_newest_first (c : context) (u : uuid) (d : db) :
  auth_uid c = Some u ->
  Permutation (map Orders.id (Orders.fetchOrders c d))
    (map Order.id (filter (fun o => N.eqb u (Order.user_id o)) (orders d)))
  /\ Sorted newest_first (Orders.fetchOrders c d)
  /\ (forall o, In o (Orders.fetchOrders c d) ->
                map (fun iv => (Orders.quantity iv, Orders.unit_price iv))
                    (Orders.order_items o)
                = map (fun i => (OrderItem.quantity i, OrderItem.unit_price i))
                      (filter (fun i => N.eqb (OrderItem.order_id i) (Orders.id o))
                              (order_items d))).
Proof.
  intros Hc.
  assert (Hsel : sql_select orders_table c (fun o => N.eqb (Order.user_id o) u) d
                 = filter (fun o => N.eqb u (Order.user_id o)) (orders d)).
  { unfold sql_select, visible. simpl. rewrite Hc. simpl. apply filter_ext.
    intros o. rewrite (N.eqb_sym (Order.user_id o) u).
    now destruct (N.eqb u (Order.user_id o)). }
  unfold Orders.fetchOrders. rewrite Hc, Hsel. split; [|split].
  - rewrite map_map. simpl.
    change (map (fun x => Order.id x)) with (map Order.id).
    apply Permutation_map. apply order_desc_perm.
  - apply Sorted_map. unfold newest_first. simpl. apply order_desc_sorted.
  - intros o Ho. apply in_map_iff in Ho. destruct Ho as (r & <- & Hr).
    apply (Permutation_in _ (order_desc_perm _)) in Hr.
    apply filter_In in Hr. destruct Hr as (Hr & Hu). apply N.eqb_eq in Hu.
    simpl. unfold Orders.embed_items. rewrite map_map. simpl.
    unfold sql_select.
    rewrite (filter_ext_in
               (fun r0 => visible order_items_table (auth_uid c) d r0
                          && N.eqb (OrderItem.order_id r0) (Order.id r))
               (fun i => N.eqb (OrderItem.order_id i) (Order.id r))).
    + reflexivity.
    + intros i _. destruct (N.eqb (OrderItem.order_id i) (Order.id r)) eqn:Hi;
        [|apply andb_false_r].
      apply N.eqb_eq in Hi.
      rewrite (own_order_items_visible c u d r i Hc Hr (eq_sym Hu) Hi). reflexivity.
Qed.

Lemma fetchOrders_shows_own_orders_newest_first_witness :
  map Orders.id (Orders.fetchOrders (Scenario.as_asha 9) Scenario.ordered) = [1%N]
  /\ Sorted newest_first (Orders.fetchOrders (Scenario.as_asha 9) Scenario.ordered)
  /\ Orders.fetchOrders (Scenario.as_ravi 9) Scenario.ordered = [].
Proof.
  destruct (fetchOrders_shows_own_orders_newest_first (Scenario.as_asha 9)
              Scenario.asha Scenario.ordered eq_refl) as (_ & Hsorted & _).
  split; [vm_compute; reflexivity|]. split; [exact Hsorted|].
  vm_compute. reflexivity.
Defined.

(** ** Labels of the orders page *)



(** ** The account page after sign-up *)

(** X16.  After a sign-up through the form, the account page of the new
    user finds the provisioned profile: it shows the full name typed in the
    form ("User" when it was left empty), no phone number and the language
    badge "English" whatever language was chosen in the form; for any
    other requester [fetchProfile] does not return this profile. *)
Theorem account_page_after_signup (t : timestamptz) (f : AuthForm.form) (d d' : db) :
  AuthForm.handleSubmit AuthForm.signup t f d = (Completed, d') ->
  exists uid p,
    (forall c, auth_uid c = Some uid ->
               Account.fetchProfile c d' = Some p)
    /\ Account.shown_name (Some p)
       = (if String.eqb (AuthForm.fullName f) "" then "User"%string
          else AuthForm.fullName f)
    /\ Profile.phone p = None
    /\ Account.language_badge (Some p) = "English"%string
    /\ (forall c, auth_uid c <> Some uid -> Account.fetchProfile c d' <> Some p).
Proof.
  intros H. apply handleSubmit_signup_completed in H. destruct H as (_ & uid & H).
  apply auth_signUp_ok in H. cbn zeta in H. destruct H as (_ & _ & Hp).
  exists uid. eexists. split; [|split; [|split; [|split]]].
  - intros c Hc. unfold Account.fetchProfile. rewrite Hc.
    unfold profile_of in Hp.
    replace (sql_select profiles_table c (fun p => N.eqb (Profile.user_id p) uid) d')
      with (filter (fun p => N.eqb uid (Profile.user_id p)) (profiles d')).
    + rewrite Hp. reflexivity.
    + unfold sql_select, visible. simpl. rewrite Hc. simpl. apply filter_ext.
      intros p. rewrite (N.eqb_sym (Profile.user_id p) uid).
      now destruct (N.eqb uid (Profile.user_id p)).
  - reflexivity.
  - reflexivity.
  - reflexivity.
  - intros c Hc Hfetch. unfold Account.fetchProfile in Hfetch.
    destruct (auth_uid c) as [v|] eqn:Hv; [|discriminate].
    destruct (sql_select profiles_table c _ d') as [|q [|? ?]] eqn:Hs;
      try discriminate.
    injection Hfetch as ->.
    assert (Hin : In (new_profile t
                        {| AuthUser.id := uid;
                           AuthUser.raw_user_meta_data := AuthForm.signUp_data f |}
                        (with_auth_users
                           (auth_users d ++
                            [{| AuthUser.id := uid;
                                AuthUser.raw_user_meta_data := AuthForm.signUp_data f |}])
                           d))
                     (sql_select profiles_table c
                        (fun p => N.eqb (Profile.user_id p) v) d'))
      by (rewrite Hs; now left).
    apply filter_In in Hin. destruct Hin as (_ & Hw).
    apply andb_true_iff in Hw. destruct Hw as (_ & Hw).
    simpl in Hw. apply N.eqb_eq in Hw. apply Hc. now rewrite Hw.
Qed.

Lemma account_page_after_signup_witness :
  exists p,
    Account.fetchProfile (Scenario.as_asha 9) Scenario.signed_up = Some p
    /\ Account.shown_name (Some p) = "Asha"%string
    /\ Account.language_badge (Some p) = "English"%string
    /\ AuthForm.language (Scenario.form_of "Asha" "9800000001" "hi") = "hi"%string.
Proof.
  destruct (account_page_after_signup 1 (Scenario.form_of "Asha" "9800000001" "hi")
              Seed.migrated
              (snd (AuthForm.handleSubmit AuthForm.signup 1
                      (Scenario.form_of "Asha" "9800000001" "hi") Seed.migrated))
              eq_refl) as (uid & p & _ & _ & _ & Hbadge & _).
  eexists. split; [vm_compute; reflexivity|].
  split; [vm_compute; reflexivity|]. split; [vm_compute; reflexivity | reflexivity].
Defined.

(** X17.  Submitting the form never touches the catalogue, the carts or
    the orders.  Logging in, asking for a reset link, and signing up
    without the consent box ticked change nothing at all; a sign-up adds at
    most one identity and one profile and leaves the existing ones. *)
Theorem handleSubmit_frame (m : AuthForm.mode) (t : timestamptz) (f : AuthForm.form)
    (d : db) :
  let d' := snd (AuthForm.handleSubmit m t f d) in
  (categories d' = categories d /\ products d' = products d /\ cart d' = cart d
   /\ orders d' = orders d /\ order_items d' = order_items d)
  /\ (m <> AuthForm.signup \/ AuthForm.dataConsent f = false -> d' = d)
  /\ (exists users profs,
         auth_users d' = auth_users d ++ users
         /\ profiles d' = profiles d ++ profs
         /\ List.length users = List.length profs
         /\ (List.length users <= 1)%nat).
Proof.
  cbn zeta.
  assert (Hsame : (categories d = categories d /\ products d = products d
                   /\ cart d = cart d /\ orders d = orders d
                   /\ order_items d = order_items d)
                  /\ (m <> AuthForm.signup \/ AuthForm.dataConsent f = false -> d = d)
                  /\ (exists users profs,
                         auth_users d = auth_users d ++ users
                         /\ profiles d = profiles d ++ profs
                         /\ List.length users = List.length profs
                         /\ (List.length users <= 1)%nat)).
  { split; [repeat split|]. split; [reflexivity|].
    exists [], []. rewrite !app_nil_r. repeat split. simpl. lia. }
  destruct m; try exact Hsame.
  unfold AuthForm.handleSubmit.
  destruct (AuthForm.dataConsent f) eqn:Hcons; simpl; [|exact Hsame].
  destruct (auth_signUp t (AuthForm.signUp_data f) d) as [[uid d1]|e] eqn:H; simpl;
    [|exact Hsame].
  apply auth_signUp_ok in H. cbn zeta in H. destruct H as (_ & -> & _). simpl.
  split; [repeat split|]. split.
  - intros [Hm|Hc]; [now elim Hm | discriminate].
  - eexists [_], [_]. repeat split. simpl. lia.
Qed.

Lemma handleSubmit_frame_witness :
  snd (AuthForm.handleSubmit AuthForm.login 1
         (Scenario.form_of "Asha" "9800000001" "hi") Seed.migrated) = Seed.migrated
  /\ cart (snd (AuthForm.handleSubmit AuthForm.signup 1
                  (Scenario.form_of "Asha" "9800000001" "hi") Seed.migrated))
     = cart Seed.migrated
  /\ List.length (auth_users
                    (snd (AuthForm.handleSubmit AuthForm.signup 1
                            (Scenario.form_of "Asha" "9800000001" "hi")
                            Seed.migrated))) = 1%nat.
Proof.
  destruct (handleSubmit_frame AuthForm.login 1
              (Scenario.form_of "Asha" "9800000001" "hi") Seed.migrated)
    as (_ & Hsame & _).
  destruct (handleSubmit_frame AuthForm.signup 1
              (Scenario.form_of "Asha" "9800000001" "hi") Seed.migrated)
    as ((_ & _ & Hcart & _) & _ & _).
  split; [apply Hsame; left; discriminate|].
  split; [exact Hcart | vm_compute; reflexivity].
Defined.

(** ** Time stamps and own rows *)

(** X18.  An update by a client neither adds nor removes rows of [cart] or
    [profiles], and every row it changes carries the time of the request in
    [updated_at], whatever value the request assigns to the column. *)
Theorem client_updates_are_stamped (c : context) (d d' : db) (n : nat) :
  (forall wh assign,
      sql_update cart_table c wh assign d = Ok (n, d') ->
      List.length (cart d') = List.length (cart d)
      /\ forall r, In r (cart d') ->
                   In r (cart d) \/ CartLine.updated_at r = now c)
  /\ (forall wh assign,
         sql_update profiles_table c wh assign d = Ok (n, d') ->
         List.length (profiles d') = List.length (profiles d)
         /\ forall r, In r (profiles d') ->
                      In r (profiles d) \/ Profile.updated_at r = now c).
Proof.
  split; intros wh assign H; apply sql_update_ok in H; cbn zeta in H;
    destruct H as (-> & _ & _); simpl; rewrite length_map; (split; [reflexivity|]);
    intros r Hr; apply in_map_iff in Hr; destruct Hr as (x & <- & Hx).
  - destruct (update_hits cart_table c wh d x); [right; reflexivity | now left].
  - destruct (update_hits profiles_table c wh d x); [right; reflexivity | now left].
Qed.

Lemma client_updates_are_stamped_witness :
  sql_update cart_table (Scenario.as_asha 40) (fun _ => true) Scenario.backdate
    Scenario.one_banana
  = Ok (1%nat,
        state_after (sql_update cart_table (Scenario.as_asha 40) (fun _ => true)
                       Scenario.backdate Scenario.one_banana) snd Scenario.one_banana)
  /\ forall r,
       In r (cart (state_after
                     (sql_update cart_table (Scenario.as_asha 40) (fun _ => true)
                        Scenario.backdate Scenario.one_banana) snd
                     Scenario.one_banana)) ->
       In r (cart Scenario.one_banana) \/ CartLine.updated_at r = 40.
Proof.
  assert (H : sql_update cart_table (Scenario.as_asha 40) (fun _ => true)
                Scenario.backdate Scenario.one_banana
              = Ok (1%nat,
                    state_after
                      (sql_update cart_table (Scenario.as_asha 40) (fun _ => true)
                         Scenario.backdate Scenario.one_banana) snd
                      Scenario.one_banana))
    by (vm_compute; reflexivity).
  split; [exact H|].
  exact (proj2 (proj1 (client_updates_are_stamped (Scenario.as_asha 40)
                         Scenario.one_banana _ 1%nat)
                  (fun _ => true) Scenario.backdate H)).
Defined.

Lemma in_own_orders_is_ownership (u : uuid) (d : db) (i : OrderItem.row) :
  in_own_orders (Some u) d i = owns_item u d i.
Proof.
  destruct (owns_item u d i) eqn:Ho.
  - unfold owns_item in Ho. apply existsb_exists in Ho. destruct Ho as (o & Hin & Ho).
    apply andb_true_iff in Ho. destruct Ho as (Hid & Hu).
    unfold in_own_orders, own_order_ids. apply existsb_exists.
    exists (Order.id o). split; [|apply N.eqb_eq in Hid; rewrite Hid; apply N.eqb_refl].
    apply in_map. apply filter_In. split; [exact Hin|].
    unfold visible. simpl. now rewrite Hu.
  - destruct (in_own_orders (Some u) d i) eqn:Hi; [|reflexivity].
    apply in_own_orders_owns in Hi. congruence.
Qed.

(** X19.  A signed-in requester reads exactly its own rows: a select on
    [profiles], [cart], [orders] or [order_items] returns the rows the
    filter selects among those the requester owns (order items through
    their order), all of them and in the order of the table. *)
Theorem requester_reads_its_own_rows (c : context) (u : uuid) (d : db) :
  auth_uid c = Some u ->
  (forall wh, sql_select profiles_table c wh d
              = filter (fun r => owns_profile u d r && wh r) (profiles d))
  /\ (forall wh, sql_select cart_table c wh d
                 = filter (fun r => owns_line u d r && wh r) (cart d))
  /\ (forall wh, sql_select orders_table c wh d
                 = filter (fun r => owns_order u d r && wh r) (orders d))
  /\ (forall wh, sql_select order_items_table c wh d
                 = filter (fun r => owns_item u d r && wh r) (order_items d)).
Proof.
  intros Hc. unfold sql_select, visible. simpl. rewrite Hc.
  repeat split; intros wh; apply filter_ext; intros r; try reflexivity.
  now rewrite in_own_orders_is_ownership.
Qed.

Lemma requester_reads_its_own_rows_witness :
  List.length (sql_select order_items_table (Scenario.as_asha 9) (fun _ => true)
                 Scenario.ordered) = 2%nat
  /\ sql_select order_items_table (Scenario.as_asha 9) (fun _ => true) Scenario.ordered
     = filter (fun r => owns_item Scenario.asha Scenario.ordered r && true)
              (order_items Scenario.ordered).
Proof.
  destruct (requester_reads_its_own_rows (Scenario.as_asha 9) Scenario.asha
              Scenario.ordered eq_refl) as (_ & _ & _ & Hitems).
  split; [vm_compute; reflexivity | apply Hitems].
Defined.

(** ** One profile per identity *)

Section UniqueKey.
Context {A K : Type} (P : K -> A -> bool) (key : A -> K).
Hypothesis P_key : forall k r, P k r = true -> k = key r.

Lemma unique_after_map (l : list A) (hit : A -> bool) (new : A -> A) :
  (forall k, (List.length (filter (P k) l) <= 1)%nat) ->
  (forall r, In r l -> hit r = true ->
             (List.length (filter (P (key (new r)))
                             (map (fun r => if hit r then new r else r) l)) <= 1)%nat) ->
  forall k, (List.length (filter (P k) (map (fun r => if hit r then new r else r) l))
             <= 1)%nat.
Proof.
  intros Hl Hnew k.
  destruct (existsb (fun r => hit r && P k (new r)) l) eqn:Hex.
  - apply existsb_exists in Hex. destruct Hex as (r & Hin & Hr).
    apply andb_true_iff in Hr. destruct Hr as (Hhit & Hk).
    apply P_key in Hk. subst k. now apply Hnew.
  - etransitivity; [apply filter_map_le | apply Hl].
    intros r Hin Hhit. apply (existsb_false_all _ _ Hex) in Hin.
    now rewrite Hhit in Hin.
Qed.

Lemma unique_after_insert (l : list A) (r : A) :
  (forall k, (List.length (filter (P k) l) <= 1)%nat) ->
  (List.length (filter (P (key r)) (l ++ [r])) <= 1)%nat ->
  forall k, (List.length (filter (P k) (l ++ [r])) <= 1)%nat.
Proof.
  intros Hl Hr k. destruct (P k r) eqn:Hk.
  - apply P_key in Hk. now subst k.
  - rewrite filter_app. simpl. rewrite Hk, app_nil_r. apply Hl.
Qed.
End UniqueKey.

Lemma profile_key (u : uuid) (r : Profile.row) :
  N.eqb u (Profile.user_id r) = true -> u = Profile.user_id r.
Proof. apply N.eqb_eq. Qed.

Lemma profile_unique_ok (tbl : list Profile.row) (r : Profile.row) :
  unique_ok profiles_table tbl r = true ->
  (List.length (filter (fun p => N.eqb (Profile.user_id r) (Profile.user_id p)) tbl)
   <= 1)%nat.
Proof.
  unfold unique_ok. simpl. rewrite andb_true_r, andb_true_iff.
  intros (_ & H). now apply Nat.leb_le in H.
Qed.

Lemma language_of_check (r : Profile.row) :
  checks_ok profiles_table r = true ->
  Profile.language r = None
  \/ Profile.language r = Some "en"%string
  \/ Profile.language r = Some "hi"%string.
Proof.
  simpl. destruct (Profile.language r) as [l|]; simpl; [|auto].
  rewrite !orb_true_iff, !String.eqb_eq.
  intros [->|[->|Hf]]; auto. discriminate.
Qed.

Lemma profiles_valid_with (d : db) (tbl : list Profile.row) :
  (forall u, (List.length (filter (fun p => N.eqb u (Profile.user_id p)) tbl) <= 1)%nat) ->
  (forall p, In p tbl ->
             Profile.language p = None
             \/ Profile.language p = Some "en"%string
             \/ Profile.language p = Some "hi"%string) ->
  profiles_valid (with_profiles tbl d).
Proof.
  intros Hu Hl. split; [exact Hu | exact Hl].
Qed.

Lemma profile_insert_keeps_valid (c : context) (r : Profile.row) (d : db) :
  profiles_valid d ->
  profiles_valid (state_after (sql_insert profiles_table c r d) (fun x => x) d).
Proof.
  intros (Hu & Hl). destruct (sql_insert profiles_table c r d) as [d'|e] eqn:H; simpl;
    [|now split].
  apply sql_insert_ok in H. destruct H as (Hd' & _ & _ & Hc).
  apply constrain_ok_inv in Hc. destruct Hc as (Hck & Hun & _).
  rewrite Hd' in Hun |- *. simpl in Hun. apply profiles_valid_with.
  - apply (unique_after_insert (fun u p => N.eqb u (Profile.user_id p))
             Profile.user_id profile_key); [exact Hu|].
    now apply profile_unique_ok.
  - intros p Hp. apply in_app_or in Hp. destruct Hp as [Hp|[<-|[]]].
    + now apply Hl.
    + now apply language_of_check.
Qed.

Lemma profile_update_keeps_valid (c : context) (wh : Profile.row -> bool)
    (assign : Profile.row -> Profile.row) (d : db) :
  profiles_valid d ->
  profiles_valid (state_after (sql_update profiles_table c wh assign d) snd d).
Proof.
  intros (Hu & Hl).
  destruct (sql_update profiles_table c wh assign d) as [[n d']|e] eqn:H; simpl;
    [|now split].
  apply sql_update_ok in H. cbn zeta in H. destruct H as (Hd' & _ & Hall).
  rewrite Hd'. apply profiles_valid_with.
  - apply (unique_after_map (fun u p => N.eqb u (Profile.user_id p))
             Profile.user_id profile_key); [exact Hu|].
    intros r Hin Hhit. destruct (Hall r Hin Hhit) as (_ & _ & Hc).
    apply constrain_ok_inv in Hc. destruct Hc as (_ & Hun & _).
    rewrite Hd' in Hun. simpl in Hun. now apply profile_unique_ok in Hun.
  - intros p Hp. apply in_map_iff in Hp. destruct Hp as (x & Hx & Hin).
    destruct (update_hits profiles_table c wh d x) eqn:Hhit.
    + subst p. destruct (Hall x Hin Hhit) as (_ & _ & Hc).
      apply constrain_ok_inv in Hc. destruct Hc as (Hck & _ & _).
      now apply language_of_check.
    + subst p. now apply Hl.
Qed.

Lemma signUp_keeps_valid (t : timestamptz) (data : list (string * json)) (d d' : db)
    (uid : uuid) :
  profiles_valid d -> auth_signUp t data d = Ok (uid, d') -> profiles_valid d'.
Proof.
  intros (Hu & Hl) H. apply auth_signUp_ok in H. cbn zeta in H.
  destruct H as (_ & Hd' & Hp). split.
  - intros u. destruct (N.eqb u uid) eqn:Heq.
    + apply N.eqb_eq in Heq. subst u. rewrite Hp. simpl. lia.
    + rewrite Hd'. unfold profile_of. simpl. rewrite filter_app. simpl.
      rewrite Heq, app_nil_r. apply Hu.
  - intros p Hp'. rewrite Hd' in Hp'. simpl in Hp'.
    apply in_app_or in Hp'. destruct Hp' as [Hp'|[<-|[]]]; [now apply Hl|].
    simpl. auto.
Qed.

(** X20.  Whatever a client asks of [profiles], and however the form is
    submitted, there is at most one profile per identity and the language
    of every profile is NULL, "en" or "hi". *)
Theorem profiles_stay_valid (c : context) (rq : profile_request) (d : db) :
  profiles_valid d -> profiles_valid (exec_profile c rq d).
Proof.
  intros Hd. destruct rq as [r|wh assign|wh|m f]; cbn [exec_profile].
  - now apply profile_insert_keeps_valid.
  - now apply profile_update_keeps_valid.
  - rewrite (delete_without_policy profiles_table with_profiles_same c d
               (fun _ => eq_refl) wh).
    exact Hd.
  - destruct m; try exact Hd. unfold AuthForm.handleSubmit.
    destruct (AuthForm.dataConsent f); simpl; [|exact Hd].
    destruct (auth_signUp (now c) (AuthForm.signUp_data f) d) as [[uid d']|e] eqn:H;
      simpl; [|exact Hd].
    eapply signUp_keeps_valid; eassumption.
Qed.

Lemma profiles_stay_valid_witness :
  profiles_valid (exec_profile (Scenario.as_asha 5)
                    (UpdateProfiles (fun _ => true) Scenario.speak_hindi)
                    Scenario.signed_up)
  /\ map Profile.language
       (profiles (exec_profile (Scenario.as_asha 5)
                    (UpdateProfiles (fun _ => true) Scenario.speak_hindi)
                    Scenario.signed_up))
     = [Some "hi"%string; Some "en"%string].
Proof.
  split; [|vm_compute; reflexivity].
  apply profiles_stay_valid.
  apply (profiles_stay_valid (Scenario.anonymous 2)
           (SubmitForm AuthForm.signup (Scenario.form_of "Ravi" "9800000002" "en"))).
  apply (profiles_stay_valid (Scenario.anonymous 1)
           (SubmitForm AuthForm.signup (Scenario.form_of "Asha" "9800000001" "hi"))).
  split; [intros u; simpl; lia | intros p []].
Defined.

(** ** From the stepper back to ADD *)

(** X21.  Pressing [-] on a product card that shows a quantity of 1
    deletes the line of the pair: the home page then reads a quantity of 0
    for the product, so the card shows ADD again. *)
Theorem minus_at_one_returns_to_add (c : context) (u : uuid) (product : Product.row)
    (d : db) :
  auth_uid c = Some u ->
  ProductCard.rendered 1 ProductCard.Minus = true
  /\ lines_of u (Product.id product)
       (snd (ProductCard.onClick c product 1 ProductCard.Minus d)) = []
  /\ Home.getCartQuantity
       (Home.fetchCartItems c (snd (ProductCard.onClick c product 1 ProductCard.Minus d)))
       (Product.id product) = 0
  /\ ProductCard.rendered
       (Home.getCartQuantity
          (Home.fetchCartItems c
             (snd (ProductCard.onClick c product 1 ProductCard.Minus d)))
          (Product.id product)) ProductCard.Add = true.
Proof.
  intros Hc.
  assert (Hcall : ProductCard.onClick c product 1 ProductCard.Minus d
                  = (Completed,
                     with_cart (filter (fun l => negb (is_line_of u (Product.id product) l))
                                       (cart d)) d))
    by exact (card_updateQuantity_zero c u (Product.id product) d Hc).
  rewrite Hcall. cbn [snd].
  assert (Hnone : lines_of u (Product.id product)
                    (with_cart (filter (fun l => negb (is_line_of u (Product.id product) l))
                                       (cart d)) d) = []).
  { unfold lines_of. simpl. apply filter_none. intros x Hx.
    apply filter_In in Hx. destruct Hx as (_ & Hx). now apply negb_true_iff in Hx. }
  assert (Hzero : Home.getCartQuantity
                    (Home.fetchCartItems c
                       (with_cart
                          (filter (fun l => negb (is_line_of u (Product.id product) l))
                                  (cart d)) d))
                    (Product.id product) = 0).
  { unfold Home.getCartQuantity.
    destruct (find _ _) as [i|] eqn:Hf; [|reflexivity].
    exfalso. apply find_some in Hf. destruct Hf as (Hi & Hp).
    unfold Home.fetchCartItems in Hi. rewrite Hc in Hi.
    apply in_map_iff in Hi. destruct Hi as (l & <- & Hl).
    apply filter_In in Hl. destruct Hl as (Hl & Hw).
    apply andb_true_iff in Hw. destruct Hw as (_ & Hu).
    simpl in Hp. apply N.eqb_eq in Hp, Hu.
    assert (Hin : In l (lines_of u (Product.id product)
                          (with_cart
                             (filter (fun l => negb (is_line_of u (Product.id product) l))
                                     (cart d)) d))).
    { apply filter_In. split; [exact Hl|]. unfold is_line_of.
      now rewrite Hu, Hp, !N.eqb_refl. }
    rewrite Hnone in Hin. contradiction. }
  split; [reflexivity|]. split; [exact Hnone|]. split; [exact Hzero|].
  rewrite Hzero. reflexivity.
Qed.

Lemma minus_at_one_returns_to_add_witness :
  Home.getCartQuantity
    (Home.fetchCartItems (Scenario.as_asha 4) Scenario.one_banana) Seed.banana = 1
  /\ Home.getCartQuantity
       (Home.fetchCartItems (Scenario.as_asha 4)
          (snd (ProductCard.onClick (Scenario.as_asha 4)
                  (Seed.product Seed.banana "Banana" "केला" "Fresh bananas" 4000 ""
                     Seed.fruits "Fresh" "kg" 100)
                  1 ProductCard.Minus Scenario.one_banana)))
       Seed.banana = 0.
Proof.
  split; [vm_compute; reflexivity|].
  apply (minus_at_one_returns_to_add (Scenario.as_asha 4) Scenario.asha
           (Seed.product Seed.banana "Banana" "केला" "Fresh bananas" 4000 ""
              Seed.fruits "Fresh" "kg" 100)
           Scenario.one_banana eq_refl).
Defined.

(** ** The order card *)

Lemma render_all_none {A B : Type} (f : A -> option B) (l : list A) :
  Orders.render_all f l = None <-> exists x, In x l /\ f x = None.
Proof.
  induction l as [|a l IH]; simpl.
  - split; [discriminate | intros (x & [] & _)].
  - destruct (f a) as [y|] eqn:Ha.
    + destruct (Orders.render_all f l) as [ys|]; simpl.
      * split; [discriminate|]. intros (x & [<-|Hx] & Hn); [congruence|].
        assert (Hno : Some ys = None) by (apply (proj2 IH); eauto).
        discriminate Hno.
      * split; [|reflexivity]. intros _.
        destruct (proj1 IH eq_refl) as (x & Hx & Hn). eauto.
    + split; [|reflexivity]. intros _. eauto.
Qed.

Lemma render_all_some {A B : Type} (f : A -> option B) (l : list A) (ys : list B) :
  Orders.render_all f l = Some ys -> Forall2 (fun x y => f x = Some y) l ys.
Proof.
  revert ys. induction l as [|a l IH]; simpl; intros ys H.
  - injection H as <-. constructor.
  - destruct (f a) as [y|] eqn:Hy; [|discriminate].
    destruct (Orders.render_all f l) as [zs|]; [|discriminate].
    injection H as <-. constructor; [exact Hy | now apply IH].
Qed.

Lemma Forall2_same_length {A B : Type} (R : A -> B -> Prop) (l : list A) (ys : list B) :
  Forall2 R l ys -> List.length ys = List.length l.
Proof.
  induction 1; simpl; [reflexivity | now f_equal].
Qed.

Lemma In_firstn_In {A : Type} (n : nat) (l : list A) (x : A) :
  In x (firstn n l) -> In x l.
Proof.
  intros H. rewrite <- (firstn_skipn n l). apply in_or_app. now left.
Qed.

Lemma orders_embed_product_none (c : context) (d : db) (pid : uuid) :
  Orders.embed_product c d pid = None
  <-> forall p, In p (products d) -> Product.id p = pid ->
                Product.is_active p <> Some true.
Proof.
  unfold Orders.embed_product.
  destruct (find _ _) as [x|] eqn:Hf; simpl.
  - split; [discriminate|]. intros H. exfalso.
    apply find_some in Hf. destruct Hf as (Hin & Hid).
    apply select_products_spec in Hin. destruct Hin as (Hin & Ha & _).
    apply N.eqb_eq in Hid. exact (H x Hin Hid Ha).
  - split; [|reflexivity]. intros _ p Hp Hid Ha.
    assert (Hsel : In p (sql_select products_table c (fun _ => true) d))
      by (apply select_products_spec; auto).
    apply (find_none _ _ Hf) in Hsel. rewrite Hid, N.eqb_refl in Hsel. discriminate.
Qed.

(** The orders the page fetches are the views of the requester's orders. *)
Lemma fetchOrders_In (c : context) (u : uuid) (d : db) (o : Orders.Order) :
  auth_uid c = Some u ->
  (In o (Orders.fetchOrders c d)
   <-> exists r, In r (orders d) /\ Order.user_id r = u
                 /\ Orders.id o = Order.id r
                 /\ Orders.order_items o = Orders.embed_items c d (Order.id r)
                 /\ In o (Orders.fetchOrders c d)).
Proof.
  intros Hc. split; [|intros (r & _ & _ & _ & _ & H); exact H].
  intros Ho. pose proof Ho as Ho'.
  unfold Orders.fetchOrders in Ho. rewrite Hc in Ho.
  apply in_map_iff in Ho. destruct Ho as (r & <- & Hr).
  apply (Permutation_in _ (order_desc_perm _)) in Hr.
  unfold sql_select in Hr. apply filter_In in Hr. destruct Hr as (Hr & Hw).
  apply andb_true_iff in Hw. destruct Hw as (_ & Hu). apply N.eqb_eq in Hu.
  exists r. repeat split; assumption.
Qed.

Lemma fetchOrders_has (c : context) (u : uuid) (d : db) (r : Order.row) :
  auth_uid c = Some u -> In r (orders d) -> Order.user_id r = u ->
  exists o, In o (Orders.fetchOrders c d)
            /\ Orders.order_items o = Orders.embed_items c d (Order.id r).
Proof.
  intros Hc Hr Hu. unfold Orders.fetchOrders. rewrite Hc.
  eexists. split.
  - apply in_map_iff. exists r. split; [reflexivity|].
    apply (Permutation_in _ (Permutation_sym (order_desc_perm _))).
    unfold sql_select. apply filter_In. split; [exact Hr|].
    unfold visible. simpl. rewrite Hc, Hu. simpl. now rewrite N.eqb_refl.
  - reflexivity.
Qed.

(** The items embedded in an order of the requester are the views of its
    rows of [order_items]. *)
Lemma embed_items_own (c : context) (u : uuid) (d : db) (r : Order.row) :
  auth_uid c = Some u -> In r (orders d) -> Order.user_id r = u ->
  Orders.embed_items c d (Order.id r)
  = map (fun i => {| Orders.quantity := OrderItem.quantity i;
                     Orders.unit_price := OrderItem.unit_price i;
                     Orders.product :=
                       Orders.embed_product c d (OrderItem.product_id i) |})
        (filter (fun i => N.eqb (OrderItem.order_id i) (Order.id r)) (order_items d)).
Proof.
  intros Hc Hr Hu. unfold Orders.embed_items, sql_select. f_equal.
  apply filter_ext_in. intros i _.
  destruct (N.eqb (OrderItem.order_id i) (Order.id r)) eqn:Hi; [|apply andb_false_r].
  apply N.eqb_eq in Hi.
  rewrite (own_order_items_visible c u d r i Hc Hr Hu Hi). reflexivity.
Qed.

(** X22.  An order card throws exactly when one of the first two items of
    the order comes without a product; otherwise it lists those items with
    their quantity and unit price and announces the others as "+n more
    items", so that every item is listed or counted.  The page renders, one
    card per order, when every item of the requester's orders is for an
    active product; it throws when an order of the requester with at most
    two items has one for a product that is not active. *)
Theorem order_card_lists_two_or_throws :
  (forall o,
      Orders.order_card o = None
      <-> exists item, In item (firstn 2 (Orders.order_items o))
                       /\ Orders.product item = None)
  /\ (forall o v,
         Orders.order_card o = Some v ->
         map (fun l => (Orders.qty l, Orders.price l)) (Orders.listed v)
         = map (fun i => (Orders.quantity i, Orders.unit_price i))
               (firstn 2 (Orders.order_items o))
         /\ (List.length (Orders.listed v)
             + match Orders.more v with Some n => n | None => 0 end
             = List.length (Orders.order_items o))%nat
         /\ (Orders.more v = None <-> (List.length (Orders.order_items o) <= 2)%nat))
  /\ (forall c u d,
         auth_uid c = Some u ->
         (forall o i, In o (orders d) -> Order.user_id o = u ->
                      In i (order_items d) -> OrderItem.order_id i = Order.id o ->
                      exists p, In p (products d)
                                /\ Product.id p = OrderItem.product_id i
                                /\ Product.is_active p = Some true) ->
         exists cards,
           Orders.render_orders (Orders.fetchOrders c d) = Some cards
           /\ List.length cards = List.length (Orders.fetchOrders c d))
  /\ (forall c u d o i,
         auth_uid c = Some u ->
         In o (orders d) -> Order.user_id o = u ->
         In i (order_items d) -> OrderItem.order_id i = Order.id o ->
         (List.length (filter (fun j => N.eqb (OrderItem.order_id j) (Order.id o))
                              (order_items d)) <= 2)%nat ->
         (forall p, In p (products d) -> Product.id p = OrderItem.product_id i ->
                    Product.is_active p <> Some true) ->
         Orders.render_orders (Orders.fetchOrders c d) = None).
Proof.
  assert (Hcard : forall o,
             Orders.order_card o = None
             <-> exists item, In item (firstn 2 (Orders.order_items o))
                              /\ Orders.product item = None).
  { intros o. unfold Orders.order_card, Orders.listed_items.
    destruct (Orders.render_all Orders.render_item (firstn 2 (Orders.order_items o)))
      as [items|] eqn:Hr; simpl.
    - split; [discriminate|]. intros (item & Hin & Hn). exfalso.
      assert (Hnone : Orders.render_all Orders.render_item
                        (firstn 2 (Orders.order_items o)) = None).
      { apply render_all_none. exists item. split; [exact Hin|].
        unfold Orders.render_item. now rewrite Hn. }
      congruence.
    - split; [|reflexivity]. intros _.
      apply render_all_none in Hr. destruct Hr as (item & Hin & Hn).
      exists item. split; [exact Hin|].
      unfold Orders.render_item in Hn.
      destruct (Orders.product item); [discriminate | reflexivity]. }
  split; [exact Hcard|]. split; [|split].
  - intros o v Hv. unfold Orders.order_card, Orders.listed_items in Hv.
    destruct (Orders.render_all Orders.render_item (firstn 2 (Orders.order_items o)))
      as [items|] eqn:Hr; [|discriminate].
    simpl in Hv. injection Hv as <-. cbn [Orders.listed Orders.more].
    apply render_all_some in Hr.
    pose proof (Forall2_same_length _ _ _ Hr) as Hlen.
    rewrite length_firstn in Hlen.
    split; [|split].
    + clear Hlen. induction Hr as [|x y l ys Hxy _ IH]; [reflexivity|].
      simpl. rewrite IH. f_equal.
      unfold Orders.render_item in Hxy.
      destruct (Orders.product x); [|discriminate]. now injection Hxy as <-.
    + unfold Orders.more_items.
      destruct (2 <? List.length (Orders.order_items o))%nat eqn:Hn.
      * apply Nat.ltb_lt in Hn. lia.
      * apply Nat.ltb_ge in Hn. lia.
    + unfold Orders.more_items.
      destruct (2 <? List.length (Orders.order_items o))%nat eqn:Hn.
      * apply Nat.ltb_lt in Hn. split; [discriminate | lia].
      * apply Nat.ltb_ge in Hn. split; [intros _; exact Hn | reflexivity].
  - intros c u d Hc Hactive.
    destruct (Orders.render_orders (Orders.fetchOrders c d)) as [cards|] eqn:Hr.
    + exists cards. split; [reflexivity|].
      apply render_all_some in Hr. exact (Forall2_same_length _ _ _ Hr).
    + exfalso. apply render_all_none in Hr. destruct Hr as (o & Ho & Hn).
      apply (fetchOrders_In c u d o Hc) in Ho.
      destruct Ho as (r & Hr & Hu & _ & Hitems & _).
      apply Hcard in Hn. destruct Hn as (item & Hin & Hp).
      apply In_firstn_In in Hin.
      rewrite Hitems, (embed_items_own c u d r Hc Hr Hu) in Hin.
      apply in_map_iff in Hin. destruct Hin as (i & <- & Hi).
      apply filter_In in Hi. destruct Hi as (Hi & Hoid). apply N.eqb_eq in Hoid.
      simpl in Hp.
      destruct (Hactive r i Hr Hu Hi Hoid) as (p & Hpin & Hpid & Hpa).
      exact (proj1 (orders_embed_product_none c d _) Hp p Hpin Hpid Hpa).
  - intros c u d r i Hc Hr Hu Hi Hoid Hlen Hinactive.
    apply render_all_none.
    destruct (fetchOrders_has c u d r Hc Hr Hu) as (o & Ho & Hitems).
    exists o. split; [exact Ho|]. apply Hcard.
    exists {| Orders.quantity := OrderItem.quantity i;
              Orders.unit_price := OrderItem.unit_price i;
              Orders.product := Orders.embed_product c d (OrderItem.product_id i) |}.
    split.
    + rewrite Hitems, (embed_items_own c u d r Hc Hr Hu).
      rewrite firstn_all2 by (rewrite length_map; exact Hlen).
      apply in_map_iff. exists i. split; [reflexivity|].
      apply filter_In. split; [exact Hi|]. rewrite Hoid. apply N.eqb_refl.
    + simpl. exact (proj2 (orders_embed_product_none c d _) Hinactive).
Qed.

(** Asha's order of Banana and Milk is shown as one card with both items;
    once the shop has retired Banana the page throws. *)
Lemma order_card_lists_two_or_throws_witness :
  (exists cards,
      Orders.render_orders (Orders.fetchOrders (Scenario.as_asha 9) Scenario.ordered)
      = Some cards
      /\ List.length cards
         = List.length (Orders.fetchOrders (Scenario.as_asha 9) Scenario.ordered))
  /\ map (fun v => (map (fun l => (Orders.title l, Orders.qty l, Orders.price l))
                       (Orders.listed v), Orders.more v))
       (match Orders.render_orders
                (Orders.fetchOrders (Scenario.as_asha 9) Scenario.ordered) with
        | Some cards => cards
        | None => []
        end)
     = [([("Banana"%string, 2, 4000); ("Milk"%string, 1, 5500)], None)]
  /\ Orders.render_orders
       (Orders.fetchOrders (Scenario.as_asha 9) Scenario.banana_retired) = None.
Proof.
  destruct order_card_lists_two_or_throws as (_ & _ & Hall & Hone).
  split; [|split].
  - apply (Hall (Scenario.as_asha 9) Scenario.asha Scenario.ordered eq_refl).
    intros o i _ _ Hi _. vm_compute in Hi.
    destruct Hi as [<-|[<-|[]]].
    + eexists. split; [vm_compute; left; reflexivity|].
      split; reflexivity.
    + eexists. split; [vm_compute; right; right; left; reflexivity|].
      split; reflexivity.
  - vm_compute. reflexivity.
  - eapply (Hone (Scenario.as_asha 9) Scenario.asha Scenario.banana_retired).
    + reflexivity.
    + vm_compute. left. reflexivity.
    + reflexivity.
    + vm_compute. left. reflexivity.
    + reflexivity.
    + vm_compute. lia.
    + intros p Hp Hid. vm_compute in Hp.
      repeat (destruct Hp as [<-|Hp]; [vm_compute; try discriminate;
                                       vm_compute in Hid; discriminate Hid|]).
      contradiction.
Defined.

(** ** What the policies of [order_items] do not check *)

(** X23.  The policy of [order_items] looks at the owner of the order and
    at nothing else: a requester can add to an order of its own an item for
    any existing product with any quantity from 1 to 2^31 - 1 and any unit
    and total price that fit [DECIMAL(10,2)], whatever the product costs
    and whether or not the total is the unit price times the quantity. *)
Theorem own_order_item_prices_are_not_checked (c : context) (u : uuid) (d : db)
    (o : Order.row) (r : OrderItem.row) :
  auth_uid c = Some u ->
  In o (orders d) -> Order.user_id o = u -> OrderItem.order_id r = Order.id o ->
  ~ In (OrderItem.id r) (map OrderItem.id (order_items d)) ->
  product_exists d (OrderItem.product_id r) = true ->
  0 < OrderItem.quantity r < 2 ^ 31 ->
  Z.abs (OrderItem.unit_price r) < 10 ^ 10 ->
  Z.abs (OrderItem.total_price r) < 10 ^ 10 ->
  sql_insert order_items_table c r d
  = Ok (with_order_items (order_items d ++ [r]) d).
Proof.
  intros Hc Ho Hu Hoid Hfresh Hprod Hq Hunit Htotal.
  unfold sql_insert.
  assert (Hty : types_ok order_items_table r = true).
  { simpl. unfold integer_ok, decimal_10_2_ok.
    rewrite !andb_true_iff, Z.leb_le, !Z.ltb_lt. lia. }
  assert (Hrls : allows (for_insert (policy order_items_table (auth_uid c) d)) r = true)
    by exact (own_order_items_visible c u d o r Hc Ho Hu Hoid).
  rewrite Hty, Hrls. cbn [guard bind].
  assert (Hcon : constrain order_items_table
                   (with_rows order_items_table (rows order_items_table d ++ [r]) d) r
                 = Ok tt).
  { unfold constrain.
    assert (Hck : checks_ok order_items_table r = true)
      by (simpl; apply Z.ltb_lt; lia).
    assert (Hun : unique_ok order_items_table
                    (rows order_items_table
                       (with_rows order_items_table (rows order_items_table d ++ [r]) d))
                    r = true).
    { change (rows order_items_table
                (with_rows order_items_table (rows order_items_table d ++ [r]) d))
        with (order_items d ++ [r]).
      unfold unique_ok. simpl. rewrite andb_true_r. apply Nat.leb_le.
      rewrite filter_app_last by apply N.eqb_refl.
      rewrite filter_none; [simpl; lia|].
      intros x Hx. apply N.eqb_neq. intros Heq. apply Hfresh. rewrite Heq.
      now apply in_map. }
    assert (Hfk : references_ok order_items_table
                    (with_rows order_items_table (rows order_items_table d ++ [r]) d) r
                  = true).
    { simpl. unfold order_exists, product_exists in *. simpl.
      rewrite Hprod, andb_true_r.
      apply existsb_exists. exists o. split; [exact Ho|]. rewrite Hoid.
      apply N.eqb_refl. }
    rewrite Hck, Hun, Hfk. reflexivity. }
  rewrite Hcon. reflexivity.
Qed.

Lemma own_order_item_prices_are_not_checked_witness :
  Checkout.price_of Scenario.ordered Seed.banana = Some 4000
  /\ sql_insert order_items_table (Scenario.as_asha 9) Scenario.cheap_banana
       Scenario.ordered
     = Ok (with_order_items (order_items Scenario.ordered ++ [Scenario.cheap_banana])
             Scenario.ordered).
Proof.
  split; [vm_compute; reflexivity|].
  eapply (own_order_item_prices_are_not_checked (Scenario.as_asha 9) Scenario.asha
            Scenario.ordered).
  - reflexivity.
  - vm_compute. left. reflexivity.
  - reflexivity.
  - reflexivity.
  - vm_compute. intros [H|[H|[]]]; discriminate.
  - vm_compute. reflexivity.
  - vm_compute. split; reflexivity.
  - vm_compute. reflexivity.
  - vm_compute. reflexivity.
Defined.
